(** * bq_dts.base_connector: the transfer-run lifecycle, embedded in Rocq

    A shallow embedding of [src/bq_dts/base_connector.py]:
    - [TransferRunLogger] (the buffering log handler),
    - [ManagedTransferRun] (the context manager: [__enter__], [__exit__],
      the heartbeat callback [_update_bq_dts] and the timeout callback
      [_timeout]),
    - [BaseConnector.pubsub_callback] (ack / nack policy),
    - [TableContext.to_ImportedDataInfo] (over an explicit object heap),
    - the other methods of [BaseConnector]: [process_args], [run],
      [trigger_via_file], [validate_transfer_run_params],
      [process_transfer_run], [stage_data_for_transfer_run],
      [stage_tables_locally] and the two loaders
      [start_bigquery_jobs_via_dts_apis] and
      [start_bigquery_jobs_via_bq_apis],
    - [templatize_table_name] and the [table_stager] decorator.

    Python's mutable objects are threaded through a state-and-exception
    monad; every externally visible effect (timer operations, calls on the
    tracking-service client, application log lines, ack / nack) is appended
    to a chronological trace. *)

From Stdlib Require Import ZArith Bool Lia.
From stdpp Require Import gmap strings list fin_maps pretty.

Local Open Scope Z_scope.

(* ===================================================================== *)
(** ** Exceptions *)
(* ===================================================================== *)

(** The exception classes the module distinguishes.  [HttpError] is
    [googleapiclient.errors.HttpError] with [resp.status] and [content];
    [KeyboardInterrupt] stands for the exceptions that derive from
    [BaseException] but not from [Exception]. *)
Inductive exn : Type :=
  | HttpError (status : Z) (content : string)
  | AssertionError
  | TimeoutError
  | KeyError (key : string)
  | IndexError
  | TypeError
  | AttributeError
  | RecursionError
  | OtherException (cls : string)
  | KeyboardInterrupt.

Definition isinstance_HttpError (e : exn) : bool :=
  match e with HttpError _ _ => true | _ => false end.

Definition isinstance_AssertionError (e : exn) : bool :=
  match e with AssertionError => true | _ => false end.

Definition isinstance_Exception (e : exn) : bool :=
  match e with KeyboardInterrupt => false | _ => true end.

Definition exn_class (e : exn) : string :=
  match e with
  | HttpError _ _ => "googleapiclient.errors.HttpError"
  | AssertionError => "AssertionError"
  | TimeoutError => "TimeoutError"
  | KeyError _ => "KeyError"
  | IndexError => "IndexError"
  | TypeError => "TypeError"
  | AttributeError => "AttributeError"
  | RecursionError => "RecursionError"
  | OtherException cls => cls
  | KeyboardInterrupt => "KeyboardInterrupt"
  end.

(** [''.join(traceback.format_exception(exc_type, exc, exc_tb))]: the
    stack frames are not modelled, only the header and the final line. *)
Definition format_exception (e : exn) : string :=
  "Traceback (most recent call last):" +:+ exn_class e.

(** Truth value of a list: empty lists are false. *)
Definition truthy {A} (l : list A) : bool :=
  match l with [] => false | _ :: _ => true end.

(** Outcome of a Python call: a value, or a raised exception. *)
Inductive result (A : Type) : Type :=
  | Return (a : A)
  | Raise (e : exn).
Arguments Return {A} a.
Arguments Raise {A} e.

(* ===================================================================== *)
(** ** Values of [rest_client] *)
(* ===================================================================== *)

(** Modelled from the spec: [rest_client.MessageSeverity] is not among the
    sources; the spec gives a log entry's severity as one of INFO, WARNING,
    ERROR.  Its members are taken to be truthy, as enum members are. *)
Inductive MessageSeverity : Type := SEV_INFO | SEV_WARNING | SEV_ERROR.

(** Modelled from the spec: [rest_client.TransferState] is not among the
    sources; the spec gives the run states RUNNING, SUCCEEDED, FAILED. *)
Inductive TransferState : Type := RUNNING | SUCCEEDED | FAILED.

(** The [dict(message_time=..., severity=..., message_text=...)] built by
    [TransferRunLogger.emit]. *)
Record TransferMessage : Type := mkMessage {
  message_time : Z;
  severity : MessageSeverity;
  message_text : string
}.

(** Level names of the [logging] module, with their numeric values. *)
Inductive Level : Type := DEBUG | INFO | WARNING | ERROR | CRITICAL.

Definition levelno (l : Level) : Z :=
  match l with
  | DEBUG => 10 | INFO => 20 | WARNING => 30 | ERROR => 40 | CRITICAL => 50
  end.

(* ===================================================================== *)
(** ** Observable effects and the state of one run *)
(* ===================================================================== *)

Inductive timer_id : Type := timer_update_bq_dts | timer_timeout.

(** The three methods of the tracking-service client that the context
    manager calls, with their arguments. *)
Inductive dts_call : Type :=
  | transfer_run_log_messages (run : string) (transferMessages : list TransferMessage)
  | transfer_run_patch_state (run : string) (st : TransferState)
  | transfer_run_finish_run (run : string).

Inductive event : Type :=
  | EvTimerStart (t : timer_id)
  | EvTimerStop (t : timer_id)
  | EvDts (c : dts_call)
  | EvLogger (lvl : Level) (text : string)
  | EvAck
  | EvNack.

(** The attributes of a [ManagedTransferRun] that its methods read or
    write, together with the environment they act on:
    - [has_dts_client]: truthiness of [self.dts_client];
    - [msgs]: [self._log_handler.msgs];
    - [update_running], [timeout_running]: whether each [RepeatedTimer] is
      started;
    - [clock]: the time a new log record is stamped with;
    - [responses]: what the tracking service answers to the successive
      calls made on the client, [None] for a normal return and [Some e]
      for a call that raises [e]; calls beyond the list return normally;
    - [trace]: the effects so far, oldest first. *)
Record state : Type := mkState {
  name : string;
  has_dts_client : bool;
  msgs : list TransferMessage;
  update_running : bool;
  timeout_running : bool;
  update_interval : Z;
  timeout_interval : Z;
  clock : Z;
  responses : list (option exn);
  trace : list event
}.

Definition set_msgs (m : list TransferMessage) (s : state) : state :=
  mkState (name s) (has_dts_client s) m (update_running s) (timeout_running s)
          (update_interval s) (timeout_interval s) (clock s) (responses s) (trace s).

Definition set_running (t : timer_id) (b : bool) (s : state) : state :=
  match t with
  | timer_update_bq_dts =>
      mkState (name s) (has_dts_client s) (msgs s) b (timeout_running s)
              (update_interval s) (timeout_interval s) (clock s) (responses s) (trace s)
  | timer_timeout =>
      mkState (name s) (has_dts_client s) (msgs s) (update_running s) b
              (update_interval s) (timeout_interval s) (clock s) (responses s) (trace s)
  end.

Definition set_responses (r : list (option exn)) (s : state) : state :=
  mkState (name s) (has_dts_client s) (msgs s) (update_running s) (timeout_running s)
          (update_interval s) (timeout_interval s) (clock s) r (trace s).

Definition record_event (e : event) (s : state) : state :=
  mkState (name s) (has_dts_client s) (msgs s) (update_running s) (timeout_running s)
          (update_interval s) (timeout_interval s) (clock s) (responses s) (trace s ++ [e]).

(* ===================================================================== *)
(** ** The state-and-exception monad *)
(* ===================================================================== *)

(** A computation over a mutable store [S] that returns or raises; the
    store is kept when an exception is raised, as Python keeps the effects
    made before a [raise]. *)

Definition M (S A : Type) : Type := S -> result A * S.

Definition ret {S A} (a : A) : M S A := fun s => (Return a, s).

Definition raise {S A} (e : exn) : M S A := fun s => (Raise e, s).

Definition bind {S A B} (m : M S A) (k : A -> M S B) : M S B :=
  fun s =>
    match m s with
    | (Return a, s') => k a s'
    | (Raise e, s') => (Raise e, s')
    end.

Definition get {S} : M S S := fun s => (Return s, s).

Definition modify {S} (f : S -> S) : M S unit := fun s => (Return tt, f s).

(** [try: m  except Exception as e: h e]: exceptions that are not
    instances of [Exception] pass through. *)
Definition try_except_Exception {S A} (m : M S A) (h : exn -> M S A) : M S A :=
  fun s =>
    match m s with
    | (Return a, s') => (Return a, s')
    | (Raise e, s') =>
        if isinstance_Exception e then h e s' else (Raise e, s')
    end.

Declare Scope py_scope.
Delimit Scope py_scope with py.
Notation "x <- m ;; k" := (bind m (fun x => k))
  (at level 100, m at next level, k at level 200, right associativity) : py_scope.
Notation "m ;; k" := (bind m (fun _ => k))
  (at level 100, k at level 200, right associativity) : py_scope.
Local Open Scope py_scope.

(* ===================================================================== *)
(** ** Collaborators: application logger, timers, tracking-service client *)
(* ===================================================================== *)

(** [self.logger.info(...)] / [self.logger.error(...)]: the application
    logger is the parent of the run logger; its records never reach the
    buffering handler, which is attached to the child. *)
Definition logger_log (lvl : Level) (text : string) : M state unit :=
  modify (record_event (EvLogger lvl text)).

(** Modelled from the spec: [helpers.RepeatedTimer] is not among the
    sources.  The spec's Timer contract: [start()] begins periodic firing,
    [stop()] halts future firing and is idempotent, [run_now()] invokes the
    callback immediately, out of schedule.  Firing on the timer's own
    schedule is concurrent with the run body and is not part of this
    sequential model; the callbacks themselves are ([_update_bq_dts],
    [_timeout]). *)
Definition timer_start (t : timer_id) : M state unit :=
  modify (fun s => record_event (EvTimerStart t) (set_running t true s)).

Definition timer_stop (t : timer_id) : M state unit :=
  modify (fun s => record_event (EvTimerStop t) (set_running t false s)).

Definition timer_run_now {A} (callback : M state A) : M state A := callback.

(** A call on [self.dts_client]: it is recorded, and it returns or raises
    as the next response of the tracking service says. *)
Definition dts (c : dts_call) : M state unit :=
  fun s =>
    let s1 := record_event (EvDts c) s in
    match responses s with
    | [] => (Return tt, s1)
    | None :: rest => (Return tt, set_responses rest s1)
    | Some e :: rest => (Raise e, set_responses rest s1)
    end.

(* ===================================================================== *)
(** ** TransferRunLogger *)
(* ===================================================================== *)

Module TransferRunLogger.

Definition LEVEL_TO_SEVERITY_MAP (levelname : Level) : option MessageSeverity :=
  match levelname with
  | INFO => Some SEV_INFO
  | WARNING => Some SEV_WARNING
  | ERROR => Some SEV_ERROR
  | _ => None
  end.

(** [emit(record)]: records whose level name has no severity are dropped;
    the others are appended to [self.msgs]. *)
Definition emit (levelname : Level) (created : Z) (text : string) : M state unit :=
  match LEVEL_TO_SEVERITY_MAP levelname with
  | None => ret tt
  | Some msg_severity =>
      modify (fun s => set_msgs (msgs s ++ [mkMessage created msg_severity text]) s)
  end.

(** [flush()]: [self.msgs = list()]. *)
Definition flush : M state unit := modify (set_msgs []).

End TransferRunLogger.

(* ===================================================================== *)
(** ** ManagedTransferRun *)
(* ===================================================================== *)

Module ManagedTransferRun.

(** [self.run_logger.<level>(text)].  [__init__] sets the run logger and
    the handler both to level INFO: a record below the logger's level is
    not created, one below the handler's level is not handed to it. *)
Definition run_logger_log (lvl : Level) (text : string) : M state unit :=
  if levelno lvl <? levelno INFO then ret tt
  else if levelno lvl <? levelno INFO then ret tt
  else s <- get ;; TransferRunLogger.emit lvl (clock s) text.

(** The text logged by an idle heartbeat.  The source literal is not an
    f-string, so the braces are sent as they are. *)
Definition processing_text : string :=
  "Processing... next update within {self._timer_update_bq_dts.interval} second(s)".

Definition _update_bq_dts : M state unit :=
  s <- get ;;
  (if negb (truthy (msgs s)) then run_logger_log INFO processing_text
   else ret tt) ;;
  s <- get ;;
  (if has_dts_client s && truthy (msgs s)
   then dts (transfer_run_log_messages (name s) (msgs s))
   else ret tt) ;;
  TransferRunLogger.flush.

Definition timeout_text (interval : Z) : string :=
  "Transfer Run timed out after " +:+ pretty interval +:+ " second(s)!".

Definition _timeout : M state unit :=
  s <- get ;;
  run_logger_log ERROR (timeout_text (timeout_interval s)) ;;
  raise TimeoutError.

(** [__exit__(exc_type, exc, exc_tb)]: [None] stands for the triple
    [(None, None, None)], [Some e] for the triple of a raised [e]. *)
Definition __exit__ (exc : option exn) : M state bool :=
  (* Step 1 - Stop timers *)
  timer_stop timer_timeout ;;
  timer_stop timer_update_bq_dts ;;
  (* Step 3 - Short-circuit on a BQ DTS API exception *)
  if from_option isinstance_HttpError false exc then ret false
  else
    (* Step 4 - Log the exception to the run *)
    let is_exception := match exc with Some _ => true | None => false end in
    match exc with
    | Some e => run_logger_log ERROR (format_exception e)
    | None => ret tt
    end ;;
    (* Step 5 - Notify BQ DTS of run completion *)
    s <- get ;;
    (if has_dts_client s then
       timer_run_now _update_bq_dts ;;
       (if is_exception then
          dts (transfer_run_patch_state (name s) FAILED) ;;
          logger_log INFO ("[" +:+ name s +:+ "] BQ DTS ; Finishing Run - FAILED")
        else
          logger_log INFO ("[" +:+ name s +:+ "] BQ DTS ; Finishing Run - SUCCESS")) ;;
       dts (transfer_run_finish_run (name s))
     else ret tt) ;;
    (* Step 6 *)
    logger_log INFO ("[" +:+ name s +:+ "] [FINISHED]") ;;
    (* Step 7 - Suppress exception if AssertionError *)
    ret (from_option isinstance_AssertionError false exc).

Definition __enter__ : M state unit :=
  s <- get ;;
  logger_log INFO ("[" +:+ name s +:+ "] [STARTING]") ;;
  (* Step 1 *)
  timer_start timer_update_bq_dts ;;
  timer_start timer_timeout ;;
  (* Step 2 *)
  if negb (has_dts_client s) then ret tt
  else
    (* Step 3 *)
    logger_log INFO ("[" +:+ name s +:+ "] BQ DTS ; Starting Run") ;;
    try_except_Exception
      (dts (transfer_run_patch_state (name s) RUNNING))
      (fun e =>
         suppressed <- __exit__ (Some e) ;;
         if (suppressed : bool) then ret tt else raise e).

(** [with ManagedTransferRun(...) as run_ctx: body]: if [__enter__]
    raises, [__exit__] is not called; otherwise [__exit__] receives the
    body's exception, and a true return value suppresses it. *)
Definition with_scope (body : M state unit) : M state unit :=
  __enter__ ;;
  fun s =>
    match body s with
    | (Return _, s1) => (__exit__ None ;; ret tt) s1
    | (Raise e, s1) =>
        match __exit__ (Some e) s1 with
        | (Return true, s2) => (Return tt, s2)
        | (Return false, s2) => (Raise e, s2)
        | (Raise e', s2) => (Raise e', s2)
        end
    end.

(** The state [__init__] leaves: an empty buffer, timers created but not
    started. *)
Definition init (run_name : string) (dts_client : bool)
    (update_interval timeout : Z) (now : Z)
    (service : list (option exn)) : state :=
  mkState run_name dts_client [] false false update_interval timeout now service [].

End ManagedTransferRun.

(* ===================================================================== *)
(** ** BaseConnector.pubsub_callback *)
(* ===================================================================== *)

Module BaseConnector.

Import ManagedTransferRun.

(** The [try] block and its two [except] clauses; the result is
    [retry_transfer_run].  Any other exception propagates. *)
Definition run_and_classify (body : M state unit) : M state bool :=
  fun s =>
    match with_scope body s with
    | (Return _, s1) => (Return false, s1)
    | (Raise (HttpError status content), s1) =>
        if (status =? 400) || (status =? 404) then
          (logger_log ERROR
             ("Unrecoverable BigQuery Data Transfer Service API error - "
                +:+ pretty status) ;;
           logger_log ERROR content ;;
           ret false) s1
        else (Return true, s1)
    | (Raise AssertionError, s1) => (Return false, s1)
    | (Raise e, s1) => (Raise e, s1)
    end.

Definition pubsub_callback (body : M state unit) : M state unit :=
  retry_transfer_run <- run_and_classify body ;;
  (* Step 6 - Ack the Pub/Sub message *)
  if (retry_transfer_run : bool) then modify (record_event EvNack)
  else modify (record_event EvAck).

End BaseConnector.

(* ===================================================================== *)
(** ** TableContext, over a heap of mutable objects *)
(* ===================================================================== *)

Module TableContext.

(** Dicts and lists are objects on a heap and values refer to them by
    address, so that two references to one object see each other's
    writes.  An object's address is its index in the heap; objects are
    never freed. *)
Abbreviation loc := nat.

Inductive val : Type :=
  | VNone
  | VBool (b : bool)
  | VInt (n : Z)
  | VStr (s : string)
  | VRef (l : loc).

Inductive obj : Type :=
  | ODict (items : gmap string val)
  | OList (elems : list val).

Record t : Type := mk {
  imported_data_info : val;
  table_name : val;
  uris : val
}.

Definition alloc (o : obj) : M (list obj) loc :=
  fun h => (Return (length h), h ++ [o]).

(** [target[key] = v], [key] a string. *)
Definition setitem (target : val) (key : string) (v : val) : M (list obj) unit :=
  fun h =>
    match target with
    | VRef l =>
        match h !! l with
        | Some (ODict d) => (Return tt, <[l := ODict (<[key := v]> d)]> h)
        | _ => (Raise TypeError, h)
        end
    | _ => (Raise TypeError, h)
    end.

(** [target.append(v)]. *)
Definition append (target : val) (v : val) : M (list obj) unit :=
  fun h =>
    match target with
    | VRef l =>
        match h !! l with
        | Some (OList vs) => (Return tt, <[l := OList (vs ++ [v])]> h)
        | _ => (Raise AttributeError, h)
        end
    | _ => (Raise AttributeError, h)
    end.

(** [target.pop(key, None)]: only a dict accepts a key and a default. *)
Definition pop (target : val) (key : string) : M (list obj) val :=
  fun h =>
    match target with
    | VRef l =>
        match h !! l with
        | Some (ODict d) =>
            (Return (default VNone (d !! key)), <[l := ODict (delete key d)]> h)
        | _ => (Raise TypeError, h)
        end
    | _ => (Raise AttributeError, h)
    end.

(** [target[key]], [key] a string. *)
Definition getitem (target : val) (key : string) : M (list obj) val :=
  fun h =>
    match target with
    | VRef l =>
        match h !! l with
        | Some (ODict d) =>
            match d !! key with
            | Some v => (Return v, h)
            | None => (Raise (KeyError key), h)
            end
        | _ => (Raise TypeError, h)
        end
    | _ => (Raise TypeError, h)
    end.

(** [target[0]]. *)
Definition getitem_0 (target : val) : M (list obj) val :=
  fun h =>
    match target with
    | VRef l =>
        match h !! l with
        | Some (OList (v :: _)) => (Return v, h)
        | Some (OList []) => (Raise IndexError, h)
        | Some (ODict _) => (Raise (KeyError "0"), h)
        | None => (Raise TypeError, h)
        end
    | VStr (String c _) => (Return (VStr (String c EmptyString)), h)
    | VStr EmptyString => (Raise IndexError, h)
    | _ => (Raise TypeError, h)
    end.

(** State of one [copy.deepcopy] call: the heap and the [memo] dict, from
    the address of an object to the address of its copy. *)
Definition on_heap {A} (m : M (list obj) A) : M (list obj * gmap loc loc) A :=
  fun st => let (r, h) := m st.1 in (r, (h, st.2)).

Definition memoize (x y : loc) : M (list obj * gmap loc loc) unit :=
  modify (fun st => (st.1, <[x := y]> st.2)).

(** [for key, value in x.items(): y[key] = deepcopy(value, memo)] *)
Fixpoint copy_items (rec : val -> M (list obj * gmap loc loc) val) (y : loc)
    (kvs : list (string * val)) : M (list obj * gmap loc loc) unit :=
  match kvs with
  | [] => ret tt
  | (key, value) :: rest =>
      value' <- rec value ;;
      on_heap (setitem (VRef y) key value') ;;
      copy_items rec y rest
  end.

(** [for a in x: y.append(deepcopy(a, memo))] *)
Fixpoint copy_elems (rec : val -> M (list obj * gmap loc loc) val) (y : loc)
    (vs : list val) : M (list obj * gmap loc loc) unit :=
  match vs with
  | [] => ret tt
  | a :: rest =>
      a' <- rec a ;;
      on_heap (append (VRef y) a') ;;
      copy_elems rec y rest
  end.

(** [copy.deepcopy(x, memo)].  Atomic values are returned as they are; a
    dict or list already in [memo] yields its copy; otherwise an empty
    copy is created and memoized before its contents are copied into it.
    [depth] is the number of nested calls the interpreter still allows:
    at zero, [RecursionError] is raised. *)
Fixpoint deepcopy_rec (depth : nat) (x : val) : M (list obj * gmap loc loc) val :=
  match depth with
  | O => raise RecursionError
  | S depth' =>
      match x with
      | VRef l =>
          st <- get ;;
          match st.2 !! l with
          | Some y => ret (VRef y)
          | None =>
              match st.1 !! l with
              | Some (ODict d) =>
                  y <- on_heap (alloc (ODict ∅)) ;;
                  memoize l y ;;
                  copy_items (deepcopy_rec depth') y (map_to_list d) ;;
                  ret (VRef y)
              | Some (OList vs) =>
                  y <- on_heap (alloc (OList [])) ;;
                  memoize l y ;;
                  copy_elems (deepcopy_rec depth') y vs ;;
                  ret (VRef y)
              | None => raise TypeError
              end
          end
      | _ => ret x
      end
  end.

(** [copy.deepcopy(x)]: a fresh memo, dropped at the end. *)
Definition deepcopy (depth : nat) (x : val) : M (list obj) val :=
  fun h => let (r, st) := deepcopy_rec depth x (h, ∅) in (r, st.1).

Definition to_ImportedDataInfo (depth : nat) (self : t) : M (list obj) val :=
  table_idi <- deepcopy depth (imported_data_info self) ;;
  pop table_idi "destination_table_id_template" ;;
  setitem table_idi "destination_table_id" (table_name self) ;;
  table_defs <- getitem table_idi "table_defs" ;;
  table_def <- getitem_0 table_defs ;;
  setitem table_def "source_uris" (uris self) ;;
  ret table_idi.

End TableContext.

(* ===================================================================== *)
(** ** Reading traces and buffers *)
(* ===================================================================== *)

(** The events a computation added, from the states before and after it. *)
Definition events_since (s s' : state) : list event :=
  drop (length (trace s)) (trace s').

(** The calls made on the tracking-service client, in order. *)
Definition dts_calls (tr : list event) : list dts_call :=
  omap (fun e => match e with EvDts c => Some c | _ => None end) tr.

(** A call that tells the tracking service that a run is over: a patch to
    a terminal state, or the finish call. *)
Definition is_terminal_report (c : dts_call) : bool :=
  match c with
  | transfer_run_patch_state _ RUNNING => false
  | transfer_run_patch_state _ _ => true
  | transfer_run_finish_run _ => true
  | transfer_run_log_messages _ _ => false
  end.

Definition terminal_reports (tr : list event) : list dts_call :=
  List.filter is_terminal_report (dts_calls tr).

Definition is_timer_start (e : event) : bool :=
  match e with EvTimerStart _ => true | _ => false end.

(** The next [n] calls on the client return normally. *)
Definition calls_return (n : nat) (s : state) : bool :=
  forallb (fun r => match r with None => true | Some _ => false end)
          (take n (responses s)).

(** The entry an idle heartbeat logs, and the entry [__exit__] logs for the
    triggering error. *)
Definition processing_message (now : Z) : TransferMessage :=
  mkMessage now SEV_INFO ManagedTransferRun.processing_text.

Definition error_message (now : Z) (e : exn) : TransferMessage :=
  mkMessage now SEV_ERROR (format_exception e).

(** What a heartbeat has in the buffer when it reaches the submission: the
    buffered entries, or the synthetic entry alone. *)
Definition heartbeat_batch (s : state) : list TransferMessage :=
  if truthy (msgs s) then msgs s else [processing_message (clock s)].

(** The classes of error [pubsub_callback] tells apart. *)
Definition unrecoverable_status (status : Z) : bool :=
  (status =? 400) || (status =? 404).

(** The buffer [__exit__] hands to its immediate heartbeat: the error
    entry after whatever was buffered, or, without an error, the
    heartbeat's own batch. *)
Definition exit_batch (exc : option exn) (s : state) : list TransferMessage :=
  match exc with
  | Some e => msgs s ++ [error_message (clock s) e]
  | None => heartbeat_batch s
  end.

(** The calls a scope exit makes on a configured client when none of them
    raises. *)
Definition exit_calls (exc : option exn) (s : state) : list dts_call :=
  transfer_run_log_messages (name s) (exit_batch exc s)
    :: match exc with
       | Some _ => [transfer_run_patch_state (name s) FAILED]
       | None => []
       end
    ++ [transfer_run_finish_run (name s)].

(** The state after the two [stop()] calls that open [__exit__]. *)
Definition timers_stopped (s : state) : state :=
  record_event (EvTimerStop timer_update_bq_dts)
    (set_running timer_update_bq_dts false
       (record_event (EvTimerStop timer_timeout)
          (set_running timer_timeout false s))).

(* ===================================================================== *)
(** ** Reading heaps *)
(* ===================================================================== *)

Import TableContext.

(** [fresh_val n v]: [v] does not refer to an object below address [n]. *)
Definition fresh_val (n : nat) (v : val) : Prop :=
  match v with VRef l => (n ≤ l)%nat | _ => True end.

Definition fresh_obj (n : nat) (o : obj) : Prop :=
  match o with
  | ODict d => map_Forall (fun _ v => fresh_val n v) d
  | OList vs => Forall (fresh_val n) vs
  end.

(** Invariant of a [deepcopy] in progress over a heap that began as [h0]:
    the objects of [h0] are as they were, the memo only maps to objects
    allocated since, and those objects only refer to one another. *)
Definition copying (h0 : list obj)
    (st : list obj * gmap loc loc) : Prop :=
  h0 `prefix_of` st.1
  ∧ map_Forall (fun _ y => (length h0 ≤ y)%nat) st.2
  ∧ ∀ l o, (length h0 ≤ l)%nat -> st.1 !! l = Some o -> fresh_obj (length h0) o.

(** [closed_val n v]: [v] is atomic or refers to one of the first [n]
    objects.  A heap is closed when no object in it holds a dangling
    reference. *)
Definition closed_val (n : nat) (v : val) : Prop :=
  match v with VRef l => (l < n)%nat | _ => True end.

Definition closed_obj (n : nat) (o : obj) : Prop :=
  match o with
  | ODict d => map_Forall (fun _ v => closed_val n v) d
  | OList vs => Forall (closed_val n) vs
  end.

Definition closed_heap (h : list obj) : Prop :=
  Forall (closed_obj (length h)) h.

(** [image memo v v']: [v'] is what [deepcopy] returns for [v] under
    [memo]: [v] itself when atomic, the memoized copy otherwise. *)
Definition image (memo : gmap loc loc) (v v' : val) : Prop :=
  match v with
  | VRef l => ∃ y, memo !! l = Some y ∧ v' = VRef y
  | _ => v' = v
  end.

(** [copy_of memo o o']: [o'] has the keys (or the length) of [o], and
    holds the image of each value of [o]. *)
Definition copy_of (memo : gmap loc loc) (o o' : obj) : Prop :=
  match o, o' with
  | ODict d, ODict d' =>
      ∀ k, option_Forall2 (image memo) (d !! k) (d' !! k)
  | OList vs, OList vs' => Forall2 (image memo) vs vs'
  | _, _ => False
  end.

Definition same_kind (o o' : obj) : Prop :=
  match o, o' with
  | ODict _, ODict _ | OList _, OList _ => True
  | _, _ => False
  end.

(** Invariant of a [deepcopy] that has entered the objects [A] and not
    left them yet: the heap [h0] it started from is in place; every
    memoized object is an object of [h0] whose copy is a new object of the
    same kind, and a complete copy unless still in [A]; no two objects
    share a copy. *)
Definition in_progress (h0 : list obj) (A : list loc)
    (st : list obj * gmap loc loc) : Prop :=
  h0 `prefix_of` st.1
  ∧ (∀ l y, st.2 !! l = Some y ->
       ∃ o o', h0 !! l = Some o ∧ (length h0 ≤ y)%nat ∧ st.1 !! y = Some o'
               ∧ same_kind o o' ∧ (l ∉ A -> copy_of st.2 o o'))
  ∧ (∀ l1 l2 y, st.2 !! l1 = Some y -> st.2 !! l2 = Some y -> l1 = l2).

(** A recursive call that returns whenever it is allowed more nested
    calls than there are objects left to copy. *)
Definition returns_copy (h0 : list obj) (A : list loc) (depth : nat)
    (rec : val -> M (list obj * gmap loc loc) val) : Prop :=
  ∀ x st,
    in_progress h0 A st -> closed_val (length h0) x ->
    (length h0 - size st.2 < depth)%nat ->
    ∃ v st', rec x st = (Return v, st')
             ∧ in_progress h0 A st'
             ∧ st.1 `prefix_of` st'.1
             ∧ st.2 ⊆ st'.2
             ∧ image st'.2 x v.

(** A recursive call that keeps the invariant and hands back a value that
    does not point into [h0]. *)
Definition keeps_copying (h0 : list obj)
    (rec : val -> M (list obj * gmap loc loc) val) : Prop :=
  ∀ x st r st',
    copying h0 st -> rec x st = (r, st') ->
    copying h0 st' ∧ ∀ v, r = Return v -> fresh_val (length h0) v.

(* ===================================================================== *)
(** ** A run's log records, and how a message is settled *)
(* ===================================================================== *)

(** A sequence of [self.run_logger.<level>(text)] calls, in order. *)
Fixpoint log_all (records : list (Level * string)) : M state unit :=
  match records with
  | [] => ret tt
  | (lvl, text) :: rest =>
      ManagedTransferRun.run_logger_log lvl text ;; log_all rest
  end.

(** The buffer entry a record logged at time [now] leaves, if any. *)
Definition buffered_entry (now : Z) (record : Level * string) : option TransferMessage :=
  match record.1 with
  | INFO => Some (mkMessage now SEV_INFO record.2)
  | WARNING => Some (mkMessage now SEV_WARNING record.2)
  | ERROR => Some (mkMessage now SEV_ERROR record.2)
  | DEBUG | CRITICAL => None
  end.

(** The exception triple [__exit__] receives for an outcome of the body. *)
Definition exception_of {A} (r : result A) : option exn :=
  match r with Return _ => None | Raise e => Some e end.

(** The acks and nacks of a trace, in order. *)
Definition settlements (tr : list event) : list event :=
  List.filter (fun e => match e with EvAck | EvNack => true | _ => false end) tr.

(** [appends m]: [m] only adds to the trace, whatever it returns. *)
Definition appends {A} (m : M state A) : Prop :=
  ∀ s, trace s `prefix_of` trace (m s).2.

(** The state in which [__enter__] has just made its report of RUNNING,
    the service having answered with the remaining responses [rest]. *)
Definition report_attempted (rest : list (option exn)) (s : state) : state :=
  set_responses rest
    (record_event (EvDts (transfer_run_patch_state (name s) RUNNING))
       (record_event (EvLogger INFO ("[" +:+ name s +:+ "] BQ DTS ; Starting Run"))
          (record_event (EvTimerStart timer_timeout)
             (set_running timer_timeout true
                (record_event (EvTimerStart timer_update_bq_dts)
                   (set_running timer_update_bq_dts true
                      (record_event (EvLogger INFO ("[" +:+ name s +:+ "] [STARTING]"))
                         s))))))).

(* ===================================================================== *)
(** ** BaseConnector: options, triggers, processing of one run *)
(* ===================================================================== *)

Module Connector.

Import ManagedTransferRun.

(** [self._opts]: the parsed command line, as far as the methods below
    read it.  [--transfer-run-yaml] and [--ps-subname] are a string or
    [None]; the two durations are numbers of seconds. *)
Record opts : Type := mkOpts {
  transfer_run_yaml : option string;
  ps_subname : option string;
  use_bq_dts : bool;
  update_interval : Z;
  transfer_run_timeout : Z
}.

(** Truth value of a string or [None]: [None] and the empty string are
    false. *)
Definition str_truthy (x : option string) : bool :=
  match x with
  | Some (String _ _) => true
  | Some EmptyString | None => false
  end.

(** [process_args], steps 3 and 4, on the options already parsed: the
    result is the value given to [self._is_testing]. *)
Definition process_args {S} (o : opts) : M S bool :=
  let _is_testing :=
    str_truthy (transfer_run_yaml o)
    || negb (str_truthy (ps_subname o))
    || negb (use_bq_dts o) in
  if _is_testing && use_bq_dts o then raise AssertionError
  else if negb (update_interval o <=? transfer_run_timeout o) then raise AssertionError
  else ret _is_testing.

(** [run], after [setup_args]. *)
Definition run {S} (o : opts) (trigger_via_pubsub trigger_via_file : M S unit)
    : M S unit :=
  process_args o ;;
  if str_truthy (ps_subname o) then trigger_via_pubsub
  else if str_truthy (transfer_run_yaml o) then trigger_via_file
  else raise (OtherException "NotImplementedError").

(** Truth value of the [dts_client] property: [None] unless
    [--use-bq-dts] was given. *)
Definition dts_client (o : opts) : bool := use_bq_dts o.

(** [ManagedTransferRun(current_run, dts_client=self.dts_client,
    logger=self.logger, update_interval=..., timeout=...)] for a
    [current_run] that has a ['name'], [current_run_name], and a
    ['data_source_id']: a new context for that run, in the environment
    (clock, tracking service, trace) of the connector.  The decomposition
    of the name by [rest_client.parse_transfer_run_name] has no part in
    the methods below. *)
Definition new_context (o : opts) (current_run_name : string) : M state unit :=
  modify (fun s =>
    mkState current_run_name (dts_client o) [] false false
            (update_interval o) (transfer_run_timeout o)
            (clock s) (responses s) (trace s)).

(** [trigger_via_file]; [current_run_name] is the name of the run the YAML
    file describes. *)
Definition trigger_via_file (o : opts) (current_run_name : string)
    (process_transfer_run : M state unit) : M state unit :=
  logger_log INFO ("Triggering via file - " +:+ default "None" (transfer_run_yaml o)) ;;
  match transfer_run_yaml o with
  | None => raise AttributeError
  | Some _ =>
      new_context o current_run_name ;;
      with_scope process_transfer_run
  end.

(** [validate_transfer_run_params]: the required names must be among the
    keys of the run's parameters. *)
Definition validate_transfer_run_params {S V}
    (TRANSFER_RUN_REQUIRED_PARAMS : gset string)
    (transfer_run_params : gmap string V) : M S (gmap string V) :=
  if bool_decide (TRANSFER_RUN_REQUIRED_PARAMS ⊆ dom transfer_run_params)
  then ret transfer_run_params
  else raise AssertionError.

(** [process_transfer_run].  The normalisation of the run, the staging of
    its data and the two ways to start the load jobs are the connector's
    collaborators; a transfer run is the mapping from its field names to
    their values, its ['params'] a mapping again. *)
Definition process_transfer_run {V}
    (o : opts)
    (TRANSFER_RUN_REQUIRED_PARAMS : gset string)
    (normalize_transfer_run : M state (gmap string (gmap string V)))
    (stage_data_for_transfer_run :
       gmap string (gmap string V) -> M state (list TableContext.t))
    (start_bigquery_jobs_via_dts_apis start_bigquery_jobs_via_bq_apis :
       list TableContext.t -> M state unit)
    : M state unit :=
  (* Step 1 *)
  transfer_run <- normalize_transfer_run ;;
  (* Step 2 *)
  params <- match transfer_run !! "params" with
            | Some params =>
                validate_transfer_run_params TRANSFER_RUN_REQUIRED_PARAMS params
            | None => raise (KeyError "params")
            end ;;
  let transfer_run := <["params" := params]> transfer_run in
  (* Step 3 *)
  s <- get ;;
  logger_log INFO ("[" +:+ name s +:+ "] [STAGING]") ;;
  gcs_table_ctxs <- stage_data_for_transfer_run transfer_run ;;
  (* Step 4 *)
  if negb (truthy gcs_table_ctxs) then
    logger_log INFO ("[" +:+ name s +:+ "] [LOADING] Nothing to load")
  else
    logger_log INFO ("[" +:+ name s +:+ "] [LOADING]") ;;
    if use_bq_dts o then start_bigquery_jobs_via_dts_apis gcs_table_ctxs
    else start_bigquery_jobs_via_bq_apis gcs_table_ctxs.

(** [BQ_DTS_LOCATION_TO_GCS_LOCATION_MAP] *)
Definition BQ_DTS_LOCATION_TO_GCS_LOCATION_MAP : gmap string (gset string) :=
  <["us" := {["us"]}]>
    (<["europe" := {["eu"]}]>
       (<["asia-northeast1" := {["asia-northeast1"]}]> ∅)).

(** Step 4 of [stage_data_for_transfer_run]: the [for] loop over the
    tables staged locally.  [str] is what an f-string makes of a value. *)
Fixpoint upload_tables (str : TableContext.val -> string)
    (upload_multiple_files_to_gcs : TableContext.val -> M state TableContext.val)
    (local_table_ctxs gcs_table_ctxs : list TableContext.t)
    : M state (list TableContext.t) :=
  match local_table_ctxs with
  | [] => ret gcs_table_ctxs
  | current_table_ctx :: rest =>
      s <- get ;;
      logger_log INFO ("[" +:+ name s +:+ "] Staging GCS table => "
                         +:+ str (TableContext.table_name current_table_ctx)) ;;
      (* Step 4a *)
      gcs_uris <- upload_multiple_files_to_gcs (TableContext.uris current_table_ctx) ;;
      (* Step 4b *)
      let out_ctx :=
        TableContext.mk (TableContext.imported_data_info current_table_ctx)
                        (TableContext.table_name current_table_ctx)
                        gcs_uris in
      upload_tables str upload_multiple_files_to_gcs rest (gcs_table_ctxs ++ [out_ctx])
  end.

(** [stage_data_for_transfer_run].  [location_id] is [run_ctx.location_id];
    [local_prefix] and [gcs_run_prefix] are the two paths joined from the
    options and the run; the collaborators are the local staging (a method
    the connector at hand defines), the lookup of the staging bucket,
    which yields [gcs_bucket.location.lower()], and the upload of one
    table's files. *)
Definition stage_data_for_transfer_run
    (location_id local_prefix gcs_run_prefix : string)
    (str : TableContext.val -> string)
    (stage_tables_locally : M state (list TableContext.t))
    (bucket_location : M state string)
    (upload_multiple_files_to_gcs : TableContext.val -> M state TableContext.val)
    : M state (list TableContext.t) :=
  (* Step 1 *)
  s <- get ;;
  logger_log INFO ("[" +:+ name s +:+ "] Staging local => " +:+ local_prefix) ;;
  local_table_ctxs <- stage_tables_locally ;;
  (* Step 2 *)
  location <- bucket_location ;;
  let allowed_gcs_locations :=
    default ∅ (BQ_DTS_LOCATION_TO_GCS_LOCATION_MAP !! location_id) in
  if negb (bool_decide (location ∈ allowed_gcs_locations)) then raise AssertionError
  else
    (* Step 3 *)
    logger_log INFO ("[" +:+ name s +:+ "] Staging GCS path => " +:+ gcs_run_prefix) ;;
    (* Step 4 *)
    upload_tables str upload_multiple_files_to_gcs local_table_ctxs [].

(** [stage_tables_locally], as the base class has it. *)
Definition stage_tables_locally : M state (list TableContext.t) :=
  raise (OtherException "NotImplementedError").

End Connector.

(* ===================================================================== *)
(** ** BaseConnector: starting the load jobs *)
(* ===================================================================== *)

Module Loading.

Import TableContext.

(** What the two loaders do besides working on the heap: the lines they
    log on the application logger and the calls they make.
    - [LogTable run table_name]: ['[run] BQ DTS ; table_name'];
    - [LogStarting run]: ['[run] BQ DTS ; Starting BigQuery Jobs'];
    - [StartBigQueryJobs run importedData]:
      [transfer_run_start_big_query_jobs(run, body)] with [body] the dict
      of ['importedData'] and of ['userCredentials'], which is [None];
    - [LoadTable dataset_id table_name imported_data_info uris]:
      [helpers.load_bigquery_table_via_bq_apis] with these arguments;
    - [LogLoad run table_name job_id]:
      ['[run] BQ Load ; table_name => job_id']. *)
Inductive load_event : Type :=
  | LogTable (run : string) (table_name : val)
  | LogStarting (run : string)
  | StartBigQueryJobs (run : string) (importedData : list val)
  | LoadTable (dataset_id table_name imported_data_info uris : val)
  | LogLoad (run : string) (table_name : val) (job_id : string).

(** The heap, the answers still to come to the calls made (an exception
    to raise, or the [job_id] of the job started), and the effects so far,
    oldest first.  Calls beyond the answers return an empty [job_id]. *)
Record world : Type := mkWorld {
  heap : list obj;
  answers : list (exn + string);
  effects : list load_event
}.

Definition on_objects {A} (m : M (list obj) A) : M world A :=
  fun w => let (r, h) := m (heap w) in (r, mkWorld h (answers w) (effects w)).

Definition record (e : load_event) : M world unit :=
  modify (fun w => mkWorld (heap w) (answers w) (effects w ++ [e])).

(** Modelled from the spec: [rest_client] and [helpers] are not among the
    sources.  The spec's boundary of the load step: [start_load(run_name,
    artifacts)] and [start_load_direct(dataset_id, artifacts)], where each
    call may fail with an error.  A call is recorded with its arguments
    and returns or raises as the next answer says; it leaves the heap as
    it is. *)
Definition call (e : load_event) : M world string :=
  record e ;;
  fun w =>
    match answers w with
    | [] => (Return EmptyString, w)
    | inr job_id :: rest => (Return job_id, mkWorld (heap w) rest (effects w))
    | inl e :: rest => (Raise e, mkWorld (heap w) rest (effects w))
    end.

(** The [for] loop of [start_bigquery_jobs_via_dts_apis]. *)
Fixpoint imported_data (depth : nat) (run_name : string)
    (gcs_table_ctxs : list t) (current_run_idis : list val) : M world (list val) :=
  match gcs_table_ctxs with
  | [] => ret current_run_idis
  | current_table_ctx :: rest =>
      record (LogTable run_name (table_name current_table_ctx)) ;;
      table_idi <- on_objects (to_ImportedDataInfo depth current_table_ctx) ;;
      imported_data depth run_name rest (current_run_idis ++ [table_idi])
  end.

(** [start_bigquery_jobs_via_dts_apis]; [dts_client] is the truth value
    of [run_ctx.dts_client], on which [None] has no method to call. *)
Definition start_bigquery_jobs_via_dts_apis (depth : nat) (dts_client : bool)
    (run_name : string) (gcs_table_ctxs : list t) : M world unit :=
  (* Step 1 *)
  current_run_idis <- imported_data depth run_name gcs_table_ctxs [] ;;
  (* Step 2 *)
  record (LogStarting run_name) ;;
  if dts_client then
    call (StartBigQueryJobs run_name current_run_idis) ;; ret tt
  else raise AttributeError.

(** [key in x], [key] a string: a key of a dict, an element of a list, a
    substring of a string; the other values cannot be searched. *)
Definition contains (key : string) (x : val) : M (list obj) bool :=
  fun h =>
    match x with
    | VRef l =>
        match h !! l with
        | Some (ODict d) => (Return (bool_decide (is_Some (d !! key))), h)
        | Some (OList vs) =>
            (Return (existsb (fun v => match v with
                                       | VStr s => bool_decide (s = key)
                                       | _ => false
                                       end) vs), h)
        | None => (Raise TypeError, h)
        end
    | VStr s => (Return (bool_decide (is_Some (String.index 0 key s))), h)
    | _ => (Raise TypeError, h)
    end.

(** The [for] loop of [start_bigquery_jobs_via_bq_apis]. *)
Fixpoint load_tables (dataset_id : val) (run_name : string)
    (gcs_table_ctxs : list t) : M world unit :=
  match gcs_table_ctxs with
  | [] => ret tt
  | current_table_ctx :: rest =>
      has_sql <- on_objects (contains "sql" (imported_data_info current_table_ctx)) ;;
      if (has_sql : bool) then raise AssertionError
      else
        job_id <- call (LoadTable dataset_id (table_name current_table_ctx)
                          (imported_data_info current_table_ctx)
                          (uris current_table_ctx)) ;;
        record (LogLoad run_name (table_name current_table_ctx) job_id) ;;
        load_tables dataset_id run_name rest
  end.

(** [start_bigquery_jobs_via_bq_apis]; [transfer_run] is
    [run_ctx.transfer_run]. *)
Definition start_bigquery_jobs_via_bq_apis (transfer_run : gmap string val)
    (run_name : string) (gcs_table_ctxs : list t) : M world unit :=
  (* Step 1 *)
  match transfer_run !! "destination_dataset_id" with
  | None => raise (KeyError "destination_dataset_id")
  | Some dataset_id =>
      (* Step 2 *)
      load_tables dataset_id run_name gcs_table_ctxs
  end.

End Loading.

(** ** Reading the effects of the loaders *)

(** The effects a loader added, from the worlds before and after it. *)
Definition effects_since (w w' : Loading.world) : list Loading.load_event :=
  drop (length (Loading.effects w)) (Loading.effects w').

(** The calls among some effects: those that start load jobs. *)
Definition is_call (e : Loading.load_event) : bool :=
  match e with
  | Loading.StartBigQueryJobs _ _ | Loading.LoadTable _ _ _ _ => true
  | _ => false
  end.

Definition calls (es : list Loading.load_event) : list Loading.load_event :=
  List.filter is_call es.

(** [converted h h' ctx v]: [v] is a dict of [h'], new since [h], that
    names the table of [ctx], has no name template left, and whose first
    table definition is a new dict holding the locations of [ctx]. *)
Definition converted (h h' : list obj) (ctx : TableContext.t) (v : val) : Prop :=
  ∃ root d tl td rest d0,
    v = VRef root
    ∧ (length h ≤ root)%nat ∧ (length h ≤ tl)%nat ∧ (length h ≤ td)%nat
    ∧ h' !! root = Some (ODict d)
    ∧ d !! "destination_table_id_template" = None
    ∧ d !! "destination_table_id" = Some (table_name ctx)
    ∧ d !! "table_defs" = Some (VRef tl)
    ∧ h' !! tl = Some (OList (VRef td :: rest))
    ∧ h' !! td = Some (ODict d0)
    ∧ d0 !! "source_uris" = Some (uris ctx).

(** The call that starts the direct load of one table. *)
Definition load_of (dataset_id : val) (ctx : TableContext.t) : Loading.load_event :=
  Loading.LoadTable dataset_id (table_name ctx) (imported_data_info ctx) (uris ctx).

(* ===================================================================== *)
(** ** Table names and the [table_stager] decorator *)
(* ===================================================================== *)

Module TableStaging.

Import TableContext.

(** The keyword arguments of a call [f( **x )]: the entries of the dict
    [x]. *)
Definition keywords (x : val) : M (list obj) (gmap string val) :=
  fun h =>
    match x with
    | VRef l =>
        match h !! l with
        | Some (ODict d) => (Return d, h)
        | _ => (Raise TypeError, h)
        end
    | _ => (Raise TypeError, h)
    end.

(** [templatize_table_name(table_template, run_ctx)], with
    [run_ctx.transfer_run] as [transfer_run].  Two operations of the
    language are left open: [strftime run_time] is the value of the
    f-string ['{run_time:%Y%m%d}'], and [format table_template kwargs] the
    outcome of [table_template.format( **kwargs )]; neither touches the
    heap. *)
Definition templatize_table_name (depth : nat)
    (strftime : val -> result val)
    (format : val -> gmap string val -> result val)
    (table_template transfer_run : val) : M (list obj) val :=
  run_time <- getitem transfer_run "run_time" ;;
  params <- getitem transfer_run "params" ;;
  table_params <- deepcopy depth params ;;
  setitem table_params "run_time" run_time ;;
  run_yyyymmmdd <- (fun h => (strftime run_time, h)) ;;
  setitem table_params "run_yyyymmmdd" run_yyyymmmdd ;;
  user_id <- getitem transfer_run "user_id" ;;
  setitem table_params "user_id" user_id ;;
  kwargs <- keywords table_params ;;
  fun h => (format table_template kwargs, h).

(** [table_stager(idi_config_name)(decorated_fxn)], called on a connector
    whose [_idi_config] is [_idi_config]; [decorated_fxn] stands for the
    call [decorated_fxn(self, run_ctx, ...)]. *)
Definition table_stager (idi_config_name : string)
    (decorated_fxn : M (list obj) val)
    (depth : nat)
    (strftime : val -> result val)
    (format : val -> gmap string val -> result val)
    (_idi_config transfer_run : val) : M (list obj) t :=
  (* Step 1 *)
  current_idi <- getitem _idi_config idi_config_name ;;
  (* Step 2 *)
  table_template <- getitem current_idi "destination_table_id_template" ;;
  (* Step 3 *)
  table_name <- templatize_table_name depth strftime format table_template transfer_run ;;
  (* Step 4 *)
  uris <- decorated_fxn ;;
  (* Step 5 *)
  ret (mk current_idi table_name uris).

End TableStaging.

(** [carried n v v']: the entry [v'] of a deep copy made over a heap of
    [n] objects is the entry [v] of the original: absent if [v] is,
    the same atomic value, or a reference to a new object where [v]
    refers to an object. *)
Definition carried (n : nat) (v v' : option val) : Prop :=
  match v with
  | None => v' = None
  | Some (VRef _) => ∃ y, v' = Some (VRef y) ∧ (n ≤ y)%nat
  | Some a => v' = Some a
  end.

(* ===================================================================== *)
(** * Facts about the lifecycle *)
(* ===================================================================== *)

Import ManagedTransferRun BaseConnector.

(** ** Unfolding lemmas and tactics *)

Lemma events_since_app s s' evs :
  trace s' = trace s ++ evs -> events_since s s' = evs.
Proof. unfold events_since. intros ->. apply drop_app_length. Qed.

Ltac norm_trace := repeat rewrite <- app_assoc; cbn [app].
Ltac by_events :=
  unfold events_since; cbn; norm_trace; rewrite drop_app_length; reflexivity.

Lemma truthy_snoc {A} (l : list A) (x : A) : truthy (l ++ [x]) = true.
Proof. destruct l; reflexivity. Qed.

Lemma update_bq_dts_unfold s :
  _update_bq_dts s =
    let s1 := set_msgs (heartbeat_batch s) s in
    if has_dts_client s then
      match dts (transfer_run_log_messages (name s) (heartbeat_batch s)) s1 with
      | (Return _, s2) => (Return tt, set_msgs [] s2)
      | (Raise e, s2) => (Raise e, s2)
      end
    else (Return tt, set_msgs [] s1).
Proof.
  destruct s as [n c m ur tr ui ti ck rs t].
  destruct m, c; reflexivity.
Qed.

Lemma exit_HttpError s status content :
  __exit__ (Some (HttpError status content)) s = (Return false, timers_stopped s).
Proof. reflexivity. Qed.

Lemma exit_without_client exc s :
  has_dts_client s = false ->
  from_option isinstance_HttpError false exc = false ->
  __exit__ exc s =
    (Return (from_option isinstance_AssertionError false exc),
     record_event (EvLogger INFO ("[" +:+ name s +:+ "] [FINISHED]"))
       (match exc with
        | Some e => set_msgs (msgs s ++ [error_message (clock s) e]) (timers_stopped s)
        | None => timers_stopped s
        end)).
Proof.
  destruct s as [n c m ur tr ui ti ck rs t]; cbn.
  intros -> Hh. unfold __exit__.
  destruct exc as [e|]; cbn in *; [rewrite Hh|]; reflexivity.
Qed.

Lemma with_scope_body_raises body s s1 s2 e :
  __enter__ s = (Return tt, s1) ->
  body s1 = (Raise e, s2) ->
  with_scope body s =
    match __exit__ (Some e) s2 with
    | (Return true, s3) => (Return tt, s3)
    | (Return false, s3) => (Raise e, s3)
    | (Raise e', s3) => (Raise e', s3)
    end.
Proof. intros He Hb. unfold with_scope, bind. rewrite He, Hb. reflexivity. Qed.

Lemma with_scope_enter_raises body s s1 e :
  __enter__ s = (Raise e, s1) -> with_scope body s = (Raise e, s1).
Proof. intros He. unfold with_scope, bind. rewrite He. reflexivity. Qed.

Lemma pubsub_callback_unfold body s :
  pubsub_callback body s =
    match with_scope body s with
    | (Return _, s1) => (Return tt, record_event EvAck s1)
    | (Raise (HttpError status content), s1) =>
        if unrecoverable_status status then
          (Return tt,
           record_event EvAck
             (record_event (EvLogger ERROR content)
                (record_event
                   (EvLogger ERROR
                      ("Unrecoverable BigQuery Data Transfer Service API error - "
                         +:+ pretty status)) s1)))
        else (Return tt, record_event EvNack s1)
    | (Raise AssertionError, s1) => (Return tt, record_event EvAck s1)
    | (Raise e, s1) => (Raise e, s1)
    end.
Proof.
  unfold pubsub_callback, run_and_classify, bind, unrecoverable_status.
  destruct (with_scope body s) as [[u|e] s1]; [reflexivity|].
  destruct e; try reflexivity.
  destruct ((status =? 400) || (status =? 404)); reflexivity.
Qed.

Ltac calc_events :=
  unfold events_since; cbn; norm_trace; rewrite ?drop_app_length; cbn.

Lemma exit_with_client_returns exc s :
  has_dts_client s = true ->
  from_option isinstance_HttpError false exc = false ->
  calls_return 3 s = true ->
  (__exit__ exc s).1 = Return (from_option isinstance_AssertionError false exc)
  ∧ events_since s (__exit__ exc s).2 =
      EvTimerStop timer_timeout :: EvTimerStop timer_update_bq_dts
        :: EvDts (transfer_run_log_messages (name s) (exit_batch exc s))
        :: match exc with
           | Some _ =>
               [EvDts (transfer_run_patch_state (name s) FAILED);
                EvLogger INFO ("[" +:+ name s +:+ "] BQ DTS ; Finishing Run - FAILED")]
           | None =>
               [EvLogger INFO ("[" +:+ name s +:+ "] BQ DTS ; Finishing Run - SUCCESS")]
           end
        ++ [EvDts (transfer_run_finish_run (name s));
            EvLogger INFO ("[" +:+ name s +:+ "] [FINISHED]")]
  ∧ msgs (__exit__ exc s).2 = [].
Proof.
  destruct s as [n c m ur tr ui ti ck rs t]; cbn.
  intros -> Hh Hok. unfold __exit__, calls_return in *.
  destruct exc as [e|]; cbn in *; [rewrite Hh|]; destruct m; cbn;
    destruct rs as [|[e1|] [|[e2|] [|[e3|] rs]]]; try discriminate Hok; cbn;
    (split; [reflexivity|]); (split; [by_events|reflexivity]).
Qed.


Lemma exit_stops_timers (exc : option exn) (s : state) :
  timeout_running (__exit__ exc s).2 = false
  ∧ update_running (__exit__ exc s).2 = false
  ∧ ∃ rest, events_since s (__exit__ exc s).2 =
              EvTimerStop timer_timeout :: EvTimerStop timer_update_bq_dts :: rest.
Proof.
  destruct exc as [e|]; [destruct (isinstance_HttpError e) eqn:Hh|].
  - destruct e; try discriminate Hh. rewrite exit_HttpError.
    destruct s; cbn. repeat split. eexists. by_events.
  - destruct s as [n c m ur tr ui ti ck rs t]. unfold __exit__; cbn; rewrite Hh; cbn.
    destruct c; cbn;
      [destruct m; cbn; destruct rs as [|[e1|] [|[e2|] [|[e3|] rs]]]; cbn|];
      repeat split; eexists; by_events.
  - destruct s as [n c m ur tr ui ti ck rs t]. unfold __exit__; cbn.
    destruct c; cbn; [destruct m; cbn; destruct rs as [|[e1|] [|[e2|] rs]]; cbn|];
      repeat split; eexists; by_events.
Qed.

(* ===================================================================== *)
(** ** Scope exit *)
(* ===================================================================== *)

(** Claim C1, as amended.  Whatever the triggering error (none, a run-body
    error, a timeout), [__exit__] first stops the timeout timer, then the
    heartbeat timer, and only then does anything else: every call on the
    tracking-service client made by scope exit comes after both stops, both
    timers are stopped when it ends, and none is restarted.  One scope exit
    reports a terminal state at most once: at most one FAILED patch,
    followed by at most one finish call.  It reports none when the
    triggering error is an [HttpError] or no client is configured, and,
    when a client is configured, the triggering error is not an
    [HttpError] and scope exit returns, exactly the finish call, preceded
    by the FAILED patch if and only if there was an error. *)
Theorem C1_exit_stops_timers_before_reporting (exc : option exn) (s : state) :
  ∃ rest : list event,
    events_since s (__exit__ exc s).2 =
      EvTimerStop timer_timeout :: EvTimerStop timer_update_bq_dts :: rest
    ∧ timeout_running (__exit__ exc s).2 = false
    ∧ update_running (__exit__ exc s).2 = false
    ∧ existsb is_timer_start rest = false
    ∧ (terminal_reports rest = []
       ∨ terminal_reports rest = [transfer_run_patch_state (name s) FAILED]
       ∨ terminal_reports rest = [transfer_run_patch_state (name s) FAILED;
                                  transfer_run_finish_run (name s)]
       ∨ terminal_reports rest = [transfer_run_finish_run (name s)])
    ∧ (from_option isinstance_HttpError false exc || negb (has_dts_client s) = true ->
       dts_calls rest = [])
    ∧ (from_option isinstance_HttpError false exc = false ->
       has_dts_client s = true ->
       (∃ b, (__exit__ exc s).1 = Return b) ->
       terminal_reports rest =
         match exc with
         | Some _ => [transfer_run_patch_state (name s) FAILED]
         | None => []
         end ++ [transfer_run_finish_run (name s)]).
Proof.
  destruct s as [n c m ur tr ui ti ck rs t].
  destruct exc as [e|]; [destruct (isinstance_HttpError e) eqn:Hh|];
    unfold __exit__; cbn; rewrite ?Hh; cbn.
  - eexists. split; [by_events|]. cbn. repeat split; auto. intros; discriminate.
  - destruct c; cbn.
    + destruct m; cbn;
      destruct rs as [|[e1|] [|[e2|] [|[e3|] rs]]]; cbn;
        eexists; (split; [by_events|]); cbn; repeat split; auto;
        try (intros; discriminate); try (intros _ _ [b Hb]; discriminate).
    + eexists; (split; [by_events|]); cbn; repeat split; auto; intros; discriminate.
  - destruct c; cbn.
    + destruct m; cbn;
      destruct rs as [|[e1|] [|[e2|] rs]]; cbn;
        eexists; (split; [by_events|]); cbn; repeat split; auto;
        try (intros; discriminate); try (intros _ _ [b Hb]; discriminate).
    + eexists; (split; [by_events|]); cbn; repeat split; auto; intros; discriminate.
Qed.

Lemma C1_witness :
  let s := init "runs/r1" true 60 3600 0 [] in
  ∃ rest : list event,
    events_since s (__exit__ (Some TimeoutError) s).2 =
      EvTimerStop timer_timeout :: EvTimerStop timer_update_bq_dts :: rest
    ∧ terminal_reports rest =
        [transfer_run_patch_state "runs/r1" FAILED; transfer_run_finish_run "runs/r1"].
Proof.
  intros s.
  destruct (C1_exit_stops_timers_before_reporting (Some TimeoutError) s)
    as (rest & Hev & _ & _ & _ & _ & _ & Hrep).
  exists rest. split; [exact Hev|].
  apply Hrep; [reflexivity | reflexivity | eexists; vm_compute; reflexivity].
Defined.

Lemma C1_counterexample :
  let body : M state unit := raise (HttpError 500 "backend error") in
  let s := init "runs/r1" true 60 3600 0 [] in
  (with_scope body s).1 = Raise (HttpError 500 "backend error")
  ∧ dts_calls (trace (with_scope body s).2) =
      [transfer_run_patch_state "runs/r1" RUNNING]
  ∧ terminal_reports (trace (with_scope body s).2) = [].
Proof. vm_compute. repeat split. Qed.

(** Claim C2, as amended.  For a scope exit with a client configured and a
    triggering error that is not an [HttpError] of any status (or no
    error): the calls made on the client are, in this order, the immediate
    flush of the buffer, the FAILED patch if an error occurred, and the
    finish call, each one made only if the one before it returned; no
    SUCCEEDED patch is ever sent; if scope exit returns, all of them were
    made, the buffer is empty, and the return value says whether the error
    was an [AssertionError]; and scope exit returns whenever its calls on
    the client do. *)
Theorem C2_exit_flushes_then_reports (exc : option exn) (s : state) :
  has_dts_client s = true ->
  from_option isinstance_HttpError false exc = false ->
  dts_calls (events_since s (__exit__ exc s).2) `prefix_of` exit_calls exc s
  ∧ Forall (fun c => ∀ run, c ≠ transfer_run_patch_state run SUCCEEDED)
           (dts_calls (events_since s (__exit__ exc s).2))
  ∧ ((∃ b, (__exit__ exc s).1 = Return b) ->
     (__exit__ exc s).1 = Return (from_option isinstance_AssertionError false exc)
     ∧ dts_calls (events_since s (__exit__ exc s).2) = exit_calls exc s
     ∧ msgs (__exit__ exc s).2 = [])
  ∧ (calls_return 3 s = true -> ∃ b, (__exit__ exc s).1 = Return b).
Proof.
  destruct s as [n c m ur tr ui ti ck rs t]; cbn.
  intros -> Hh. unfold __exit__, calls_return, exit_calls, exit_batch, heartbeat_batch.
  destruct exc as [e|]; cbn in *; [rewrite Hh|]; destruct m; cbn;
    destruct rs as [|[e1|] [|[e2|] [|[e3|] rs]]]; calc_events;
    (split; [eexists; reflexivity|]);
    (split; [repeat constructor; intros; discriminate|]);
    (split; [first [intros [b Hb]; discriminate Hb | intros _; repeat split; reflexivity]
            | first [intros Hok; discriminate Hok | intros _; eexists; reflexivity]]).
Qed.

Lemma C2_witness :
  let s := init "runs/r1" true 60 3600 0 [] in
  (has_dts_client s = true ∧ from_option isinstance_HttpError false None = false)
  ∧ dts_calls (events_since s (__exit__ None s).2) `prefix_of` exit_calls None s.
Proof.
  intros s. split; [split; reflexivity|].
  apply (C2_exit_flushes_then_reports None s); reflexivity.
Defined.

Lemma C2_counterexample :
  let s := init "runs/r1" true 60 3600 0 [] in
  (* the run body completed without error: no SUCCEEDED state report *)
  dts_calls (events_since s (__exit__ None s).2) =
    [transfer_run_log_messages "runs/r1" [processing_message 0];
     transfer_run_finish_run "runs/r1"]
  (* a triggering error that is a remote-API error other than 400 / 404:
     no flush, no state report, no finish *)
  ∧ unrecoverable_status 500 = false
  ∧ dts_calls (events_since s (__exit__ (Some (HttpError 500 "")) s).2) = [].
Proof. repeat split. Qed.

(* ===================================================================== *)
(** ** The acknowledgement policy *)
(* ===================================================================== *)



(** Claim C4, as amended.  When the run body raises an [HttpError] whose
    status is neither 400 nor 404, scope exit makes no call on the
    tracking-service client (FAILED is not reported), the same error
    leaves the [with] statement, and [pubsub_callback] negatively
    acknowledges the message. *)
Theorem C4_recoverable_error_nacked_without_report
    (status : Z) (content : string) (body : M state unit) (s s1 s2 : state) :
  unrecoverable_status status = false ->
  __enter__ s = (Return tt, s1) ->
  body s1 = (Raise (HttpError status content), s2) ->
  let s3 := timers_stopped s2 in
  __exit__ (Some (HttpError status content)) s2 = (Return false, s3)
  ∧ dts_calls (events_since s2 s3) = []
  ∧ with_scope body s = (Raise (HttpError status content), s3)
  ∧ pubsub_callback body s = (Return tt, record_event EvNack s3).
Proof.
  intros Hst He Hb s3.
  assert (Hw : with_scope body s = (Raise (HttpError status content), s3)).
  { rewrite (with_scope_body_raises _ _ _ _ _ He Hb), exit_HttpError. reflexivity. }
  split; [apply exit_HttpError|].
  split; [subst s3; destruct s2; calc_events; reflexivity|].
  split; [exact Hw|].
  rewrite pubsub_callback_unfold, Hw, Hst. reflexivity.
Qed.

Lemma C4_witness :
  let body : M state unit := raise (HttpError 500 "backend error") in
  let s := init "runs/r1" true 60 3600 0 [] in
  let s1 := (__enter__ s).2 in
  (unrecoverable_status 500 = false
   ∧ __enter__ s = (Return tt, s1)
   ∧ body s1 = (Raise (HttpError 500 "backend error"), s1))
  ∧ pubsub_callback body s = (Return tt, record_event EvNack (timers_stopped s1)).
Proof.
  intros body s s1.
  assert (H1 : unrecoverable_status 500 = false) by reflexivity.
  assert (H2 : __enter__ s = (Return tt, s1)) by (vm_compute; reflexivity).
  assert (H3 : body s1 = (Raise (HttpError 500 "backend error"), s1)) by reflexivity.
  split; [auto|].
  apply (C4_recoverable_error_nacked_without_report
           500 "backend error" body s s1 s1 H1 H2 H3).
Defined.

Lemma C4_counterexample :
  let body : M state unit := raise (HttpError 500 "backend error") in
  let s := init "runs/r1" true 60 3600 0 [] in
  unrecoverable_status 500 = false
  ∧ (pubsub_callback body s).1 = Return tt
  ∧ dts_calls (trace (pubsub_callback body s).2) =
      [transfer_run_patch_state "runs/r1" RUNNING]
  ∧ (transfer_run_patch_state "runs/r1" FAILED
        ∉ dts_calls (trace (pubsub_callback body s).2))
  ∧ last (trace (pubsub_callback body s).2) = Some EvNack.
Proof.
  vm_compute. repeat split.
  intros H. apply list_elem_of_singleton in H. discriminate H.
Qed.

(** Claim C5, as amended.  When the run body raises an error [e] that is
    not an [HttpError], and either no client is configured or the calls
    scope exit makes on it return: the error is logged at ERROR severity
    into the buffer; with a client the buffer is flushed, FAILED is
    patched and the run is finished, without a client nothing is
    reported; scope exit returns, suppressing [e] exactly when it is an
    [AssertionError].  For an [AssertionError] the scope completes and the
    message is acknowledged; any other such error leaves the [with]
    statement and [pubsub_callback] after those calls, with the message
    neither acknowledged nor negatively acknowledged. *)
Theorem C5_validation_failure_suppressed
    (e : exn) (body : M state unit) (s s1 s2 : state) :
  __enter__ s = (Return tt, s1) ->
  body s1 = (Raise e, s2) ->
  isinstance_HttpError e = false ->
  negb (has_dts_client s2) || calls_return 3 s2 = true ->
  let s3 := (__exit__ (Some e) s2).2 in
  let entry := error_message (clock s2) e in
  __exit__ (Some e) s2 = (Return (isinstance_AssertionError e), s3)
  ∧ severity entry = SEV_ERROR
  ∧ dts_calls (events_since s2 s3) =
      (if has_dts_client s2
       then [transfer_run_log_messages (name s2) (msgs s2 ++ [entry]);
             transfer_run_patch_state (name s2) FAILED;
             transfer_run_finish_run (name s2)]
       else [])
  ∧ msgs s3 = (if has_dts_client s2 then [] else msgs s2 ++ [entry])
  ∧ (e = AssertionError ->
     with_scope body s = (Return tt, s3)
     ∧ pubsub_callback body s = (Return tt, record_event EvAck s3))
  ∧ (isinstance_AssertionError e = false ->
     with_scope body s = (Raise e, s3)
     ∧ pubsub_callback body s = (Raise e, s3)).
Proof.
  intros He Hb Hh Hok s3 entry.
  assert (Hexit : __exit__ (Some e) s2 = (Return (isinstance_AssertionError e), s3)
                  ∧ dts_calls (events_since s2 s3) =
                      (if has_dts_client s2
                       then [transfer_run_log_messages (name s2) (msgs s2 ++ [entry]);
                             transfer_run_patch_state (name s2) FAILED;
                             transfer_run_finish_run (name s2)]
                       else [])
                  ∧ msgs s3 = (if has_dts_client s2 then [] else msgs s2 ++ [entry])).
  { subst s3 entry. destruct (has_dts_client s2) eqn:Hc; cbn in Hok.
    - destruct (exit_with_client_returns (Some e) s2 Hc Hh Hok) as (Hr & Hev & Hm).
      destruct (__exit__ (Some e) s2) as [r s'] eqn:Hx. cbn in Hr, Hev, Hm |- *.
      subst r. rewrite Hev. auto.
    - rewrite (exit_without_client (Some e) s2 Hc Hh). cbn.
      split; [reflexivity|]. split; [|reflexivity].
      destruct s2; calc_events; reflexivity. }
  destruct Hexit as (Hexit & Hcalls & Hmsgs).
  assert (Hw := with_scope_body_raises _ _ _ _ _ He Hb). rewrite Hexit in Hw.
  repeat split; try assumption.
  - subst e. exact Hw.
  - subst e. rewrite pubsub_callback_unfold, Hw. reflexivity.
  - rewrite Hw. rewrite H. reflexivity.
  - rewrite pubsub_callback_unfold, Hw, H. destruct e; try reflexivity; discriminate.
Qed.

Lemma C5_witness :
  let body : M state unit := raise AssertionError in
  let s := init "runs/r1" true 60 3600 0 [] in
  let s1 := (__enter__ s).2 in
  (__enter__ s = (Return tt, s1)
   ∧ body s1 = (Raise AssertionError, s1)
   ∧ isinstance_HttpError AssertionError = false
   ∧ negb (has_dts_client s1) || calls_return 3 s1 = true)
  ∧ __exit__ (Some AssertionError) s1
    = (Return (isinstance_AssertionError AssertionError),
       (__exit__ (Some AssertionError) s1).2).
Proof.
  intros body s s1.
  assert (H1 : __enter__ s = (Return tt, s1)) by (vm_compute; reflexivity).
  assert (H2 : body s1 = (Raise AssertionError, s1)) by reflexivity.
  assert (H3 : isinstance_HttpError AssertionError = false) by reflexivity.
  assert (H4 : negb (has_dts_client s1) || calls_return 3 s1 = true)
    by (vm_compute; reflexivity).
  split; [auto|].
  apply (C5_validation_failure_suppressed AssertionError body s s1 s1 H1 H2 H3 H4).
Defined.

Lemma C5_counterexample :
  let body : M state unit := raise AssertionError in
  (* no client configured: FAILED is not reported *)
  (let s := init "runs/r1" false 60 3600 0 [] in
   dts_calls (trace (pubsub_callback body s).2) = [])
  (* client configured, the flush made by scope exit is rejected: the
     error is not suppressed, and the message is nacked *)
  ∧ (let s := init "runs/r1" true 60 3600 0 [None; Some (HttpError 503 "")] in
     (with_scope body s).1 = Raise (HttpError 503 "")
     ∧ (transfer_run_patch_state "runs/r1" FAILED
          ∉ dts_calls (trace (pubsub_callback body s).2))
     ∧ last (trace (pubsub_callback body s).2) = Some EvNack).
Proof.
  vm_compute. repeat split.
  intros H. apply list_elem_of_In in H. cbn in H. 
  destruct H as [H|[H|[]]]; discriminate H.
Qed.

(* ===================================================================== *)
(** ** Heartbeat, scope entry, timeout *)
(* ===================================================================== *)





(** Claim C10, as amended.  A heartbeat tick that returns leaves the buffer
    empty.  Without a client the tick always returns, submits nothing and
    only empties the buffer (the drained entries, the synthetic one
    included, are discarded).  A tick raises only when a client is
    configured and the submission raises; the buffer then keeps the batch
    that was being submitted. *)
Theorem C10_heartbeat_clears_buffer_on_return (s : state) :
  ((_update_bq_dts s).1 = Return tt -> msgs (_update_bq_dts s).2 = [])
  ∧ (has_dts_client s = false -> _update_bq_dts s = (Return tt, set_msgs [] s))
  ∧ (∀ e, (_update_bq_dts s).1 = Raise e ->
       has_dts_client s = true
       ∧ responses s = Some e :: responses (_update_bq_dts s).2
       ∧ msgs (_update_bq_dts s).2 = heartbeat_batch s).
Proof.
  rewrite update_bq_dts_unfold.
  destruct s as [n c m ur tr ui ti ck rs t]. unfold heartbeat_batch. cbn.
  destruct c; cbn.
  - destruct rs as [|[e|] rs]; cbn.
    + split; [reflexivity|]. split; intros; discriminate.
    + split; [discriminate|]. split; [discriminate|].
      intros e' [= ->]. auto.
    + split; [reflexivity|]. split; intros; discriminate.
  - split; [reflexivity|]. split; [reflexivity|]. intros; discriminate.
Qed.

Lemma C10_witness :
  let s := mkState "runs/r1" false [mkMessage 5 SEV_WARNING "slow upload"]
             true true 60 3600 9 [] [] in
  has_dts_client s = false
  ∧ _update_bq_dts s = (Return tt, set_msgs [] s).
Proof.
  intros s. split; [reflexivity|].
  apply (C10_heartbeat_clears_buffer_on_return s). reflexivity.
Defined.

Lemma C10_counterexample :
  let entry := mkMessage 5 SEV_WARNING "slow upload" in
  let s := mkState "runs/r1" true [entry] true true 60 3600 9
             [Some (HttpError 503 "unavailable")] [] in
  (_update_bq_dts s).1 = Raise (HttpError 503 "unavailable")
  ∧ msgs (_update_bq_dts s).2 = [entry]
  ∧ msgs (_update_bq_dts s).2 ≠ [].
Proof. vm_compute. repeat split. discriminate. Qed.

(** The timeout callback itself: it buffers one ERROR entry that names the
    configured duration, then raises [TimeoutError] in whichever thread
    fired it. *)
Lemma timeout_logs_then_raises (s : state) :
  _timeout s =
    (Raise TimeoutError,
     set_msgs (msgs s ++ [mkMessage (clock s) SEV_ERROR
                            (timeout_text (timeout_interval s))]) s).
Proof. destruct s. reflexivity. Qed.

(** When [transfer_run_patch_state] raises something that is not an
    [Exception], [__enter__] lets it through without running [__exit__]. *)
Lemma enter_does_not_catch_BaseException (e : exn) (rest : list (option exn)) (s : state) :
  has_dts_client s = true ->
  responses s = Some e :: rest ->
  isinstance_Exception e = false ->
  (__enter__ s).1 = Raise e
  ∧ update_running (__enter__ s).2 = true
  ∧ timeout_running (__enter__ s).2 = true.
Proof.
  destruct s as [n c m ur tr ui ti ck rs t].
  intros Hc Hr Hexc. cbn in Hc, Hr. subst c rs.
  unfold __enter__, try_except_Exception. cbn -[__exit__]. rewrite Hexc.
  repeat split.
Qed.

(** A failure of the first state report with an unrecoverable status also
    ends with the message acknowledged: [__exit__] does not suppress it,
    [__enter__] re-raises it, and the callback catches it. *)
Lemma enter_failure_unrecoverable_acked
    (status : Z) (content : string) (body : M state unit) (s s1 : state) :
  unrecoverable_status status = true ->
  __enter__ s = (Raise (HttpError status content), s1) ->
  ∃ s2, pubsub_callback body s = (Return tt, s2) ∧ last (trace s2) = Some EvAck.
Proof.
  intros Hst He.
  rewrite pubsub_callback_unfold, (with_scope_enter_raises _ _ _ _ He), Hst.
  eexists. split; [reflexivity|]. destruct s1. cbn. apply last_snoc.
Qed.

(* ===================================================================== *)
(** * Facts about TableContext *)
(* ===================================================================== *)

Local Open Scope nat_scope.

(** ** What the copy leaves alone *)

Section Copying.
Variable h0 : list obj.
Local Abbreviation n0 := (length h0).

Lemma copying_start : copying h0 (h0, ∅).
Proof.
  split; [reflexivity|]. split; [apply map_Forall_empty|].
  intros l o Hl Hlook. apply lookup_lt_Some in Hlook. cbn in Hlook. lia.
Qed.

Lemma copying_alloc hp memo o :
  copying h0 (hp, memo) -> fresh_obj n0 o -> copying h0 (hp ++ [o], memo).
Proof.
  intros (Hpre & Hmemo & Hnew) Ho. split; [|split]; cbn in *.
  - by apply prefix_app_r.
  - exact Hmemo.
  - intros l o' Hl Hlook. apply lookup_app_Some in Hlook as [Hlook|[_ Hlook]].
    + eauto.
    + apply list_lookup_singleton_Some in Hlook as [_ <-]. exact Ho.
Qed.

Lemma copying_memoize hp memo x y :
  copying h0 (hp, memo) -> n0 ≤ y -> copying h0 (hp, <[x := y]> memo).
Proof.
  intros (Hpre & Hmemo & Hnew) Hy. split; [|split]; cbn in *; auto.
  by apply map_Forall_insert_2.
Qed.

Lemma prefix_insert_fresh (hp : list obj) l o :
  h0 `prefix_of` hp -> n0 ≤ l -> h0 `prefix_of` <[l := o]> hp.
Proof.
  intros [k ->] Hl. exists (<[l - n0 := o]> k).
  by rewrite insert_app_r_alt.
Qed.

Lemma copying_update hp memo l o :
  copying h0 (hp, memo) -> n0 ≤ l -> fresh_obj n0 o ->
  copying h0 (<[l := o]> hp, memo).
Proof.
  intros (Hpre & Hmemo & Hnew) Hl Ho. split; [|split]; cbn in *; auto.
  - by apply prefix_insert_fresh.
  - intros l' o' Hl' Hlook.
    apply list_lookup_insert_Some in Hlook as [(-> & <- & _)|[_ Hlook]]; eauto.
Qed.

(** What each heap operation does, as an alternative between its
    successful write and an exception that leaves the heap alone. *)
Lemma setitem_inv target key v h r h' :
  setitem target key v h = (r, h') ->
  (∃ l d, target = VRef l ∧ h !! l = Some (ODict d) ∧ r = Return tt
          ∧ h' = <[l := ODict (<[key := v]> d)]> h)
  ∨ (∃ e, r = Raise e ∧ h' = h).
Proof.
  unfold setitem. intros H.
  destruct target as [| | | |l]; try (injection H as <- <-; right; eauto).
  destruct (h !! l) as [[d|vs]|] eqn:Hl; injection H as <- <-; [left|right|right]; eauto 10.
Qed.

Lemma append_inv target v h r h' :
  append target v h = (r, h') ->
  (∃ l vs, target = VRef l ∧ h !! l = Some (OList vs) ∧ r = Return tt
           ∧ h' = <[l := OList (vs ++ [v])]> h)
  ∨ (∃ e, r = Raise e ∧ h' = h).
Proof.
  unfold append. intros H.
  destruct target as [| | | |l]; try (injection H as <- <-; right; eauto).
  destruct (h !! l) as [[d|vs]|] eqn:Hl; injection H as <- <-; [right|left|right]; eauto 10.
Qed.

Lemma pop_inv target key h r h' :
  pop target key h = (r, h') ->
  (∃ l d, target = VRef l ∧ h !! l = Some (ODict d)
          ∧ r = Return (default VNone (d !! key))
          ∧ h' = <[l := ODict (delete key d)]> h)
  ∨ (∃ e, r = Raise e ∧ h' = h).
Proof.
  unfold pop. intros H.
  destruct target as [| | | |l]; try (injection H as <- <-; right; eauto).
  destruct (h !! l) as [[d|vs]|] eqn:Hl; injection H as <- <-; [left|right|right]; eauto 10.
Qed.

Lemma getitem_inv target key h r h' :
  getitem target key h = (r, h') ->
  h' = h
  ∧ ∀ v, r = Return v ->
      ∃ l d, target = VRef l ∧ h !! l = Some (ODict d) ∧ d !! key = Some v.
Proof.
  unfold getitem. intros H.
  destruct target as [| | | |l]; try (injection H as <- <-; split; [done|discriminate]).
  destruct (h !! l) as [[d|vs]|] eqn:Hl;
    try (injection H as <- <-; split; [done|discriminate]).
  destruct (d !! key) as [v|] eqn:Hk; injection H as <- <-;
    (split; [done|]); [|discriminate].
  intros v' [= <-]. eauto.
Qed.

Lemma getitem_0_inv target h r h' :
  getitem_0 target h = (r, h') ->
  h' = h
  ∧ ∀ v, r = Return v ->
      (∃ l rest, target = VRef l ∧ h !! l = Some (OList (v :: rest)))
      ∨ (∃ s, v = VStr s).
Proof.
  unfold getitem_0. intros H.
  destruct target as [| | |s|l]; try (injection H as <- <-; split; [done|discriminate]).
  - destruct s; injection H as <- <-; (split; [done|]); [discriminate|].
    intros v [= <-]. eauto.
  - destruct (h !! l) as [[d|[|v vs]]|] eqn:Hl; injection H as <- <-;
      (split; [done|]); try discriminate.
    intros v' [= <-]. eauto.
Qed.

Lemma on_heap_setitem_copying y key v st r st' :
  copying h0 st -> n0 ≤ y -> fresh_val n0 v ->
  on_heap (setitem (VRef y) key v) st = (r, st') ->
  copying h0 st'.
Proof.
  destruct st as [hp memo]. intros Hinv Hy Hv. unfold on_heap. cbn [fst snd].
  destruct (setitem (VRef y) key v hp) as [r1 h1] eqn:Hset. intros [= <- <-].
  apply setitem_inv in Hset as [(l & d & [= <-] & Hl & _ & ->)|(e & _ & ->)]; [|done].
  apply copying_update; [done..|]. cbn.
  apply map_Forall_insert_2; [done|].
  destruct Hinv as (_ & _ & Hnew). exact (Hnew y _ Hy Hl).
Qed.

Lemma on_heap_append_copying y v st r st' :
  copying h0 st -> n0 ≤ y -> fresh_val n0 v ->
  on_heap (append (VRef y) v) st = (r, st') ->
  copying h0 st'.
Proof.
  destruct st as [hp memo]. intros Hinv Hy Hv. unfold on_heap. cbn [fst snd].
  destruct (append (VRef y) v hp) as [r1 h1] eqn:Happ. intros [= <- <-].
  apply append_inv in Happ as [(l & vs & [= <-] & Hl & _ & ->)|(e & _ & ->)]; [|done].
  apply copying_update; [done..|]. cbn.
  apply Forall_app. split; [|by constructor].
  destruct Hinv as (_ & _ & Hnew). exact (Hnew y _ Hy Hl).
Qed.

Lemma copy_items_copying rec y kvs :
  keeps_copying h0 rec -> n0 ≤ y ->
  ∀ st r st', copying h0 st -> copy_items rec y kvs st = (r, st') -> copying h0 st'.
Proof.
  intros Hrec Hy. induction kvs as [|[key value] kvs IH]; intros st r st' Hinv Hrun.
  - by injection Hrun as <- <-.
  - cbn in Hrun. unfold bind in Hrun.
    destruct (rec value st) as [[v|e] st1] eqn:Hcall.
    + destruct (Hrec _ _ _ _ Hinv Hcall) as [Hinv1 Hv].
      destruct (on_heap (setitem (VRef y) key v) st1) as [[u|e] st2] eqn:Hset.
      * eapply IH; [|exact Hrun].
        eapply on_heap_setitem_copying; eauto.
      * injection Hrun as <- <-.
        eapply on_heap_setitem_copying; eauto.
    + injection Hrun as <- <-. by destruct (Hrec _ _ _ _ Hinv Hcall).
Qed.

Lemma copy_elems_copying rec y vs :
  keeps_copying h0 rec -> n0 ≤ y ->
  ∀ st r st', copying h0 st -> copy_elems rec y vs st = (r, st') -> copying h0 st'.
Proof.
  intros Hrec Hy. induction vs as [|a vs IH]; intros st r st' Hinv Hrun.
  - by injection Hrun as <- <-.
  - cbn in Hrun. unfold bind in Hrun.
    destruct (rec a st) as [[v|e] st1] eqn:Hcall.
    + destruct (Hrec _ _ _ _ Hinv Hcall) as [Hinv1 Hv].
      destruct (on_heap (append (VRef y) v) st1) as [[u|e] st2] eqn:Happ.
      * eapply IH; [|exact Hrun].
        eapply on_heap_append_copying; eauto.
      * injection Hrun as <- <-.
        eapply on_heap_append_copying; eauto.
    + injection Hrun as <- <-. by destruct (Hrec _ _ _ _ Hinv Hcall).
Qed.

Lemma deepcopy_rec_copying depth : keeps_copying h0 (deepcopy_rec depth).
Proof.
  induction depth as [|depth IH]; intros x st r st' Hinv Hrun.
  - injection Hrun as <- <-. split; [done|discriminate].
  - cbn in Hrun. destruct x as [| | | |l];
      try (injection Hrun as <- <-; split; [done|]; intros v [= <-]; exact I).
    unfold bind, get in Hrun. destruct st as [hp memo]. cbn [fst snd] in Hrun.
    destruct (memo !! l) as [y|] eqn:Hmemo.
    { injection Hrun as <- <-. split; [done|]. intros v [= <-]. cbn.
      destruct Hinv as (_ & Hm & _). exact (Hm _ _ Hmemo). }
    assert (Hlen : n0 ≤ length hp).
    { destruct Hinv as (Hpre & _). by apply prefix_length. }
    destruct (hp !! l) as [[d|vs]|] eqn:Hl.
    + unfold on_heap, alloc, memoize, modify in Hrun. cbn [fst snd] in Hrun.
      match type of Hrun with
      | context [copy_items ?rec ?y ?kvs ?st] =>
          destruct (copy_items rec y kvs st) as [[u|e] st1] eqn:Hcopy
      end;
        unfold ret in Hrun; injection Hrun as <- <-;
        (split; [|first [discriminate | intros v [= <-]; exact Hlen]]);
        (eapply (copy_items_copying _ _ _ IH Hlen); [|exact Hcopy]);
        (apply copying_memoize; [|exact Hlen]);
        (apply copying_alloc; [exact Hinv | apply map_Forall_empty]).
    + unfold on_heap, alloc, memoize, modify in Hrun. cbn [fst snd] in Hrun.
      match type of Hrun with
      | context [copy_elems ?rec ?y ?elems ?st] =>
          destruct (copy_elems rec y elems st) as [[u|e] st1] eqn:Hcopy
      end;
        unfold ret in Hrun; injection Hrun as <- <-;
        (split; [|first [discriminate | intros v [= <-]; exact Hlen]]);
        (eapply (copy_elems_copying _ _ _ IH Hlen); [|exact Hcopy]);
        (apply copying_memoize; [|exact Hlen]);
        (apply copying_alloc; [exact Hinv | constructor]).
    + injection Hrun as <- <-. split; [done|discriminate].
Qed.

Lemma deepcopy_copying depth x r h1 :
  deepcopy depth x h0 = (r, h1) ->
  h0 `prefix_of` h1
  ∧ (∀ l o, n0 ≤ l -> h1 !! l = Some o -> fresh_obj n0 o)
  ∧ ∀ v, r = Return v -> fresh_val n0 v.
Proof.
  unfold deepcopy.
  destruct (deepcopy_rec depth x (h0, ∅)) as [r1 [hp memo]] eqn:Hrun.
  intros [= <- <-].
  destruct (deepcopy_rec_copying depth _ _ _ _ copying_start Hrun)
    as [(Hpre & _ & Hnew) Hv].
  auto.
Qed.
End Copying.

Ltac raised :=
  cbn [fst snd]; split;
  [first [assumption | apply prefix_insert_fresh; assumption] | discriminate].

(** Frame and result of [to_ImportedDataInfo], for every outcome. *)
Lemma to_ImportedDataInfo_frame_and_result (depth : nat) (self : t) (h : list obj) :
  h `prefix_of` (to_ImportedDataInfo depth self h).2
  ∧ ∀ v, (to_ImportedDataInfo depth self h).1 = Return v ->
      ∃ root d tl td rest d0,
        v = VRef root
        ∧ length h ≤ root ∧ length h ≤ tl ∧ length h ≤ td
        ∧ (to_ImportedDataInfo depth self h).2 !! root = Some (ODict d)
        ∧ d !! "destination_table_id_template" = None
        ∧ d !! "destination_table_id" = Some (table_name self)
        ∧ d !! "table_defs" = Some (VRef tl)
        ∧ (to_ImportedDataInfo depth self h).2 !! tl = Some (OList (VRef td :: rest))
        ∧ (to_ImportedDataInfo depth self h).2 !! td = Some (ODict d0)
        ∧ d0 !! "source_uris" = Some (uris self).
Proof.
  unfold to_ImportedDataInfo, bind.
  (* table_idi = copy.deepcopy(self.imported_data_info) *)
  destruct (deepcopy depth (imported_data_info self) h) as [[table_idi|e] h1] eqn:Hcopy;
    apply deepcopy_copying in Hcopy as (Hpre & Hnew & Hfresh); [|raised].
  specialize (Hfresh _ eq_refl).
  (* table_idi.pop('destination_table_id_template', None) *)
  destruct (pop table_idi "destination_table_id_template" h1) as [[popped|e] h2] eqn:Hpop;
    apply pop_inv in Hpop as [(root & d1 & -> & Hroot & Hr & ->)|(e' & Hr & ->)];
    try discriminate Hr; try raised.
  clear Hr.
  cbn in Hfresh.
  assert (Hroot_lt : root < length h1) by (by eapply lookup_lt_Some).
  (* table_idi['destination_table_id'] = self.table_name *)
  destruct (setitem (VRef root) "destination_table_id" (table_name self)
              (<[root := ODict (delete "destination_table_id_template" d1)]> h1))
    as [[u|e] h3] eqn:Hset;
    apply setitem_inv in Hset as [(root' & d2 & [= <-] & Hroot2 & Hr & ->)|(e' & Hr & ->)];
    try discriminate Hr; try raised.
  clear Hr.
  rewrite list_lookup_insert_eq in Hroot2 by done. injection Hroot2 as <-.
  rewrite list_insert_insert_eq.
  pose (d := <["destination_table_id" := table_name self]>
               (delete "destination_table_id_template" d1)).
  match goal with
  | |- context [getitem (VRef root) "table_defs" ?hh] => set (h3 := hh)
  end.
  assert (Hh3 : h3 = <[root := ODict d]> h1) by reflexivity. clearbody h3.
  assert (Hpre3 : h `prefix_of` h3) by (subst h3; by apply prefix_insert_fresh).
  assert (Hroot3 : h3 !! root = Some (ODict d))
    by (subst h3; by apply list_lookup_insert_eq).
  (* table_idi['table_defs'] *)
  destruct (getitem (VRef root) "table_defs" h3) as [[table_defs|e] h3'] eqn:Hget;
    apply getitem_inv in Hget as [-> Hget]; [|raised].
  destruct (Hget _ eq_refl) as (root' & d' & [= <-] & Hroot3' & Hdefs).
  rewrite Hroot3 in Hroot3'. injection Hroot3' as <-.
  assert (Hdefs1 : d1 !! "table_defs" = Some table_defs).
  { subst d. by rewrite lookup_insert_ne, lookup_delete_ne in Hdefs. }
  (* [0] *)
  destruct (getitem_0 table_defs h3) as [[table_def|e] h3'] eqn:Hget0;
    apply getitem_0_inv in Hget0 as [-> Hget0]; [|raised].
  destruct (Hget0 _ eq_refl) as [(tl & rest & -> & Htl3)|(s & ->)]; [|by split].
  assert (Htl_fresh : length h ≤ tl).
  { exact (map_Forall_lookup_1 _ _ _ _ (Hnew _ _ Hfresh Hroot) Hdefs1). }
  assert (Hne : root ≠ tl) by (intros <-; congruence).
  assert (Htl1 : h1 !! tl = Some (OList (table_def :: rest))).
  { subst h3. by rewrite list_lookup_insert_ne in Htl3. }
  assert (Htd_fresh : fresh_val (length h) table_def).
  { specialize (Hnew _ _ Htl_fresh Htl1). cbn in Hnew. by inversion Hnew. }
  (* table_def['source_uris'] = self.uris *)
  destruct (setitem table_def "source_uris" (uris self) h3) as [[u'|e] h4] eqn:Hset';
    apply setitem_inv in Hset' as [(td & d0 & -> & Htd3 & Hr & ->)|(e' & Hr & ->)];
    try discriminate Hr; try raised.
  clear Hr.
  cbn in Htd_fresh. unfold ret. cbn [fst snd].
  assert (Htd_lt : td < length h3) by (by eapply lookup_lt_Some).
  assert (Hne' : td ≠ tl) by (intros <-; congruence).
  split; [by apply prefix_insert_fresh|].
  intros v [= <-].
  destruct (decide (td = root)) as [->|Hne''].
  - (* the first table definition is the top-level dict itself *)
    rewrite Hroot3 in Htd3. injection Htd3 as <-.
    exists root, (<["source_uris" := uris self]> d), tl, root, rest,
           (<["source_uris" := uris self]> d).
    subst d. repeat split; try done; try (by simplify_map_eq).
    + by apply list_lookup_insert_eq.
    + by rewrite list_lookup_insert_ne.
    + by apply list_lookup_insert_eq.
  - exists root, d, tl, td, rest, (<["source_uris" := uris self]> d0).
    subst d. repeat split; try done; try (by simplify_map_eq).
    + by rewrite list_lookup_insert_ne.
    + by rewrite list_lookup_insert_ne.
    + by apply list_lookup_insert_eq.
Qed.

(* ===================================================================== *)
(** ** When the copy returns *)
(* ===================================================================== *)

Lemma image_mono memo memo' v v' : memo ⊆ memo' -> image memo v v' -> image memo' v v'.
Proof.
  intros Hsub. destruct v; cbn; try done.
  intros (y & Hy & ->). exists y. split; [|done]. by eapply lookup_weaken.
Qed.

Lemma copy_of_mono memo memo' o o' :
  memo ⊆ memo' -> copy_of memo o o' -> copy_of memo' o o'.
Proof.
  intros Hsub. destruct o as [d|vs], o' as [d'|vs']; cbn; try done.
  - intros H k. specialize (H k). destruct H; constructor. by eapply image_mono.
  - intros H. eapply Forall2_impl; [exact H|]. intros ??. by apply image_mono.
Qed.

Lemma same_kind_trans_dict o dd dd' :
  same_kind o (ODict dd) -> same_kind o (ODict dd').
Proof. by destruct o. Qed.

Lemma same_kind_trans_list o vs vs' :
  same_kind o (OList vs) -> same_kind o (OList vs').
Proof. by destruct o. Qed.

Section Progress.
Variable h0 : list obj.

Lemma in_progress_start : in_progress h0 [] (h0, ∅).
Proof.
  split; [done|]. split; cbn.
  - intros l y H. by rewrite lookup_empty in H.
  - intros l1 l2 y H. by rewrite lookup_empty in H.
Qed.

Lemma in_progress_memo_lt A st l y :
  in_progress h0 A st -> st.2 !! l = Some y -> l < length h0.
Proof.
  intros (_ & Hm & _) Hl. destruct (Hm _ _ Hl) as (o & _ & Ho & _).
  by eapply lookup_lt_Some.
Qed.

Lemma in_progress_room A st l :
  in_progress h0 A st -> st.2 !! l = None -> l < length h0 ->
  size st.2 < length h0.
Proof.
  intros Hinv Hl Hlt.
  rewrite <- (size_dom (D := gset nat)).
  rewrite <- (size_set_seq (C := gset nat) 0 (length h0)).
  apply subset_size. split.
  - intros l' Hl'. apply elem_of_dom in Hl' as [y Hy].
    apply elem_of_set_seq. split; [lia|]. cbn. by eapply in_progress_memo_lt.
  - intros Hsub. assert (Hin : l ∈ dom st.2).
    { apply Hsub, elem_of_set_seq. cbn. lia. }
    apply elem_of_dom in Hin as [y Hy]. congruence.
Qed.

(** A new, empty copy for [l] is allocated and memoized. *)
Lemma in_progress_alloc A hp memo l o o' :
  in_progress h0 A (hp, memo) ->
  memo !! l = None -> h0 !! l = Some o -> same_kind o o' ->
  in_progress h0 (l :: A) (hp ++ [o'], <[l := length hp]> memo).
Proof.
  unfold in_progress; cbn [fst snd]. intros (Hpre & Hm & Hinj) Hl Ho Hk.
  assert (Hsub : memo ⊆ <[l := length hp]> memo) by (by apply insert_subseteq).
  assert (Hval : ∀ l' y', memo !! l' = Some y' -> y' < length hp).
  { intros l' y' Hy'. destruct (Hm _ _ Hy') as (_ & o1 & _ & _ & Hlook & _).
    by eapply lookup_lt_Some. }
  split; [by apply prefix_app_r|]. split.
  - intros l' y' Hy'. apply lookup_insert_Some in Hy' as [(<- & <-)|(Hne & Hy')].
    + exists o, o'. repeat split; try done.
      * by apply prefix_length.
      * by rewrite lookup_app_r, Nat.sub_diag.
      * intros Hnot. exfalso. apply Hnot. by left.
    + destruct (Hm _ _ Hy') as (o1 & o1' & Ho1 & Hge & Hlook & Hkind & Hcopy).
      exists o1, o1'. repeat split; try done.
      * by apply lookup_app_l_Some.
      * intros Hnot. eapply copy_of_mono; [done|]. apply Hcopy.
        intros Hin. apply Hnot. by right.
  - intros l1 l2 y H1 H2.
    apply lookup_insert_Some in H1 as [(<- & <-)|(Hne1 & H1)];
      apply lookup_insert_Some in H2 as [(<- & Heq)|(Hne2 & H2)]; try done.
    + specialize (Hval _ _ H2). lia.
    + specialize (Hval _ _ H1). lia.
    + by eapply Hinj.
Qed.

(** The copy under construction for [l] is overwritten with an object of
    the same kind. *)
Lemma in_progress_write A hp memo l y o1 o2 :
  in_progress h0 (l :: A) (hp, memo) ->
  memo !! l = Some y -> hp !! y = Some o1 ->
  (∀ o, same_kind o o1 -> same_kind o o2) ->
  in_progress h0 (l :: A) (<[y := o2]> hp, memo).
Proof.
  unfold in_progress; cbn [fst snd]. intros (Hpre & Hm & Hinj) Hl Hy Hk.
  destruct (Hm _ _ Hl) as (ol & ol' & Hol & Hge & Hlook & Hkind & _).
  split; [|split; [|done]].
  - destruct Hpre as [k ->]. exists (<[y - length h0 := o2]> k).
    by rewrite insert_app_r_alt.
  - intros l' y' Hy'.
    destruct (Hm _ _ Hy') as (o & o' & Ho & Hge' & Hlook' & Hkind' & Hcopy).
    destruct (decide (y' = y)) as [->|Hne].
    + assert (l' = l) as -> by (by eapply Hinj).
      exists o, o2. repeat split; try done.
      * apply list_lookup_insert_eq. by eapply lookup_lt_Some.
      * apply Hk. congruence.
      * intros Hnot. exfalso. apply Hnot. by left.
    + exists o, o'. repeat split; try done.
      by rewrite list_lookup_insert_ne.
Qed.

(** The copy for [l] is complete: [l] leaves the set of copies under
    construction. *)
Lemma in_progress_done A st l y o o' :
  in_progress h0 (l :: A) st ->
  st.2 !! l = Some y -> h0 !! l = Some o -> st.1 !! y = Some o' ->
  copy_of st.2 o o' ->
  in_progress h0 A st.
Proof.
  intros (Hpre & Hm & Hinj) Hl Ho Hy Hcopy.
  split; [done|]. split; [|done].
  intros l' y' Hy'.
  destruct (Hm _ _ Hy') as (o1 & o1' & Ho1 & Hge & Hlook & Hkind & Hcopy1).
  exists o1, o1'. repeat split; try done.
  intros Hnot. destruct (decide (l' = l)) as [->|Hne].
  - congruence.
  - apply Hcopy1. intros Hin. apply elem_of_cons in Hin as [?|?]; done.
Qed.

Lemma measure_mono (memo memo' : gmap loc loc) depth :
  memo ⊆ memo' -> length h0 - size memo < depth -> length h0 - size memo' < depth.
Proof. intros Hsub Hlt. apply map_subseteq_size in Hsub. lia. Qed.

Lemma copy_items_returns rec y l A depth kvs :
  returns_copy h0 (l :: A) depth rec ->
  NoDup kvs.*1 -> Forall (closed_val (length h0)) kvs.*2 ->
  ∀ st dacc,
    in_progress h0 (l :: A) st ->
    st.2 !! l = Some y -> st.1 !! y = Some (ODict dacc) ->
    length h0 - size st.2 < depth ->
    ∃ st' dacc' new,
      copy_items rec y kvs st = (Return tt, st')
      ∧ in_progress h0 (l :: A) st'
      ∧ st'.1 = <[y := ODict dacc']> st.1 ++ new
      ∧ st.2 ⊆ st'.2
      ∧ (∀ k v, (k, v) ∈ kvs -> ∃ v', dacc' !! k = Some v' ∧ image st'.2 v v')
      ∧ (∀ k, k ∉ kvs.*1 -> dacc' !! k = dacc !! k).
Proof.
  intros Hrec. induction kvs as [|[k0 v0] kvs IH]; intros Hnodup Hclosed st dacc Hinv Hl Hy Hm.
  - exists st, dacc, []. split; [done|]. split; [done|]. split.
    { by rewrite app_nil_r, list_insert_id. }
    split; [done|]. split; [|done].
    intros k v Hin. by apply elem_of_nil in Hin.
  - cbn in Hnodup, Hclosed. apply NoDup_cons in Hnodup as [Hk0 Hnodup].
    apply Forall_cons in Hclosed as [Hv0 Hclosed].
    (* value' = deepcopy(value, memo) *)
    destruct (Hrec v0 st Hinv Hv0 Hm) as (v0' & [hp1 memo1] & Hcall & Hinv1 & [new1 Hpre1] & Hsub1 & Himg).
    cbn [fst snd] in *.
    assert (Hylt : y < length st.1) by (by eapply lookup_lt_Some).
    assert (Hy1 : hp1 !! y = Some (ODict dacc)).
    { rewrite Hpre1. by apply lookup_app_l_Some. }
    (* y[key] = value' *)
    set (st2 := (<[y := ODict (<[k0 := v0']> dacc)]> hp1, memo1)).
    assert (Hinv2 : in_progress h0 (l :: A) st2).
    { eapply in_progress_write; [exact Hinv1| |exact Hy1|].
      - by eapply lookup_weaken.
      - intros o. apply same_kind_trans_dict. }
    destruct (IH Hnodup Hclosed st2 (<[k0 := v0']> dacc) Hinv2)
      as (st' & dacc' & new' & Hrun & Hinv' & Hheap & Hsub' & Hdone & Hrest).
    { by eapply lookup_weaken. }
    { cbn. apply list_lookup_insert_eq. by eapply lookup_lt_Some. }
    { cbn. by eapply measure_mono. }
    exists st', dacc', (new1 ++ new'). split; [|split; [done|split; [|split; [|split]]]].
    + cbn. unfold bind. rewrite Hcall. unfold on_heap, setitem. cbn [fst snd].
      rewrite Hy1. exact Hrun.
    + rewrite Hheap. subst st2. cbn [fst]. rewrite Hpre1.
      rewrite list_insert_insert_eq.
      rewrite (insert_app_l _ _ _ _ Hylt).
      by rewrite <- app_assoc.
    + by etrans.
    + intros k v Hin. apply elem_of_cons in Hin as [[= -> ->]|Hin]; [|by apply Hdone].
      exists v0'. split.
      * rewrite Hrest by done. by rewrite lookup_insert_eq.
      * by eapply image_mono.
    + intros k Hk. cbn in Hk. apply not_elem_of_cons in Hk as [Hne Hk].
      rewrite Hrest by done. by rewrite lookup_insert_ne.
Qed.

Lemma copy_elems_returns rec y l A depth vs :
  returns_copy h0 (l :: A) depth rec ->
  Forall (closed_val (length h0)) vs ->
  ∀ st acc,
    in_progress h0 (l :: A) st ->
    st.2 !! l = Some y -> st.1 !! y = Some (OList acc) ->
    length h0 - size st.2 < depth ->
    ∃ st' vs' new,
      copy_elems rec y vs st = (Return tt, st')
      ∧ in_progress h0 (l :: A) st'
      ∧ st'.1 = <[y := OList (acc ++ vs')]> st.1 ++ new
      ∧ st.2 ⊆ st'.2
      ∧ Forall2 (image st'.2) vs vs'.
Proof.
  intros Hrec. induction vs as [|a vs IH]; intros Hclosed st acc Hinv Hl Hy Hm.
  - exists st, [], []. split; [done|]. split; [done|]. split.
    { by rewrite !app_nil_r, list_insert_id. }
    split; [done|constructor].
  - apply Forall_cons in Hclosed as [Ha Hclosed].
    destruct (Hrec a st Hinv Ha Hm) as (a' & [hp1 memo1] & Hcall & Hinv1 & [new1 Hpre1] & Hsub1 & Himg).
    cbn [fst snd] in *.
    assert (Hylt : y < length st.1) by (by eapply lookup_lt_Some).
    assert (Hy1 : hp1 !! y = Some (OList acc)).
    { rewrite Hpre1. by apply lookup_app_l_Some. }
    set (st2 := (<[y := OList (acc ++ [a'])]> hp1, memo1)).
    assert (Hinv2 : in_progress h0 (l :: A) st2).
    { eapply in_progress_write; [exact Hinv1| |exact Hy1|].
      - by eapply lookup_weaken.
      - intros o. apply same_kind_trans_list. }
    destruct (IH Hclosed st2 (acc ++ [a']) Hinv2)
      as (st' & vs' & new' & Hrun & Hinv' & Hheap & Hsub' & Hdone).
    { by eapply lookup_weaken. }
    { cbn. apply list_lookup_insert_eq. by eapply lookup_lt_Some. }
    { cbn. by eapply measure_mono. }
    exists st', (a' :: vs'), (new1 ++ new'). split; [|split; [done|split; [|split]]].
    + cbn. unfold bind. rewrite Hcall. unfold on_heap, append. cbn [fst snd].
      rewrite Hy1. exact Hrun.
    + rewrite Hheap. subst st2. cbn [fst]. rewrite Hpre1.
      rewrite list_insert_insert_eq.
      rewrite (insert_app_l _ _ _ _ Hylt).
      by rewrite <- !app_assoc.
    + by etrans.
    + constructor; [|done]. by eapply image_mono.
Qed.

Hypothesis h0_closed : closed_heap h0.

Lemma closed_lookup l o : h0 !! l = Some o -> closed_obj (length h0) o.
Proof. intros Hl. by eapply (Forall_lookup_1 _ _ _ _ h0_closed). Qed.

Lemma deepcopy_rec_returns depth : ∀ A, returns_copy h0 A depth (deepcopy_rec depth).
Proof.
  induction depth as [|depth IH]; intros A x [hp memo] Hinv Hx Hm; [lia|].
  cbn [fst snd] in *.
  destruct x as [| | | |l];
    try (eexists _, (hp, memo); split; [reflexivity|]; split; [done|];
         split; [done|]; split; [done|reflexivity]).
  cbn in Hx. cbn [deepcopy_rec]. unfold bind, get. cbn [fst snd].
  destruct (memo !! l) as [y|] eqn:Hl.
  { exists (VRef y), (hp, memo). split; [done|]. split; [done|].
    split; [done|]. split; [done|]. by exists y. }
  destruct (lookup_lt_is_Some_2 h0 l Hx) as [o Ho].
  assert (Hhp : hp !! l = Some o).
  { destruct Hinv as (Hpre & _). by eapply prefix_lookup_Some. }
  assert (Hroom : size memo < length h0).
  { by eapply (in_progress_room A (hp, memo)). }
  assert (Hsub : memo ⊆ <[l := length hp]> memo) by (by apply insert_subseteq).
  rewrite Hhp. unfold on_heap, alloc, memoize, modify. cbn [fst snd].
  destruct o as [d|vs].
  - (* a dict *)
    destruct (copy_items_returns (deepcopy_rec depth) (length hp) l A depth
                (map_to_list d) (IH (l :: A)) (NoDup_fst_map_to_list d))
      with (st := (hp ++ [ODict ∅], <[l := length hp]> memo)) (dacc := (∅ : gmap string val))
      as (st' & d' & new & Hrun & Hinv' & Hheap & Hsub' & Hdone & Hrest).
    { apply Forall_fmap, Forall_forall. intros [k v] Hin.
      apply elem_of_map_to_list in Hin.
      exact (map_Forall_lookup_1 _ _ _ _ (closed_lookup _ _ Ho) Hin). }
    { by eapply in_progress_alloc. }
    { cbn. by rewrite lookup_insert_eq. }
    { cbn. by rewrite lookup_app_r, Nat.sub_diag. }
    { cbn. rewrite map_size_insert_None by done. lia. }
    cbn [fst snd] in Hheap |- *.
    rewrite Hrun. unfold ret.
    assert (Hheap' : st'.1 = hp ++ [ODict d'] ++ new).
    { rewrite Hheap. rewrite <- (Nat.add_0_r (length hp)), insert_app_r.
      by rewrite <- app_assoc. }
    assert (Hl' : st'.2 !! l = Some (length hp)).
    { apply (lookup_weaken (<[l := length hp]> memo)); [|exact Hsub'].
      by rewrite lookup_insert_eq. }
    exists (VRef (length hp)), st'. split; [done|]. split; [|split; [|split]].
    + eapply (in_progress_done _ _ _ _ _ (ODict d')); [exact Hinv'|exact Hl'|exact Ho| |].
      * rewrite Hheap'. by rewrite lookup_app_r, Nat.sub_diag.
      * intros k. destruct (d !! k) as [v|] eqn:Hk.
        -- destruct (Hdone k v) as (v' & -> & Himg); [by apply elem_of_map_to_list|].
           by constructor.
        -- rewrite Hrest, lookup_empty; [constructor|].
           intros Hin. apply list_elem_of_fmap in Hin as ([k' v] & -> & Hin).
           apply elem_of_map_to_list in Hin. cbn in Hk. congruence.
    + rewrite Hheap'. by apply prefix_app_r.
    + by etrans.
    + by exists (length hp).
  - (* a list *)
    destruct (copy_elems_returns (deepcopy_rec depth) (length hp) l A depth
                vs (IH (l :: A)))
      with (st := (hp ++ [OList []], <[l := length hp]> memo)) (acc := ([] : list val))
      as (st' & vs' & new & Hrun & Hinv' & Hheap & Hsub' & Hdone).
    { exact (closed_lookup _ _ Ho). }
    { by eapply in_progress_alloc. }
    { cbn. by rewrite lookup_insert_eq. }
    { cbn. by rewrite lookup_app_r, Nat.sub_diag. }
    { cbn. rewrite map_size_insert_None by done. lia. }
    cbn [fst snd app] in Hheap |- *.
    rewrite Hrun. unfold ret.
    assert (Hheap' : st'.1 = hp ++ [OList vs'] ++ new).
    { rewrite Hheap. rewrite <- (Nat.add_0_r (length hp)), insert_app_r.
      by rewrite <- app_assoc. }
    assert (Hl' : st'.2 !! l = Some (length hp)).
    { apply (lookup_weaken (<[l := length hp]> memo)); [|exact Hsub'].
      by rewrite lookup_insert_eq. }
    exists (VRef (length hp)), st'. split; [done|]. split; [|split; [|split]].
    + eapply (in_progress_done _ _ _ _ _ (OList vs')); [exact Hinv'|exact Hl'|exact Ho| |done].
      rewrite Hheap'. by rewrite lookup_app_r, Nat.sub_diag.
    + rewrite Hheap'. by apply prefix_app_r.
    + by etrans.
    + by exists (length hp).
Qed.

(** With more nested calls allowed than there are objects, [deepcopy]
    returns, leaves the heap it started from in place, and every object
    it went through has a complete copy among the new ones. *)
Lemma deepcopy_returns depth x :
  closed_val (length h0) x -> length h0 < depth ->
  ∃ v h1 memo,
    deepcopy depth x h0 = (Return v, h1)
    ∧ in_progress h0 [] (h1, memo)
    ∧ image memo x v.
Proof.
  intros Hx Hdepth.
  destruct (deepcopy_rec_returns depth [] x (h0, ∅) in_progress_start Hx)
    as (v & [h1 memo] & Hrun & Hinv & _ & _ & Himg).
  { cbn. rewrite map_size_empty. lia. }
  exists v, h1, memo. unfold deepcopy. rewrite Hrun. done.
Qed.
End Progress.

Lemma pop_dict l d key (h : list obj) :
  h !! l = Some (ODict d) ->
  pop (VRef l) key h
  = (Return (default VNone (d !! key)), <[l := ODict (delete key d)]> h).
Proof. intros Hl. unfold pop. by rewrite Hl. Qed.

Lemma setitem_dict l d key v (h : list obj) :
  h !! l = Some (ODict d) ->
  setitem (VRef l) key v h = (Return tt, <[l := ODict (<[key := v]> d)]> h).
Proof. intros Hl. unfold setitem. by rewrite Hl. Qed.

Lemma getitem_dict l d key v (h : list obj) :
  h !! l = Some (ODict d) -> d !! key = Some v ->
  getitem (VRef l) key h = (Return v, h).
Proof. intros Hl Hk. unfold getitem. by rewrite Hl, Hk. Qed.

Lemma getitem_0_list l v vs (h : list obj) :
  h !! l = Some (OList (v :: vs)) -> getitem_0 (VRef l) h = (Return v, h).
Proof. intros Hl. unfold getitem_0. by rewrite Hl. Qed.

Lemma image_ref_inv memo l v : image memo (VRef l) v -> ∃ y, memo !! l = Some y ∧ v = VRef y.
Proof. done. Qed.

Lemma in_progress_copy h0 h1 memo l y :
  in_progress h0 [] (h1, memo) -> memo !! l = Some y ->
  ∃ o o', h0 !! l = Some o ∧ length h0 ≤ y ∧ h1 !! y = Some o' ∧ copy_of memo o o'.
Proof.
  intros (_ & Hm & _) Hl. destruct (Hm _ _ Hl) as (o & o' & Ho & Hge & Hy & _ & Hcopy).
  exists o, o'. repeat split; try done. apply Hcopy. by intros ?%elem_of_nil.
Qed.

Lemma to_ImportedDataInfo_returns depth self h l0 d l1 l2 rest d2 :
  closed_heap h -> length h < depth ->
  imported_data_info self = VRef l0 ->
  h !! l0 = Some (ODict d) ->
  d !! "table_defs" = Some (VRef l1) ->
  h !! l1 = Some (OList (VRef l2 :: rest)) ->
  h !! l2 = Some (ODict d2) ->
  ∃ v, (to_ImportedDataInfo depth self h).1 = Return v.
Proof.
  intros Hclosed Hdepth Hidi Hl0 Hdefs Hl1 Hl2.
  destruct (deepcopy_returns h Hclosed depth (VRef l0)) as (v & h1 & memo & Hcopy & Hinv & Himg);
    [by eapply lookup_lt_Some | done |].
  (* the copy of the top-level dict *)
  apply image_ref_inv in Himg as (y0 & Hm0 & ->).
  destruct (in_progress_copy _ _ _ _ _ Hinv Hm0) as (o & o' & Ho & _ & Hy0 & Hc0).
  rewrite Hl0 in Ho. injection Ho as <-. destruct o' as [d'|]; [|done]. cbn in Hc0.
  (* the copy of the list of table definitions *)
  pose proof (Hc0 "table_defs") as Hk. rewrite Hdefs in Hk.
  inversion Hk as [? v1 Himg1 Heq1 Hd'|]; subst. symmetry in Hd'.
  apply image_ref_inv in Himg1 as (y1 & Hm1 & ->).
  destruct (in_progress_copy _ _ _ _ _ Hinv Hm1) as (o & o' & Ho & _ & Hy1 & Hc1).
  rewrite Hl1 in Ho. injection Ho as <-. destruct o' as [|vs']; [done|]. cbn in Hc1.
  (* the copy of the first table definition *)
  inversion Hc1 as [|? v2 ? rest' Himg2 _]; subst.
  apply image_ref_inv in Himg2 as (y2 & Hm2 & ->).
  destruct (in_progress_copy _ _ _ _ _ Hinv Hm2) as (o & o' & Ho & _ & Hy2 & Hc2).
  rewrite Hl2 in Ho. injection Ho as <-. destruct o' as [d2'|]; [|done].
  (* the four statements after the copy *)
  assert (Hlt0 : y0 < length h1) by (by eapply lookup_lt_Some).
  assert (Hne : y0 ≠ y1) by (intros ->; congruence).
  unfold to_ImportedDataInfo, bind. rewrite Hidi, Hcopy.
  rewrite (pop_dict _ _ _ _ Hy0).
  set (h2 := <[y0 := ODict (delete "destination_table_id_template" d')]> h1).
  assert (Hy0_2 : h2 !! y0 = Some (ODict (delete "destination_table_id_template" d')))
    by (by apply list_lookup_insert_eq).
  rewrite (setitem_dict _ _ _ _ _ Hy0_2).
  set (d3 := <["destination_table_id" := table_name self]>
               (delete "destination_table_id_template" d')).
  set (h3 := <[y0 := ODict d3]> h2).
  assert (Hy0_3 : h3 !! y0 = Some (ODict d3)).
  { apply list_lookup_insert_eq. subst h2. by rewrite length_insert. }
  assert (Hd3 : d3 !! "table_defs" = Some (VRef y1)).
  { subst d3. by rewrite lookup_insert_ne, lookup_delete_ne. }
  rewrite (getitem_dict _ _ _ _ _ Hy0_3 Hd3).
  assert (Hy1_3 : h3 !! y1 = Some (OList (VRef y2 :: rest'))).
  { subst h3 h2. by rewrite !list_lookup_insert_ne. }
  rewrite (getitem_0_list _ _ _ _ Hy1_3).
  destruct (decide (y2 = y0)) as [->|Hne2].
  - rewrite (setitem_dict _ _ _ _ _ Hy0_3). by eexists.
  - assert (Hy2_3 : h3 !! y2 = Some (ODict d2')).
    { subst h3 h2. by rewrite !list_lookup_insert_ne. }
    rewrite (setitem_dict _ _ _ _ _ Hy2_3). by eexists.
Qed.

(** Claim C9.  [to_ImportedDataInfo] leaves every object that existed
    before the call as it was (the heap before is a prefix of the heap
    after, also when an exception is raised), so the dict the context's
    [imported_data_info] refers to, and all that is reachable from it, is
    unchanged.  When it returns, the result is a new dict that has no
    ['destination_table_id_template'] key, maps ['destination_table_id'] to
    the context's [table_name], and whose ['table_defs'] is a new list
    whose first element is a new dict mapping ['source_uris'] to the
    context's [uris].  It does return, given more nested calls than there
    are objects, when the heap is closed and the context's
    [imported_data_info] is a dict whose ['table_defs'] is a list that
    starts with a dict. *)
Theorem C9_to_ImportedDataInfo_copies (depth : nat) (self : t) (h : list obj) :
  h `prefix_of` (to_ImportedDataInfo depth self h).2
  ∧ (∀ v, (to_ImportedDataInfo depth self h).1 = Return v ->
       ∃ root d tl td rest d0,
         v = VRef root
         ∧ length h ≤ root ∧ length h ≤ tl ∧ length h ≤ td
         ∧ (to_ImportedDataInfo depth self h).2 !! root = Some (ODict d)
         ∧ d !! "destination_table_id_template" = None
         ∧ d !! "destination_table_id" = Some (table_name self)
         ∧ d !! "table_defs" = Some (VRef tl)
         ∧ (to_ImportedDataInfo depth self h).2 !! tl = Some (OList (VRef td :: rest))
         ∧ (to_ImportedDataInfo depth self h).2 !! td = Some (ODict d0)
         ∧ d0 !! "source_uris" = Some (uris self))
  ∧ (∀ l0 d l1 l2 rest d2,
       closed_heap h -> length h < depth ->
       imported_data_info self = VRef l0 ->
       h !! l0 = Some (ODict d) ->
       d !! "table_defs" = Some (VRef l1) ->
       h !! l1 = Some (OList (VRef l2 :: rest)) ->
       h !! l2 = Some (ODict d2) ->
       ∃ v, (to_ImportedDataInfo depth self h).1 = Return v).
Proof.
  destruct (to_ImportedDataInfo_frame_and_result depth self h) as [Hframe Hresult].
  split; [exact Hframe|]. split; [exact Hresult|].
  intros l0 d l1 l2 rest d2. apply to_ImportedDataInfo_returns.
Qed.

Lemma C9_witness :
  let idi := <["destination_table_id_template" := VStr "date_greg${run_yyyymmdd}"]>
               (<["table_defs" := VRef 1]> (∅ : gmap string val)) in
  let table_def := <["format" := VStr "JSON"]> (∅ : gmap string val) in
  let h := [ODict idi; OList [VRef 2]; ODict table_def;
            OList [VStr "gs://staging-bucket/date_greg.json"]] in
  let self := mk (VRef 0) (VStr "date_greg$20180101") (VRef 3) in
  (closed_heap h ∧ length h < 8)
  ∧ ∃ v d tl td rest d0,
      (to_ImportedDataInfo 8 self h).1 = Return v
      ∧ v = VRef 4
      ∧ (to_ImportedDataInfo 8 self h).2 !! 4 = Some (ODict d)
      ∧ d !! "destination_table_id_template" = None
      ∧ d !! "destination_table_id" = Some (VStr "date_greg$20180101")
      ∧ d !! "table_defs" = Some (VRef tl)
      ∧ (to_ImportedDataInfo 8 self h).2 !! tl = Some (OList (VRef td :: rest))
      ∧ (to_ImportedDataInfo 8 self h).2 !! td = Some (ODict d0)
      ∧ d0 !! "source_uris" = Some (VRef 3).
Proof.
  intros idi table_def h self.
  assert (Hclosed : closed_heap h).
  { unfold closed_heap. repeat apply Forall_cons_2; try apply Forall_nil_2; cbn.
    - subst idi. apply map_Forall_insert_2; [exact I|].
      apply map_Forall_insert_2; [cbn; lia|]. apply map_Forall_empty.
    - lia.
    - subst table_def. apply map_Forall_insert_2; [exact I|]. apply map_Forall_empty.
    - exact I. }
  assert (Hdepth : length h < 8) by (cbn; lia).
  split; [by split|].
  assert (Hdefs0 : idi !! "table_defs" = Some (VRef 1)) by (vm_compute; reflexivity).
  destruct (C9_to_ImportedDataInfo_copies 8 self h) as (_ & Hresult & Hreturns).
  destruct (Hreturns 0 idi 1 2 [] table_def Hclosed Hdepth eq_refl eq_refl Hdefs0
              eq_refl eq_refl) as [v Hv].
  destruct (Hresult v Hv)
    as (root & d & tl & td & rest & d0 & -> & _ & _ & _ & Hroot & Htmpl & Hid & Hdefs
        & Htl & Htd & Huris).
  assert (Hroot4 : root = 4).
  { assert (Hc : (to_ImportedDataInfo 8 self h).1 = Return (VRef 4))
      by (vm_compute; reflexivity).
    rewrite Hv in Hc. by injection Hc. }
  subst root. exists (VRef 4), d, tl, td, rest, d0. auto 12.
Defined.

(* ===================================================================== *)
(** * Further facts about the lifecycle *)
(* ===================================================================== *)

Local Open Scope Z_scope.

(** ** The run logger's buffer *)

Lemma run_logger_log_buffers lvl text s :
  run_logger_log lvl text s
  = (Return tt, set_msgs (msgs s ++ option_list (buffered_entry (clock s) (lvl, text))) s).
Proof.
  destruct s as [n c m ur tr ui ti ck rs t].
  destruct lvl; cbn; rewrite ?app_nil_r; reflexivity.
Qed.

Lemma log_all_buffers (records : list (Level * string)) (s : state) :
  log_all records s
  = (Return tt, set_msgs (msgs s ++ omap (buffered_entry (clock s)) records) s).
Proof.
  revert s. induction records as [|[lvl text] records IH]; intros s.
  - destruct s; cbn. by rewrite app_nil_r.
  - cbn [log_all]. unfold bind. rewrite run_logger_log_buffers, IH.
    destruct s as [n c m ur tr ui ti ck rs t]. cbn.
    destruct (buffered_entry ck (lvl, text)); cbn; by rewrite <- ?app_assoc, ?app_nil_r.
Qed.



(** ** Heartbeats in sequence *)

Ltac ev :=
  unfold events_since; cbn;
  first [apply drop_app_length | apply drop_all
        | repeat rewrite <- app_assoc; cbn [app]; apply drop_app_length].

(** X2.  With a client, a heartbeat tick whose submission raises [e]
    raises [e] and keeps the batch in the buffer, so the records logged
    afterwards are appended to it; the next tick submits, in one call, the
    batch that failed followed by the new entries, and if that call returns
    the tick returns and the buffer is empty.  A failed submission is thus
    sent again, never lost. *)
Theorem X2_failed_submission_is_resubmitted
    (e : exn) (rest : list (option exn)) (records : list (Level * string)) (s : state) :
  has_dts_client s = true ->
  responses s = Some e :: rest ->
  let s1 := (_update_bq_dts s).2 in
  let s2 := (log_all records s1).2 in
  (_update_bq_dts s).1 = Raise e
  ∧ msgs s2 = heartbeat_batch s ++ omap (buffered_entry (clock s)) records
  ∧ events_since s2 (_update_bq_dts s2).2 =
      [EvDts (transfer_run_log_messages (name s)
                (heartbeat_batch s ++ omap (buffered_entry (clock s)) records))]
  ∧ (calls_return 1 s2 = true ->
     (_update_bq_dts s2).1 = Return tt ∧ msgs (_update_bq_dts s2).2 = []).
Proof.
  intros Hc Hr s1 s2. subst s2 s1.
  rewrite log_all_buffers.
  destruct s as [n c m ur tr ui ti ck rs t]. cbn in Hc, Hr. subst c rs.
  unfold heartbeat_batch, calls_return.
  destruct m as [|m0 m]; cbn.
  - split; [reflexivity|]. split; [reflexivity|].
    destruct rest as [|[e1|] rest]; cbn;
      (split; [ev|]);
      first [discriminate | split; reflexivity].
  - split; [reflexivity|]. split; [reflexivity|].
    destruct rest as [|[e1|] rest]; cbn;
      (split; [ev|]);
      first [discriminate | split; reflexivity].
Qed.

Lemma X2_witness :
  let s := init "runs/r1" true 60 3600 0 [Some (HttpError 503 "unavailable")] in
  let s2 := (log_all [(INFO, "staged"); (DEBUG, "detail")] (_update_bq_dts s).2).2 in
  (has_dts_client s = true ∧ responses s = [Some (HttpError 503 "unavailable")])
  ∧ (_update_bq_dts s).1 = Raise (HttpError 503 "unavailable")
  ∧ msgs s2 = [processing_message 0; mkMessage 0 SEV_INFO "staged"]
  ∧ events_since s2 (_update_bq_dts s2).2 =
      [EvDts (transfer_run_log_messages "runs/r1"
                [processing_message 0; mkMessage 0 SEV_INFO "staged"])].
Proof.
  intros s s2. split; [split; reflexivity|].
  pose proof (X2_failed_submission_is_resubmitted
                (HttpError 503 "unavailable") [] [(INFO, "staged"); (DEBUG, "detail")] s
                eq_refl eq_refl) as H.
  cbv zeta in H. destruct H as (H1 & H2 & H3 & _).
  split; [exact H1|]. split; [exact H2 | exact H3].
Defined.

(** X3.  A heartbeat tick that runs without a client, or whose submission
    returns, returns and empties the buffer; after any records are logged
    the buffer holds their entries only, and the next tick's batch is made
    of those entries (or of the synthetic entry when there is none): an
    entry that was submitted is not submitted a second time.  Without a
    client the second tick sends nothing. *)
Theorem X3_returned_submission_is_not_repeated
    (records : list (Level * string)) (s : state) :
  negb (has_dts_client s) || calls_return 1 s = true ->
  let s1 := (_update_bq_dts s).2 in
  let s2 := (log_all records s1).2 in
  (_update_bq_dts s).1 = Return tt
  ∧ msgs s2 = omap (buffered_entry (clock s)) records
  ∧ heartbeat_batch s2 =
      match omap (buffered_entry (clock s)) records with
      | [] => [processing_message (clock s)]
      | sent => sent
      end
  ∧ events_since s2 (_update_bq_dts s2).2 =
      (if has_dts_client s
       then [EvDts (transfer_run_log_messages (name s) (heartbeat_batch s2))]
       else []).
Proof.
  intros Hok s1 s2. subst s2 s1.
  rewrite log_all_buffers.
  destruct s as [n c m ur tr ui ti ck rs t]. unfold calls_return, heartbeat_batch in *.
  destruct c; cbn in Hok |- *.
  - destruct rs as [|[e1|] rs]; try discriminate Hok;
      destruct m; cbn;
      destruct (omap (buffered_entry ck) records) as [|? ?] eqn:Hsent; cbn;
      repeat split; try reflexivity;
      try (destruct rs as [|[?|] ?]; ev); ev.
  - destruct m; cbn;
      destruct (omap (buffered_entry ck) records) as [|? ?] eqn:Hsent; cbn;
      repeat split; try reflexivity; ev.
Qed.

Lemma X3_witness :
  let s := set_msgs [mkMessage 0 SEV_INFO "started"] (init "runs/r1" true 60 3600 0 []) in
  let s2 := (log_all [(WARNING, "slow")] (_update_bq_dts s).2).2 in
  negb (has_dts_client s) || calls_return 1 s = true
  ∧ msgs s2 = [mkMessage 0 SEV_WARNING "slow"]
  ∧ events_since s2 (_update_bq_dts s2).2 =
      [EvDts (transfer_run_log_messages "runs/r1" [mkMessage 0 SEV_WARNING "slow"])].
Proof.
  intros s s2. split; [reflexivity|].
  pose proof (X3_returned_submission_is_not_repeated [(WARNING, "slow")] s eq_refl) as H.
  cbv zeta in H. destruct H as (_ & H2 & _ & H4).
  split; [exact H2 | exact H4].
Defined.

(** ** What only adds to the trace *)

Lemma appends_ret {A} (a : A) : appends (ret a).
Proof. intros s. reflexivity. Qed.

Lemma appends_bind {A B} (m : M state A) (k : A -> M state B) :
  appends m -> (∀ a, appends (k a)) -> appends (bind m k).
Proof.
  intros Hm Hk s. unfold bind. specialize (Hm s).
  destruct (m s) as [[a|e] s1]; cbn in *; [|done].
  etrans; [exact Hm|]. apply Hk.
Qed.

Lemma appends_get : appends get.
Proof. intros s. reflexivity. Qed.

Lemma appends_record (ev : event) (f : state -> state) :
  (∀ s, trace (f s) = trace s) -> appends (modify (fun s => record_event ev (f s))).
Proof. intros Hf s. cbn. rewrite Hf. by apply prefix_app_r. Qed.

Lemma appends_silent (f : state -> state) :
  (∀ s, trace (f s) = trace s) -> appends (modify f).
Proof. intros Hf s. cbn. by rewrite Hf. Qed.

Lemma appends_dts (c : dts_call) : appends (dts c).
Proof.
  intros s. unfold dts. destruct (responses s) as [|[e|] rest]; cbn;
    by apply prefix_app_r.
Qed.

Lemma appends_if {A} (b : bool) (m1 m2 : M state A) :
  appends m1 -> appends m2 -> appends (if b then m1 else m2).
Proof. by destruct b. Qed.

Lemma appends_run_logger_log lvl text : appends (run_logger_log lvl text).
Proof.
  unfold run_logger_log. repeat apply appends_if; try apply appends_ret.
  apply appends_bind; [apply appends_get|]. intros s.
  unfold TransferRunLogger.emit.
  destruct (TransferRunLogger.LEVEL_TO_SEVERITY_MAP lvl);
    [by apply appends_silent | apply appends_ret].
Qed.

Lemma appends_update_bq_dts : appends _update_bq_dts.
Proof.
  unfold _update_bq_dts.
  repeat first
    [ apply appends_bind; [|intros ?]
    | apply appends_if
    | apply appends_get
    | apply appends_ret
    | apply appends_run_logger_log
    | apply appends_dts
    | by apply appends_silent ].
Qed.

Lemma appends_exit exc : appends (__exit__ exc).
Proof.
  unfold __exit__, timer_stop, timer_run_now, logger_log.
  repeat first
    [ apply appends_bind; [|intros ?]
    | apply appends_if
    | apply appends_get
    | apply appends_ret
    | apply appends_run_logger_log
    | apply appends_update_bq_dts
    | apply appends_dts
    | apply (appends_record _ (fun s => s)); reflexivity
    | apply appends_record; intros []; reflexivity
    | destruct exc ].
Qed.

Lemma events_since_prefix (s s' : state) :
  trace s `prefix_of` trace s' -> trace s' = trace s ++ events_since s s'.
Proof. unfold events_since. intros [evs ->]. by rewrite drop_app_length. Qed.

Lemma events_since_trans (s s1 s2 : state) :
  trace s `prefix_of` trace s1 -> trace s1 `prefix_of` trace s2 ->
  events_since s s2 = events_since s s1 ++ events_since s1 s2.
Proof.
  intros H1 H2. apply events_since_prefix in H1, H2.
  unfold events_since at 1. rewrite H2. rewrite H1 at 1.
  by rewrite <- app_assoc, drop_app_length.
Qed.

Lemma dts_calls_app (l1 l2 : list event) :
  dts_calls (l1 ++ l2) = dts_calls l1 ++ dts_calls l2.
Proof. apply omap_app. Qed.

(** ** The scope as a whole *)

Lemma with_scope_unfold body s s1 r s2 :
  __enter__ s = (Return tt, s1) ->
  body s1 = (r, s2) ->
  with_scope body s =
    match __exit__ (exception_of r) s2 with
    | (Return suppress, s3) =>
        match r with
        | Return _ => (Return tt, s3)
        | Raise e => if suppress then (Return tt, s3) else (Raise e, s3)
        end
    | (Raise e', s3) => (Raise e', s3)
    end.
Proof.
  intros He Hb. unfold with_scope, bind. rewrite He, Hb.
  destruct r as [[]|e]; cbn.
  - destruct (__exit__ None s2) as [[b|e'] s3]; reflexivity.
  - destruct (__exit__ (Some e) s2) as [[[|]|e'] s3]; reflexivity.
Qed.

(** [__enter__] up to the failed report of RUNNING. *)
Lemma enter_report_fails (e : exn) (rest : list (option exn)) (s : state) :
  has_dts_client s = true ->
  responses s = Some e :: rest ->
  isinstance_Exception e = true ->
  __enter__ s =
    match __exit__ (Some e) (report_attempted rest s) with
    | (Return true, s2) => (Return tt, s2)
    | (Return false, s2) => (Raise e, s2)
    | (Raise e', s2) => (Raise e', s2)
    end.
Proof.
  destruct s as [n c m ur tr ui ti ck rs t].
  intros Hc Hr Hexc. cbn in Hc, Hr. subst c rs.
  unfold __enter__, try_except_Exception. cbn -[__exit__]. rewrite Hexc.
  unfold bind, report_attempted. cbn -[__exit__].
  destruct (__exit__ (Some e) _) as [[[|]|e'] s2]; reflexivity.
Qed.


(** X4.  When the report of RUNNING made by [__enter__] raises something
    that is not an [Exception] (a [KeyboardInterrupt], say), nothing
    catches it: [__exit__] is not run, the message callback raises it
    without acking or nacking, and both timers are left started.  The only
    effects are the two log lines, the two timer starts and the attempted
    report. *)
Theorem X4_interrupted_entry_leaves_timers_running
    (e : exn) (rest : list (option exn)) (body : M state unit) (s : state) :
  has_dts_client s = true ->
  responses s = Some e :: rest ->
  isinstance_Exception e = false ->
  (pubsub_callback body s).1 = Raise e
  ∧ update_running (pubsub_callback body s).2 = true
  ∧ timeout_running (pubsub_callback body s).2 = true
  ∧ events_since s (pubsub_callback body s).2 =
      [EvLogger INFO ("[" +:+ name s +:+ "] [STARTING]");
       EvTimerStart timer_update_bq_dts;
       EvTimerStart timer_timeout;
       EvLogger INFO ("[" +:+ name s +:+ "] BQ DTS ; Starting Run");
       EvDts (transfer_run_patch_state (name s) RUNNING)].
Proof.
  intros Hc Hr He.
  assert (Henter : ∃ s1, __enter__ s = (Raise e, s1)
            ∧ update_running s1 = true ∧ timeout_running s1 = true
            ∧ events_since s s1 =
                [EvLogger INFO ("[" +:+ name s +:+ "] [STARTING]");
                 EvTimerStart timer_update_bq_dts;
                 EvTimerStart timer_timeout;
                 EvLogger INFO ("[" +:+ name s +:+ "] BQ DTS ; Starting Run");
                 EvDts (transfer_run_patch_state (name s) RUNNING)]).
  { destruct s as [n c m ur tr ui ti ck rs t]. cbn in Hc, Hr. subst c rs.
    unfold __enter__, try_except_Exception. cbn -[__exit__]. rewrite He.
    eexists. split; [reflexivity|]. repeat split. ev. }
  destruct Henter as (s1 & Henter & Hu & Ht & Hev).
  rewrite pubsub_callback_unfold.
  unfold with_scope, bind. rewrite Henter.
  destruct e; try discriminate He. cbn. auto.
Qed.

Lemma X4_witness :
  let s := init "runs/r1" true 60 3600 0 [Some KeyboardInterrupt] in
  (has_dts_client s = true ∧ responses s = [Some KeyboardInterrupt]
   ∧ isinstance_Exception KeyboardInterrupt = false)
  ∧ (pubsub_callback (ret tt) s).1 = Raise KeyboardInterrupt
  ∧ update_running (pubsub_callback (ret tt) s).2 = true
  ∧ timeout_running (pubsub_callback (ret tt) s).2 = true.
Proof.
  intros s. split; [repeat split|].
  destruct (X4_interrupted_entry_leaves_timers_running KeyboardInterrupt [] (ret tt) s
              eq_refl eq_refl eq_refl) as (H1 & H2 & H3 & _).
  split; [exact H1|]. split; [exact H2 | exact H3].
Defined.

(** X5.  When the report of RUNNING raises an [AssertionError] and the
    three calls of the scope exit it triggers return, [__enter__] returns
    normally with both timers stopped, after the service was told RUNNING,
    sent the batch that ends with the error's entry, told FAILED and told
    the run is finished.  The body then runs all the same, and if it
    returns, scope exit runs a second time: the service is sent a second
    batch and told a second time that the run is finished (this time
    without a FAILED report), and the message is acked. *)
Theorem X5_suppressed_entry_failure_exits_twice
    (rest : list (option exn)) (body : M state unit) (s s2 : state) :
  has_dts_client s = true ->
  responses s = Some AssertionError :: rest ->
  calls_return 3 (set_responses rest s) = true ->
  let s1 := (__enter__ s).2 in
  body s1 = (Return tt, s2) ->
  has_dts_client s2 = true ->
  calls_return 2 s2 = true ->
  (__enter__ s).1 = Return tt
  ∧ update_running s1 = false
  ∧ timeout_running s1 = false
  ∧ dts_calls (events_since s s1) =
      [transfer_run_patch_state (name s) RUNNING;
       transfer_run_log_messages (name s)
         (msgs s ++ [error_message (clock s) AssertionError]);
       transfer_run_patch_state (name s) FAILED;
       transfer_run_finish_run (name s)]
  ∧ (pubsub_callback body s).1 = Return tt
  ∧ dts_calls (events_since s2 (pubsub_callback body s).2) =
      [transfer_run_log_messages (name s2) (heartbeat_batch s2);
       transfer_run_finish_run (name s2)]
  ∧ last (trace (pubsub_callback body s).2) = Some EvAck.
Proof.
  intros Hc Hr Hok s1 Hb Hc2 Hok2.
  set (s0 := report_attempted rest s).
  assert (Hc0 : has_dts_client s0 = true) by (destruct s; exact Hc).
  assert (Hok0 : calls_return 3 s0 = true) by (destruct s; exact Hok).
  destruct (exit_with_client_returns (Some AssertionError) s0 Hc0 eq_refl Hok0)
    as (Hret & Hev & _).
  destruct (exit_stops_timers (Some AssertionError) s0) as (Ht & Hu & _).
  assert (Henter : __enter__ s = (Return tt, (__exit__ (Some AssertionError) s0).2)).
  { rewrite (enter_report_fails _ _ _ Hc Hr eq_refl). fold s0.
    destruct (__exit__ (Some AssertionError) s0) as [[b|e'] s'];
      cbn in Hret; [|discriminate]. by injection Hret as ->. }
  assert (Hs1 : s1 = (__exit__ (Some AssertionError) s0).2) by (subst s1; by rewrite Henter).
  split; [by rewrite Henter|]. rewrite Hs1.
  split; [exact Hu|]. split; [exact Ht|]. split.
  { rewrite (events_since_trans s s0).
    - rewrite dts_calls_app, Hev. subst s0. destruct s. cbn.
      unfold events_since. cbn. norm_trace. rewrite drop_app_length. reflexivity.
    - subst s0. destruct s. cbn. norm_trace. by apply prefix_app_r.
    - apply appends_exit. }
  rewrite Hs1 in Hb.
  rewrite pubsub_callback_unfold, (with_scope_unfold _ _ _ _ _ Henter Hb).
  cbn [exception_of].
  destruct s2 as [n c m ur tr ui ti ck rs t]. cbn in Hc2. subst c.
  unfold calls_return, heartbeat_batch in *. cbn in Hok2.
  destruct m; destruct rs as [|[e1|] [|[e2|] rs]]; try discriminate Hok2; cbn;
    (split; [reflexivity|]);
    (split; [unfold events_since; cbn; norm_trace; rewrite drop_app_length; reflexivity
            | by rewrite last_snoc]).
Qed.

Lemma X5_witness :
  let s := init "runs/r1" true 60 3600 0 [Some AssertionError] in
  let s1 := (__enter__ s).2 in
  (has_dts_client s = true ∧ responses s = [Some AssertionError]
   ∧ calls_return 3 (set_responses [] s) = true
   ∧ ret tt s1 = (Return tt, s1)
   ∧ has_dts_client s1 = true ∧ calls_return 2 s1 = true)
  ∧ (__enter__ s).1 = Return tt
  ∧ dts_calls (events_since s1 (pubsub_callback (ret tt) s).2) =
      [transfer_run_log_messages "runs/r1" (heartbeat_batch s1);
       transfer_run_finish_run "runs/r1"]
  ∧ last (trace (pubsub_callback (ret tt) s).2) = Some EvAck.
Proof.
  intros s s1.
  assert (Hc1 : has_dts_client s1 = true) by (vm_compute; reflexivity).
  assert (Hok1 : calls_return 2 s1 = true) by (vm_compute; reflexivity).
  assert (Hn1 : name s1 = "runs/r1") by (vm_compute; reflexivity).
  split; [repeat split; assumption|].
  pose proof (X5_suppressed_entry_failure_exits_twice [] (ret tt) s s1
                eq_refl eq_refl eq_refl eq_refl Hc1 Hok1) as H.
  destruct H as (H1 & _ & _ & _ & _ & H6 & H7).
  split; [exact H1|]. split; [|exact H7]. rewrite <- Hn1. exact H6.
Defined.











(* ===================================================================== *)
(** * Facts about options, triggers and the processing of a run *)
(* ===================================================================== *)

Import Connector.

Lemma process_args_cases {S} (o : opts) (s : S) :
  process_args o s =
    if implb (use_bq_dts o)
             (str_truthy (ps_subname o) && negb (str_truthy (transfer_run_yaml o)))
       && (Connector.update_interval o <=? transfer_run_timeout o)
    then (Return (negb (use_bq_dts o)), s)
    else (Raise AssertionError, s).
Proof.
  unfold process_args.
  destruct (str_truthy (transfer_run_yaml o)), (str_truthy (ps_subname o)),
    (use_bq_dts o), (Connector.update_interval o <=? transfer_run_timeout o);
    reflexivity.
Qed.

(** X10.  [process_args] either returns or raises [AssertionError], and
    changes nothing.  It returns exactly when [--update-interval] does not
    exceed [--transfer-run-timeout] and [--use-bq-dts], if given, comes
    with a non-empty [--ps-subname] and without a [--transfer-run-yaml];
    [_is_testing] is then the negation of [--use-bq-dts]. *)
Theorem X10_process_args_accepts {S} (o : opts) (s : S) :
  ((∃ t, process_args o s = (Return t, s))
   ∨ process_args o s = (Raise AssertionError, s))
  ∧ ∀ t, process_args o s = (Return t, s)
         ↔ (t = negb (use_bq_dts o)
            ∧ Connector.update_interval o ≤ transfer_run_timeout o
            ∧ (use_bq_dts o = true ->
               str_truthy (ps_subname o) = true
               ∧ str_truthy (transfer_run_yaml o) = false)).
Proof.
  rewrite process_args_cases.
  destruct (Z.leb_spec (Connector.update_interval o) (transfer_run_timeout o)) as [Hle|Hgt];
    destruct (str_truthy (transfer_run_yaml o)), (str_truthy (ps_subname o)),
      (use_bq_dts o); cbn; (split; [eauto|]); intros t; split;
    try (intros [= <-]; by auto);
    try discriminate;
    try (intros (-> & _ & _); reflexivity);
    try (intros (_ & ? & _); lia);
    try (intros (_ & _ & H); destruct (H eq_refl); discriminate).
Qed.

Lemma X10_witness :
  let o := mkOpts None (Some "bigquerydatatransfer.src.us.run") true 60 3600 in
  process_args o tt = (Return false, tt).
Proof.
  intros o. apply (X10_process_args_accepts o tt). split; [reflexivity|].
  split; [cbn; lia|]. intros _. split; reflexivity.
Defined.

(** X11.  What [run] starts.  With [--use-bq-dts], it starts the Pub/Sub
    trigger or raises [AssertionError] before starting anything.  Without
    a non-empty [--ps-subname], whatever it starts has no client for the
    tracking service: it raises [AssertionError] at once, or else the
    [dts_client] property is [None] and it starts the file trigger if a
    non-empty [--transfer-run-yaml] was given and raises
    [NotImplementedError] if not.  With both a subscription and a file, the
    file is ignored. *)
Theorem X11_run_starts_one_trigger {S} (o : opts)
    (trigger_via_pubsub trigger_via_file : M S unit) (s : S) :
  (use_bq_dts o = true ->
     run o trigger_via_pubsub trigger_via_file s = trigger_via_pubsub s
     ∨ run o trigger_via_pubsub trigger_via_file s = (Raise AssertionError, s))
  ∧ (str_truthy (ps_subname o) = false ->
     run o trigger_via_pubsub trigger_via_file s = (Raise AssertionError, s)
     ∨ (dts_client o = false
        ∧ run o trigger_via_pubsub trigger_via_file s =
            if str_truthy (transfer_run_yaml o) then trigger_via_file s
            else (Raise (OtherException "NotImplementedError"), s)))
  ∧ (str_truthy (ps_subname o) = true ->
     str_truthy (transfer_run_yaml o) = true ->
     run o trigger_via_pubsub trigger_via_file s =
       if negb (use_bq_dts o) && (Connector.update_interval o <=? transfer_run_timeout o)
       then trigger_via_pubsub s
       else (Raise AssertionError, s)).
Proof.
  unfold run, bind, dts_client. rewrite process_args_cases.
  destruct (str_truthy (transfer_run_yaml o)), (str_truthy (ps_subname o)),
    (use_bq_dts o), (Connector.update_interval o <=? transfer_run_timeout o);
    cbn; repeat split; intros; try discriminate; auto.
Qed.

Lemma X11_witness :
  let o := mkOpts (Some "run.yaml") None false 60 3600 in
  str_truthy (ps_subname o) = false
  ∧ dts_client o = false
  ∧ run o (raise TimeoutError) (ret tt) tt = (Return tt, tt).
Proof.
  intros o. split; [reflexivity|].
  destruct (X11_run_starts_one_trigger o (raise TimeoutError) (ret tt) tt) as (_ & H & _).
  destruct (H eq_refl) as [Hbad|[Hc Hrun]]; [discriminate Hbad|].
  split; [exact Hc | exact Hrun].
Defined.

(** The file trigger up to the start of the body. *)
Lemma trigger_via_file_unfold (o : opts) (current_run_name p : string)
    (body : M state unit) (s : state) :
  transfer_run_yaml o = Some p ->
  trigger_via_file o current_run_name body s
  = with_scope body
      (mkState current_run_name (dts_client o) [] false false
         (Connector.update_interval o) (transfer_run_timeout o) (clock s) (responses s)
         (trace s ++ [EvLogger INFO ("Triggering via file - " +:+ p)])).
Proof. intros Hy. unfold trigger_via_file. rewrite Hy. reflexivity. Qed.

Lemma file_trigger_enters (o : opts) (current_run_name p : string) (s : state) :
  use_bq_dts o = false ->
  (logger_log INFO ("Triggering via file - " +:+ p) ;;
   new_context o current_run_name ;;
   __enter__) s
  = __enter__
      (mkState current_run_name (dts_client o) [] false false
         (Connector.update_interval o) (transfer_run_timeout o) (clock s) (responses s)
         (trace s ++ [EvLogger INFO ("Triggering via file - " +:+ p)]))
  ∧ __enter__
      (mkState current_run_name (dts_client o) [] false false
         (Connector.update_interval o) (transfer_run_timeout o) (clock s) (responses s)
         (trace s ++ [EvLogger INFO ("Triggering via file - " +:+ p)]))
    = (Return tt,
       mkState current_run_name false [] true true
         (Connector.update_interval o) (transfer_run_timeout o) (clock s) (responses s)
         (trace s ++ [EvLogger INFO ("Triggering via file - " +:+ p);
                      EvLogger INFO ("[" +:+ current_run_name +:+ "] [STARTING]");
                      EvTimerStart timer_update_bq_dts;
                      EvTimerStart timer_timeout])).
Proof.
  intros Hu. split; [reflexivity|]. unfold dts_client. rewrite Hu.
  unfold __enter__, logger_log, timer_start. cbn.
  unfold ret, record_event. cbn. norm_trace. reflexivity.
Qed.

(** X12.  A run that [run] starts from a file (no subscription name, a
    transfer-run file, options accepted) has no client.  Outside the body
    nothing is sent to the tracking service and no message is acked or
    nacked.  If the body returns, or raises an [AssertionError], [run]
    returns normally; if the body raises anything else, [run] raises that
    same error.  In every case both timers end up stopped. *)
Theorem X12_file_triggered_run_is_local
    (o : opts) (current_run_name p : string)
    (trigger_via_pubsub body : M state unit) (r : result unit) (s s2 : state) :
  str_truthy (ps_subname o) = false ->
  transfer_run_yaml o = Some p ->
  str_truthy (Some p) = true ->
  Connector.update_interval o ≤ transfer_run_timeout o ->
  let started :=
    ((logger_log INFO ("Triggering via file - " +:+ p) ;;
      new_context o current_run_name ;;
      __enter__) s).2 in
  body started = (r, s2) ->
  has_dts_client s2 = false ->
  let out := run o trigger_via_pubsub (trigger_via_file o current_run_name body) s in
  if use_bq_dts o then out = (Raise AssertionError, s)
  else
    out.1 = match r with
            | Return _ => Return tt
            | Raise e => if isinstance_AssertionError e then Return tt else Raise e
            end
    ∧ has_dts_client started = false
    ∧ dts_calls (events_since s started) = []
    ∧ dts_calls (events_since s2 out.2) = []
    ∧ settlements (events_since s started ++ events_since s2 out.2) = []
    ∧ update_running out.2 = false
    ∧ timeout_running out.2 = false.
Proof.
  intros Hps Hy Hp Hle started Hb Hc2 out. subst out.
  unfold run, bind. rewrite process_args_cases, Hps, Hy, Hp.
  destruct (use_bq_dts o) eqn:Hu; cbn [implb andb negb]; [reflexivity|].
  apply Z.leb_le in Hle. rewrite Hle. cbn [andb].
  destruct (file_trigger_enters o current_run_name p s Hu) as [Hpre Henter].
  assert (Hs : started = _) by (subst started; rewrite Hpre, Henter; reflexivity).
  clearbody started. subst started.
  rewrite (trigger_via_file_unfold _ _ _ _ _ Hy).
  assert (Hh : from_option isinstance_HttpError false (exception_of r) = false
               ∨ ∃ st c, r = Raise (HttpError st c)).
  { destruct r as [|[]]; eauto. }
  rewrite (with_scope_unfold _ _ _ _ _ Henter Hb).
  destruct Hh as [Hh|(st & c & ->)].
  - rewrite (exit_without_client _ _ Hc2 Hh).
    destruct s as [n c m ur tr ui ti ck rs t], s2 as [n2 c2 m2 ur2 tr2 ui2 ti2 ck2 rs2 t2].
    destruct r as [[]|e]; cbn in Hh |- *.
    + repeat split; try reflexivity; unfold events_since; cbn;
        rewrite ?drop_app_length; try reflexivity;
        norm_trace; rewrite ?drop_app_length; reflexivity.
    + destruct e; try discriminate Hh; cbn;
        (repeat split; try reflexivity; unfold events_since; cbn;
         rewrite ?drop_app_length; try reflexivity;
         norm_trace; rewrite ?drop_app_length; reflexivity).
  - cbn [exception_of]. rewrite exit_HttpError.
    destruct s as [n c0 m ur tr ui ti ck rs t], s2 as [n2 c2 m2 ur2 tr2 ui2 ti2 ck2 rs2 t2].
    cbn. repeat split; try reflexivity; unfold events_since; cbn;
      rewrite ?drop_app_length; try reflexivity;
      norm_trace; rewrite ?drop_app_length; reflexivity.
Qed.

Lemma X12_witness :
  let o := mkOpts (Some "run.yaml") None false 60 3600 in
  let s := init "" false 60 3600 0 [] in
  (str_truthy (ps_subname o) = false
   ∧ transfer_run_yaml o = Some "run.yaml"
   ∧ Connector.update_interval o ≤ transfer_run_timeout o)
  ∧ (run o (ret tt) (trigger_via_file o "runs/r1" (raise AssertionError)) s).1 = Return tt
  ∧ update_running
      (run o (ret tt) (trigger_via_file o "runs/r1" (raise AssertionError)) s).2 = false.
Proof.
  intros o s.
  assert (Hle : Connector.update_interval o ≤ transfer_run_timeout o) by (cbn; lia).
  split; [split; [reflexivity|split; [reflexivity|exact Hle]]|].
  pose proof (X12_file_triggered_run_is_local o "runs/r1" "run.yaml" (ret tt)
                (raise AssertionError) (Raise AssertionError) s _
                eq_refl eq_refl eq_refl Hle eq_refl eq_refl) as H.
  cbv zeta in H. change (use_bq_dts o) with false in H. cbv iota in H.
  destruct H as (H1 & _ & _ & _ & _ & H6 & _).
  split; [exact H1 | exact H6].
Defined.

(** ** Processing one run *)

Lemma bind_Return {S A B} (m : M S A) (k : A -> M S B) (s s1 : S) (a : A) :
  m s = (Return a, s1) -> bind m k s = k a s1.
Proof. intros H. unfold bind. by rewrite H. Qed.

Lemma bind_Raise {S A B} (m : M S A) (k : A -> M S B) (s s1 : S) (e : exn) :
  m s = (Raise e, s1) -> bind m k s = (Raise e, s1).
Proof. intros H. unfold bind. by rewrite H. Qed.

Section ProcessTransferRun.

Context {V : Type}.
Variable o : opts.
Variable required : gset string.
Variable normalize_transfer_run : M state (gmap string (gmap string V)).
Variable stage_data_for_transfer_run :
  gmap string (gmap string V) -> M state (list TableContext.t).
Variables start_bigquery_jobs_via_dts_apis start_bigquery_jobs_via_bq_apis :
  list TableContext.t -> M state unit.

Local Abbreviation process :=
  (process_transfer_run o required normalize_transfer_run stage_data_for_transfer_run
     start_bigquery_jobs_via_dts_apis start_bigquery_jobs_via_bq_apis).

(** X13.  When the normalised run lacks one of the required parameters,
    [process_transfer_run] raises [AssertionError] right after the
    normalisation: the staging and both ways of starting load jobs are not
    reached, and nothing is logged.  A run without ['params'] raises
    [KeyError] at the same point.  With no required parameter (the base
    class), a run that has ['params'] always gets to the staging. *)
Theorem X13_invalid_params_stop_before_staging
    (transfer_run : gmap string (gmap string V)) (s s1 : state) :
  normalize_transfer_run s = (Return transfer_run, s1) ->
  match transfer_run !! "params" with
  | None => process s = (Raise (KeyError "params"), s1)
  | Some params =>
      (required ⊈ dom params -> process s = (Raise AssertionError, s1))
      ∧ (required ⊆ dom params ->
         ∃ rest,
           process s =
             (gcs_table_ctxs <- stage_data_for_transfer_run transfer_run ;;
              rest gcs_table_ctxs)
               (record_event (EvLogger INFO ("[" +:+ name s1 +:+ "] [STAGING]")) s1))
  end.
Proof.
  intros Hn. unfold process_transfer_run. rewrite (bind_Return _ _ _ _ _ Hn).
  destruct (transfer_run !! "params") as [params|] eqn:Hp; [|reflexivity].
  unfold validate_transfer_run_params. split; intros Hreq.
  - rewrite bool_decide_eq_false_2 by done. reflexivity.
  - rewrite bool_decide_eq_true_2 by done.
    erewrite bind_Return by reflexivity.
    rewrite (insert_id _ _ _ Hp). eexists. reflexivity.
Qed.

(** X14.  When the run is valid and the staging returns the tables
    [gcs_table_ctxs], [process_transfer_run] hands the staging the run as
    normalised; with no table it logs that there is nothing to load and
    returns without starting any load job; otherwise it logs and starts
    the load jobs in exactly one way, through the tracking service if
    [--use-bq-dts] was given, directly if not, and its outcome is the
    outcome of that. *)
Theorem X14_staged_tables_start_one_loader
    (transfer_run : gmap string (gmap string V)) (params : gmap string V)
    (gcs_table_ctxs : list TableContext.t) (s s1 s2 : state) :
  normalize_transfer_run s = (Return transfer_run, s1) ->
  transfer_run !! "params" = Some params ->
  required ⊆ dom params ->
  stage_data_for_transfer_run transfer_run
    (record_event (EvLogger INFO ("[" +:+ name s1 +:+ "] [STAGING]")) s1)
  = (Return gcs_table_ctxs, s2) ->
  process s =
    match gcs_table_ctxs with
    | [] =>
        (Return tt,
         record_event (EvLogger INFO ("[" +:+ name s1 +:+ "] [LOADING] Nothing to load")) s2)
    | _ :: _ =>
        (if use_bq_dts o then start_bigquery_jobs_via_dts_apis
         else start_bigquery_jobs_via_bq_apis)
          gcs_table_ctxs
          (record_event (EvLogger INFO ("[" +:+ name s1 +:+ "] [LOADING]")) s2)
    end.
Proof.
  intros Hn Hp Hreq Hstage. unfold process_transfer_run.
  rewrite (bind_Return _ _ _ _ _ Hn), Hp.
  unfold validate_transfer_run_params. rewrite bool_decide_eq_true_2 by done.
  erewrite bind_Return by reflexivity. rewrite (insert_id _ _ _ Hp).
  erewrite bind_Return by reflexivity.
  erewrite bind_Return by reflexivity.
  rewrite (bind_Return _ _ _ _ _ Hstage).
  destruct gcs_table_ctxs as [|c cs]; cbn [truthy negb]; [reflexivity|].
  erewrite bind_Return by reflexivity. by destruct (use_bq_dts o).
Qed.

End ProcessTransferRun.

Lemma X13_witness :
  let s := init "runs/r1" false 60 3600 0 [] in
  let transfer_run : gmap string (gmap string Z) := {["params" := {["customer" := 7]}]} in
  process_transfer_run (mkOpts None None false 60 3600) {["customer"; "region"]}
    (ret transfer_run) (fun _ => raise TimeoutError)
    (fun _ => raise TimeoutError) (fun _ => raise TimeoutError) s
  = (Raise AssertionError, s).
Proof.
  intros s transfer_run.
  pose proof (X13_invalid_params_stop_before_staging
                (mkOpts None None false 60 3600) {["customer"; "region"]}
                (ret transfer_run) (fun _ => raise TimeoutError)
                (fun _ => raise TimeoutError) (fun _ => raise TimeoutError)
                transfer_run s s eq_refl) as H.
  assert (Hp : transfer_run !! "params" = Some {["customer" := 7]})
    by (vm_compute; reflexivity).
  rewrite Hp in H. destruct H as [H _]. apply H.
  rewrite dom_singleton_L. intros Hsub.
  assert (Hin : "region" ∈ ({["customer"]} : gset string)) by (apply Hsub; set_solver).
  apply elem_of_singleton in Hin. discriminate Hin.
Defined.

Lemma X14_witness :
  let s := init "runs/r1" false 60 3600 0 [] in
  let transfer_run : gmap string (gmap string Z) := {["params" := ∅]} in
  process_transfer_run (mkOpts None None false 60 3600) ∅
    (ret transfer_run) (fun _ => ret [])
    (fun _ => raise TimeoutError) (fun _ => raise TimeoutError) s
  = (Return tt,
     record_event (EvLogger INFO "[runs/r1] [LOADING] Nothing to load")
       (record_event (EvLogger INFO "[runs/r1] [STAGING]") s)).
Proof.
  intros s transfer_run.
  assert (Hp : transfer_run !! "params" = Some ∅) by (vm_compute; reflexivity).
  exact (X14_staged_tables_start_one_loader
           (mkOpts None None false 60 3600) ∅
           (ret transfer_run) (fun _ => ret [])
           (fun _ => raise TimeoutError) (fun _ => raise TimeoutError)
           transfer_run ∅ [] s s _ eq_refl Hp (empty_subseteq _) eq_refl).
Defined.

(** ** Staging *)

Lemma allowed_locations (location_id location : string) :
  location ∈ default (∅ : gset string) (BQ_DTS_LOCATION_TO_GCS_LOCATION_MAP !! location_id)
  ↔ (location_id = "us" ∧ location = "us")
    ∨ (location_id = "europe" ∧ location = "eu")
    ∨ (location_id = "asia-northeast1" ∧ location = "asia-northeast1").
Proof.
  unfold BQ_DTS_LOCATION_TO_GCS_LOCATION_MAP.
  destruct (decide (location_id = "us")) as [->|H1].
  { rewrite lookup_insert_eq. cbn. rewrite elem_of_singleton. split; [auto|].
    intros [[_ ->]|[[? _]|[? _]]]; done. }
  rewrite lookup_insert_ne by done.
  destruct (decide (location_id = "europe")) as [->|H2].
  { rewrite lookup_insert_eq. cbn. rewrite elem_of_singleton. split; [auto|].
    intros [[? _]|[[_ ->]|[? _]]]; done. }
  rewrite lookup_insert_ne by done.
  destruct (decide (location_id = "asia-northeast1")) as [->|H3].
  { rewrite lookup_insert_eq. cbn. rewrite elem_of_singleton. split; [auto|].
    intros [[? _]|[[? _]|[_ ->]]]; done. }
  rewrite lookup_insert_ne by done. rewrite lookup_empty. cbn.
  split; [by intros ?%elem_of_empty|]. intros [[? _]|[[? _]|[? _]]]; done.
Qed.

Lemma upload_tables_keeps_tables (str : val -> string)
    (upload : val -> M state val) (local acc out : list t) (s s' : state) :
  upload_tables str upload local acc s = (Return out, s') ->
  ∃ new, out = acc ++ new
         ∧ Forall2 (fun c c' => imported_data_info c' = imported_data_info c
                                ∧ table_name c' = table_name c) local new.
Proof.
  revert acc s. induction local as [|c local IH]; intros acc s.
  - cbn. intros [= <- <-]. exists []. by rewrite app_nil_r.
  - cbn [upload_tables]. erewrite bind_Return by reflexivity.
    erewrite bind_Return by reflexivity.
    match goal with |- context [bind (upload (uris c)) _ ?s0] =>
      destruct (upload (uris c) s0) as [[gcs_uris|e] s1] eqn:Hup end.
    + rewrite (bind_Return _ _ _ _ _ Hup). intros Hrest.
      destruct (IH _ _ Hrest) as (new & -> & Hall).
      eexists (_ :: new). split; [by rewrite <- app_assoc|]. by constructor.
    + by rewrite (bind_Raise _ _ _ _ _ Hup).
Qed.

(** X15.  [stage_data_for_transfer_run] checks the location of the
    staging bucket after the tables have been staged locally and before
    anything is uploaded.  The check passes exactly for the three pairs of
    the table (run in [us] with a bucket in [us], [europe] with [eu],
    [asia-northeast1] with itself); for any other pair, and so for every
    run in another location, it raises [AssertionError] with the local
    staging done and no upload attempted.  When it returns, it returns one
    table per table staged locally, in the same order, each with the
    configuration and the name of the local one. *)
Theorem X15_staging_checks_location_before_upload
    (location_id local_prefix gcs_run_prefix location : string)
    (str : val -> string)
    (stage_tables_locally : M state (list t))
    (bucket_location : M state string)
    (upload : val -> M state val)
    (local_table_ctxs : list t) (s s1 s2 : state) :
  stage_tables_locally
    (record_event (EvLogger INFO ("[" +:+ name s +:+ "] Staging local => " +:+ local_prefix)) s)
  = (Return local_table_ctxs, s1) ->
  bucket_location s1 = (Return location, s2) ->
  let out := stage_data_for_transfer_run location_id local_prefix gcs_run_prefix str
               stage_tables_locally bucket_location upload s in
  let allowed := (location_id = "us" ∧ location = "us")
                 ∨ (location_id = "europe" ∧ location = "eu")
                 ∨ (location_id = "asia-northeast1" ∧ location = "asia-northeast1") in
  (¬ allowed -> out = (Raise AssertionError, s2))
  ∧ (allowed ->
     out = upload_tables str upload local_table_ctxs []
             (record_event
                (EvLogger INFO ("[" +:+ name s +:+ "] Staging GCS path => " +:+ gcs_run_prefix))
                s2))
  ∧ (∀ gcs_table_ctxs, out.1 = Return gcs_table_ctxs ->
       allowed
       ∧ Forall2 (fun c c' => imported_data_info c' = imported_data_info c
                              ∧ table_name c' = table_name c)
                 local_table_ctxs gcs_table_ctxs).
Proof.
  intros Hstage Hbucket out allowed.
  assert (Hout : out =
            if negb (bool_decide (location ∈ default (∅ : gset string)
                                    (BQ_DTS_LOCATION_TO_GCS_LOCATION_MAP !! location_id)))
            then (Raise AssertionError, s2)
            else upload_tables str upload local_table_ctxs []
                   (record_event
                      (EvLogger INFO
                         ("[" +:+ name s +:+ "] Staging GCS path => " +:+ gcs_run_prefix))
                      s2)).
  { subst out. unfold stage_data_for_transfer_run.
    erewrite bind_Return by reflexivity.
    erewrite bind_Return by reflexivity.
    rewrite (bind_Return _ _ _ _ _ Hstage), (bind_Return _ _ _ _ _ Hbucket).
    destruct (negb _); [reflexivity|].
    erewrite bind_Return by reflexivity. reflexivity. }
  clearbody out. subst out.
  pose proof (allowed_locations location_id location) as Hiff. fold allowed in Hiff.
  destruct (bool_decide_reflect
              (location ∈ default (∅ : gset string)
                 (BQ_DTS_LOCATION_TO_GCS_LOCATION_MAP !! location_id))) as [Hin|Hnin];
    cbn [negb].
  - split; [intros Hno; destruct Hno; by apply Hiff|]. split; [done|].
    intros ctxs Hret. split; [by apply Hiff|].
    destruct (upload_tables _ _ _ _ _) as [[out|e] s3] eqn:Hup; [|discriminate].
    cbn in Hret. injection Hret as ->.
    destruct (upload_tables_keeps_tables _ _ _ _ _ _ _ Hup) as (new & -> & Hall).
    exact Hall.
  - split; [done|]. split; [intros Hyes; destruct Hnin; by apply Hiff|].
    intros ctxs Hret. discriminate Hret.
Qed.

Lemma X15_witness :
  let s := init "runs/r1" false 60 3600 0 [] in
  let local := [TableContext.mk (VRef 0) (VStr "date_greg$20180101") (VRef 1)] in
  stage_data_for_transfer_run "asia-east1" "/tmp/src/cfg" "gs://bucket/src/cfg"
    (fun _ => "date_greg$20180101") (ret local) (ret "asia-east1") (fun v => ret v) s
  = (Raise AssertionError,
     record_event (EvLogger INFO "[runs/r1] Staging local => /tmp/src/cfg") s).
Proof.
  intros s local.
  pose proof (X15_staging_checks_location_before_upload
                "asia-east1" "/tmp/src/cfg" "gs://bucket/src/cfg" "asia-east1"
                (fun _ => "date_greg$20180101") (ret local) (ret "asia-east1")
                (fun v => ret v) local s _ _ eq_refl eq_refl) as H.
  cbv zeta in H. destruct H as [H _]. apply H.
  intros [[Hl _]|[[Hl _]|[Hl _]]]; discriminate Hl.
Defined.

(* ===================================================================== *)
(** * Facts about the loaders *)
(* ===================================================================== *)

Import Loading.

Local Open Scope nat_scope.

Lemma effects_since_app (w w' : world) (es : list load_event) :
  effects w' = effects w ++ es -> effects_since w w' = es.
Proof. unfold effects_since. intros ->. apply drop_app_length. Qed.

Lemma calls_app (es1 es2 : list load_event) : calls (es1 ++ es2) = calls es1 ++ calls es2.
Proof. apply List.filter_app. Qed.

Lemma converted_later (h h1 h' : list obj) (ctx : t) (v : val) :
  converted h h1 ctx v -> h1 `prefix_of` h' -> converted h h' ctx v.
Proof.
  intros (root & d & tl & td & rest & d0 & -> & ? & ? & ? & Hroot & ? & ? & ? & Htl & Htd & ?) Hpre.
  exists root, d, tl, td, rest, d0.
  repeat split; try done; by eapply prefix_lookup_Some.
Qed.

Lemma converted_earlier (h h1 h' : list obj) (ctx : t) (v : val) :
  converted h1 h' ctx v -> h `prefix_of` h1 -> converted h h' ctx v.
Proof.
  intros (root & d & tl & td & rest & d0 & -> & ? & ? & ? & ? & ? & ? & ? & ? & ? & ?) Hpre.
  apply prefix_length in Hpre.
  exists root, d, tl, td, rest, d0. repeat split; try done; lia.
Qed.

Lemma converted_bounds (h h' : list obj) (ctx : t) (v : val) :
  converted h h' ctx v -> ∃ l, v = VRef l ∧ length h ≤ l < length h'.
Proof.
  intros (root & d & tl & td & rest & d0 & -> & ? & ? & ? & Hroot & _).
  exists root. split; [done|]. split; [done|]. by eapply lookup_lt_Some.
Qed.

Lemma imported_data_cons (depth : nat) (run_name : string)
    (ctx : t) (ctxs : list t) (acc : list val) (w : world) :
  imported_data depth run_name (ctx :: ctxs) acc w =
    match to_ImportedDataInfo depth ctx (heap w) with
    | (Return v, h1) =>
        imported_data depth run_name ctxs (acc ++ [v])
          (mkWorld h1 (answers w) (effects w ++ [LogTable run_name (table_name ctx)]))
    | (Raise e, h1) =>
        (Raise e, mkWorld h1 (answers w) (effects w ++ [LogTable run_name (table_name ctx)]))
    end.
Proof.
  cbn [imported_data]. unfold bind, record, modify, on_objects. cbn.
  destruct (to_ImportedDataInfo depth ctx (heap w)) as [[v|e] h1]; reflexivity.
Qed.

(** The loop over the tables: it only adds objects and log lines, and
    when it returns it has added one conversion per table, all distinct. *)
Lemma imported_data_adds (depth : nat) (run_name : string)
    (ctxs : list t) (acc : list val) (w : world) :
  heap w `prefix_of` heap (imported_data depth run_name ctxs acc w).2
  ∧ answers (imported_data depth run_name ctxs acc w).2 = answers w
  ∧ (∃ logs, effects (imported_data depth run_name ctxs acc w).2 = effects w ++ logs
             ∧ calls logs = [])
  ∧ ∀ idis, (imported_data depth run_name ctxs acc w).1 = Return idis ->
      ∃ new, idis = acc ++ new
             ∧ Forall2 (converted (heap w)
                          (heap (imported_data depth run_name ctxs acc w).2)) ctxs new
             ∧ NoDup new.
Proof.
  revert acc w. induction ctxs as [|ctx ctxs IH]; intros acc w.
  - cbn. split; [done|]. split; [done|]. split; [exists []; by rewrite app_nil_r|].
    intros idis [= <-]. exists []. rewrite app_nil_r. repeat constructor.
  - rewrite imported_data_cons.
    destruct (to_ImportedDataInfo_frame_and_result depth ctx (heap w)) as [Hframe Hres].
    destruct (to_ImportedDataInfo depth ctx (heap w)) as [[v|e] h1] eqn:Hconv; cbn [fst snd] in *.
    + set (w1 := mkWorld h1 (answers w) (effects w ++ [LogTable run_name (table_name ctx)])).
      destruct (IH (acc ++ [v]) w1) as (Hpre & Hans & (logs & Hlogs & Hcalls) & Hret).
      split; [by etrans|]. split; [exact Hans|]. split.
      * exists (LogTable run_name (table_name ctx) :: logs). split; [|exact Hcalls].
        rewrite Hlogs. cbn. by rewrite <- app_assoc.
      * intros idis Hidis. destruct (Hret idis Hidis) as (new & -> & Hall & Hnd).
        exists (v :: new). split; [by rewrite <- app_assoc|].
        assert (Hv : converted (heap w) h1 ctx v) by (apply Hres; reflexivity).
        split.
        -- constructor; [by eapply converted_later|].
           eapply Forall2_impl; [exact Hall|]. intros c x Hx.
           by eapply converted_earlier.
        -- constructor; [|exact Hnd]. intros Hin.
           destruct (converted_bounds _ _ _ _ Hv) as (l & -> & _ & Hlt).
           apply list_elem_of_lookup_1 in Hin as [i Hi].
           destruct (Forall2_lookup_r _ _ _ _ _ Hall Hi) as (c & _ & Hc).
           destruct (converted_bounds _ _ _ _ Hc) as (l' & [= <-] & Hge & _).
           cbn in Hge. lia.
    + split; [exact Hframe|]. split; [reflexivity|]. split; [|discriminate].
      exists [LogTable run_name (table_name ctx)]. split; reflexivity.
Qed.

Lemma start_call_effects (run_name : string) (idis : list val) (w : world) :
  ∃ r a,
    (record (LogStarting run_name) ;;
     call (StartBigQueryJobs run_name idis) ;; ret tt) w
    = (r, mkWorld (heap w) a
            (effects w ++ [LogStarting run_name; StartBigQueryJobs run_name idis])).
Proof.
  destruct w as [h [|[e|j] a] es]; unfold bind, call, record, modify, bind; cbn;
    rewrite <- app_assoc; eauto.
Qed.

(** X16.  Starting the load jobs through the tracking service leaves
    every object that existed before as it was, whatever happens, and
    makes the call that starts the jobs at most once, as its last effect.
    The call is made only with a client and only after every table was
    converted: it then carries one conversion per table, in the order of
    the tables, each a new dict naming its table and holding its
    locations, and no two of them the same object, also when two tables
    share one configuration.  If a conversion raises, no call is made.
    When the loader returns, the call was made. *)
Theorem X16_tracked_load_is_all_or_nothing (depth : nat) (dts_client : bool)
    (run_name : string) (gcs_table_ctxs : list t) (w : world) :
  let out := start_bigquery_jobs_via_dts_apis depth dts_client run_name gcs_table_ctxs w in
  heap w `prefix_of` heap out.2
  ∧ (calls (effects_since w out.2) = []
     ∨ ∃ idis,
         calls (effects_since w out.2) = [StartBigQueryJobs run_name idis]
         ∧ last (effects out.2) = Some (StartBigQueryJobs run_name idis)
         ∧ dts_client = true
         ∧ Forall2 (converted (heap w) (heap out.2)) gcs_table_ctxs idis
         ∧ NoDup idis)
  ∧ (out.1 = Return tt -> calls (effects_since w out.2) ≠ []).
Proof.
  intros out.
  destruct (imported_data_adds depth run_name gcs_table_ctxs [] w)
    as (Hpre & Hans & (logs & Hlogs & Hcalls) & Hret).
  destruct (imported_data depth run_name gcs_table_ctxs [] w) as [[idis|e] w1] eqn:Hloop;
    cbn [fst snd] in *.
  - destruct (Hret idis eq_refl) as (new & -> & Hall & Hnd). cbn [app] in *.
    destruct dts_client.
    + destruct (start_call_effects run_name new w1) as (r & a & Hcall).
      assert (Hout : out = (r, mkWorld (heap w1) a
                (effects w1 ++ [LogStarting run_name; StartBigQueryJobs run_name new]))).
      { subst out. unfold start_bigquery_jobs_via_dts_apis.
        rewrite (bind_Return _ _ _ _ _ Hloop). exact Hcall. }
      rewrite Hout. cbn [fst snd heap effects].
      rewrite (effects_since_app w _
                 (logs ++ [LogStarting run_name; StartBigQueryJobs run_name new]))
        by (cbn; by rewrite Hlogs, <- app_assoc).
      rewrite calls_app, Hcalls. cbn.
      split; [exact Hpre|]. split; [|discriminate].
      right. exists new. split; [reflexivity|].
      split; [by rewrite (last_app _ [_; _])|]. by repeat split.
    + assert (Hout : out = (Raise AttributeError,
                mkWorld (heap w1) (answers w1) (effects w1 ++ [LogStarting run_name]))).
      { subst out. unfold start_bigquery_jobs_via_dts_apis.
        rewrite (bind_Return _ _ _ _ _ Hloop). reflexivity. }
      rewrite Hout. cbn [fst snd heap effects].
      split; [exact Hpre|]. split; [|discriminate]. left.
      rewrite (effects_since_app _ _ (logs ++ [LogStarting run_name]))
        by (cbn; by rewrite Hlogs, <- app_assoc).
      rewrite calls_app, Hcalls. reflexivity.
  - assert (Hout : out = (Raise e, w1)).
    { subst out. unfold start_bigquery_jobs_via_dts_apis.
      by rewrite (bind_Raise _ _ _ _ _ Hloop). }
    rewrite Hout. cbn [fst snd].
    split; [exact Hpre|]. split; [|discriminate]. left.
    rewrite (effects_since_app _ _ logs Hlogs). exact Hcalls.
Qed.

Lemma X16_witness :
  let idi := <["destination_table_id_template" := VStr "date_greg${run_yyyymmdd}"]>
               (<["table_defs" := VRef 1]> (∅ : gmap string val)) in
  let h := [ODict idi; OList [VRef 2]; ODict (<["format" := VStr "JSON"]> ∅);
            OList [VStr "gs://staging-bucket/date_greg.json"]] in
  let ctxs := [TableContext.mk (VRef 0) (VStr "date_greg$20180101") (VRef 3);
               TableContext.mk (VRef 0) (VStr "date_greg$20180102") (VRef 3)] in
  let w := mkWorld h [] [] in
  (start_bigquery_jobs_via_dts_apis 8 true "runs/r1" ctxs w).1 = Return tt
  ∧ calls (effects_since w (start_bigquery_jobs_via_dts_apis 8 true "runs/r1" ctxs w).2)
    ≠ [].
Proof.
  intros idi h ctxs w.
  assert (Hret : (start_bigquery_jobs_via_dts_apis 8 true "runs/r1" ctxs w).1 = Return tt)
    by (vm_compute; reflexivity).
  split; [exact Hret|].
  destruct (X16_tracked_load_is_all_or_nothing 8 true "runs/r1" ctxs w) as (_ & _ & H).
  exact (H Hret).
Defined.

(** ** Loading directly *)

Lemma contains_heap (key : string) (x : val) (h : list obj) :
  (contains key x h).2 = h.
Proof. destruct x as [| | | |l]; cbn; try done. by destruct (h !! l) as [[]|]. Qed.

Lemma load_tables_cons (dataset_id : val) (run_name : string)
    (ctx : t) (ctxs : list t) (w : world) :
  load_tables dataset_id run_name (ctx :: ctxs) w =
    match (contains "sql" (imported_data_info ctx) (heap w)).1 with
    | Raise e => (Raise e, w)
    | Return true => (Raise AssertionError, w)
    | Return false =>
        match answers w with
        | [] =>
            load_tables dataset_id run_name ctxs
              (mkWorld (heap w) []
                 (effects w ++ [load_of dataset_id ctx;
                                LogLoad run_name (table_name ctx) EmptyString]))
        | inr job_id :: rest =>
            load_tables dataset_id run_name ctxs
              (mkWorld (heap w) rest
                 (effects w ++ [load_of dataset_id ctx;
                                LogLoad run_name (table_name ctx) job_id]))
        | inl e :: rest =>
            (Raise e, mkWorld (heap w) rest (effects w ++ [load_of dataset_id ctx]))
        end
    end.
Proof.
  cbn [load_tables]. unfold bind at 1. unfold on_objects.
  pose proof (contains_heap "sql" (imported_data_info ctx) (heap w)) as Hh.
  destruct (contains "sql" (imported_data_info ctx) (heap w)) as [[[|]|e] h'];
    cbn in Hh; subst h'; destruct w as [h a es]; cbn [fst heap answers effects];
    try reflexivity.
  unfold bind, call, record, modify, bind, load_of. cbn.
  destruct a as [|[e|j] a]; cbn; rewrite <- ?app_assoc; reflexivity.
Qed.

(** The loop over the tables: the heap stays as it is, and the loads
    started are those of the first tables, in order. *)
Lemma load_tables_starts (dataset_id : val) (run_name : string)
    (ctxs : list t) (w : world) :
  heap (load_tables dataset_id run_name ctxs w).2 = heap w
  ∧ ∃ n es,
      effects (load_tables dataset_id run_name ctxs w).2 = effects w ++ es
      ∧ calls es = map (load_of dataset_id) (take n ctxs)
      ∧ ((load_tables dataset_id run_name ctxs w).1 = Return tt -> length ctxs ≤ n).
Proof.
  revert w. induction ctxs as [|ctx ctxs IH]; intros w.
  - cbn. split; [done|]. exists 0, []. by rewrite app_nil_r.
  - rewrite load_tables_cons.
    destruct (contains "sql" (imported_data_info ctx) (heap w)).1 as [[|]|e].
    + split; [done|]. exists 0, []. rewrite app_nil_r. by repeat split.
    + destruct (answers w) as [|[e|j] rest].
      * match goal with |- context [load_tables _ _ _ ?w'] =>
          destruct (IH w') as (Hh & n & es & Hes & Hc & Hret) end.
        split; [exact Hh|]. eexists (S n), (_ :: _ :: es).
        split; [rewrite Hes; cbn; by rewrite <- app_assoc|].
        split; [unfold calls in *; cbn; by rewrite Hc|]. intros Hr. cbn. specialize (Hret Hr). lia.
      * split; [done|]. exists 1, [load_of dataset_id ctx].
        split; [done|]. split; [cbn; by rewrite take_0|]. discriminate.
      * match goal with |- context [load_tables _ _ _ ?w'] =>
          destruct (IH w') as (Hh & n & es & Hes & Hc & Hret) end.
        split; [exact Hh|]. eexists (S n), (_ :: _ :: es).
        split; [rewrite Hes; cbn; by rewrite <- app_assoc|].
        split; [unfold calls in *; cbn; by rewrite Hc|]. intros Hr. cbn. specialize (Hret Hr). lia.
    + split; [done|]. exists 0, []. rewrite app_nil_r. by repeat split.
Qed.

(** X17.  Starting the load jobs directly never changes the heap: each
    table's configuration is handed over as the object it is, not as a
    copy.  Without a ['destination_dataset_id'] in the run it raises
    [KeyError] and does nothing.  Otherwise the loads it starts are those
    of the first tables, one each and in the order of the tables, with the
    run's dataset; when it returns, a load was started for every table. *)
Theorem X17_direct_load_starts_tables_in_order (transfer_run : gmap string val)
    (run_name : string) (gcs_table_ctxs : list t) (w : world) :
  let out := start_bigquery_jobs_via_bq_apis transfer_run run_name gcs_table_ctxs w in
  heap out.2 = heap w
  ∧ match transfer_run !! "destination_dataset_id" with
    | None => out = (Raise (KeyError "destination_dataset_id"), w)
    | Some dataset_id =>
        calls (effects_since w out.2) `prefix_of` map (load_of dataset_id) gcs_table_ctxs
        ∧ (out.1 = Return tt ->
           calls (effects_since w out.2) = map (load_of dataset_id) gcs_table_ctxs)
    end.
Proof.
  intros out. subst out. unfold start_bigquery_jobs_via_bq_apis.
  destruct (transfer_run !! "destination_dataset_id") as [dataset_id|]; [|done].
  destruct (load_tables_starts dataset_id run_name gcs_table_ctxs w)
    as (Hh & n & es & Hes & Hc & Hret).
  split; [exact Hh|]. rewrite (effects_since_app _ _ _ Hes), Hc. split.
  - rewrite <- (take_drop n gcs_table_ctxs) at 2. rewrite map_app. by apply prefix_app_r.
  - intros Hr. by rewrite take_ge by auto.
Qed.

Lemma X17_witness :
  let h := [ODict (<["table_defs" := VRef 1]> ∅); OList []] in
  let ctxs := [TableContext.mk (VRef 0) (VStr "date_greg$20180101") (VRef 1)] in
  let w := mkWorld h [inr "job_1"] [] in
  let out := start_bigquery_jobs_via_bq_apis
               {["destination_dataset_id" := VStr "warehouse"]} "runs/r1" ctxs w in
  out.1 = Return tt
  ∧ calls (effects_since w out.2)
    = [LoadTable (VStr "warehouse") (VStr "date_greg$20180101") (VRef 0) (VRef 1)].
Proof.
  intros h ctxs w out.
  assert (Hret : out.1 = Return tt) by (vm_compute; reflexivity).
  split; [exact Hret|].
  pose proof (X17_direct_load_starts_tables_in_order
                {["destination_dataset_id" := VStr "warehouse"]} "runs/r1" ctxs w) as H.
  cbv zeta in H. destruct H as [_ H].
  assert (Hd : ({["destination_dataset_id" := VStr "warehouse"]} : gmap string val)
                 !! "destination_dataset_id" = Some (VStr "warehouse"))
    by (vm_compute; reflexivity).
  rewrite Hd in H. destruct H as [_ H]. exact (H Hret).
Defined.

(** X18.  A table whose configuration contains ['sql'] stops the direct
    loader with an [AssertionError], but only when its turn comes: the
    loads of the tables before it have been started by then (when their
    calls return) and stay started, and no load is started for it or for
    the tables after it. *)
Theorem X18_direct_load_stops_at_sql (transfer_run : gmap string val)
    (dataset_id : val) (run_name : string)
    (before after : list t) (ctx : t) (w : world) :
  transfer_run !! "destination_dataset_id" = Some dataset_id ->
  Forall (fun c => (contains "sql" (imported_data_info c) (heap w)).1 = Return false)
         before ->
  (contains "sql" (imported_data_info ctx) (heap w)).1 = Return true ->
  Forall (fun a => ∃ job_id : string, a = inr job_id) (take (length before) (answers w)) ->
  let out := start_bigquery_jobs_via_bq_apis transfer_run run_name
               (before ++ ctx :: after) w in
  out.1 = Raise AssertionError
  ∧ calls (effects_since w out.2) = map (load_of dataset_id) before
  ∧ length (calls (effects_since w out.2)) < length (before ++ ctx :: after).
Proof.
  intros Hd Hbefore Hsql Hans out. subst out.
  unfold start_bigquery_jobs_via_bq_apis. rewrite Hd.
  assert (H : ∃ es,
            (load_tables dataset_id run_name (before ++ ctx :: after) w).1
            = Raise AssertionError
            ∧ effects (load_tables dataset_id run_name (before ++ ctx :: after) w).2
              = effects w ++ es
            ∧ calls es = map (load_of dataset_id) before).
  { clear Hd. revert w Hbefore Hsql Hans.
    induction before as [|c before IH]; intros w Hbefore Hsql Hans.
    - cbn [app]. rewrite load_tables_cons, Hsql. exists []. by rewrite app_nil_r.
    - cbn [app]. rewrite load_tables_cons.
      inversion Hbefore as [|? ? Hc Hrest]; subst. rewrite Hc.
      destruct (answers w) as [|[e|j] rest] eqn:Ha.
      + match goal with |- context [load_tables _ _ _ ?w'] =>
          destruct (IH w') as (es & Hr & Hes & Hcs) end; try done.
        { cbn. by rewrite take_nil. }
        eexists (_ :: _ :: es). split; [exact Hr|].
        split; [rewrite Hes; cbn; by rewrite <- app_assoc|]. unfold calls in *. cbn. by rewrite Hcs.
      + cbn in Hans. inversion Hans as [|? ? [j Hj] _]. discriminate Hj.
      + match goal with |- context [load_tables _ _ _ ?w'] =>
          destruct (IH w') as (es & Hr & Hes & Hcs) end; try done.
        { cbn in Hans |- *. by inversion Hans. }
        eexists (_ :: _ :: es). split; [exact Hr|].
        split; [rewrite Hes; cbn; by rewrite <- app_assoc|]. unfold calls in *. cbn. by rewrite Hcs. }
  destruct H as (es & Hr & Hes & Hcs).
  split; [exact Hr|]. rewrite (effects_since_app _ _ _ Hes), Hcs.
  split; [reflexivity|]. rewrite length_map, length_app. cbn. lia.
Qed.

Lemma X18_witness :
  let h := [ODict (<["table_defs" := VRef 1]> ∅); OList [];
            ODict (<["sql" := VStr "SELECT 1"]> ∅)] in
  let first := TableContext.mk (VRef 0) (VStr "date_greg$20180101") (VRef 1) in
  let second := TableContext.mk (VRef 2) (VStr "totals$20180101") (VRef 1) in
  let w := mkWorld h [] [] in
  let out := start_bigquery_jobs_via_bq_apis
               {["destination_dataset_id" := VStr "warehouse"]} "runs/r1"
               ([first] ++ second :: []) w in
  out.1 = Raise AssertionError
  ∧ calls (effects_since w out.2) = map (load_of (VStr "warehouse")) [first].
Proof.
  intros h first second w out.
  assert (Hd : ({["destination_dataset_id" := VStr "warehouse"]} : gmap string val)
                 !! "destination_dataset_id" = Some (VStr "warehouse"))
    by (vm_compute; reflexivity).
  assert (H1 : (contains "sql" (imported_data_info first) (heap w)).1 = Return false)
    by (vm_compute; reflexivity).
  assert (H2 : (contains "sql" (imported_data_info second) (heap w)).1 = Return true)
    by (vm_compute; reflexivity).
  destruct (X18_direct_load_stops_at_sql _ (VStr "warehouse") "runs/r1"
              [first] [] second w Hd (Forall_cons_2 _ _ _ H1 (Forall_nil_2 _)) H2
              (Forall_nil_2 _)) as (Hr & Hc & _).
  split; [exact Hr | exact Hc].
Defined.

(* ===================================================================== *)
(** * Facts about copies, table names and the decorator *)
(* ===================================================================== *)

Import TableStaging.

Lemma carried_image (h0 h1 : list obj) (memo : gmap loc loc) (v v' : option val) :
  in_progress h0 [] (h1, memo) ->
  option_Forall2 (image memo) v v' -> carried (length h0) v v'.
Proof.
  intros Hinv [a a' Himg|]; [|done].
  destruct a as [| | | |l]; cbn in *; try by subst.
  destruct Himg as (y & Hy & ->).
  destruct (in_progress_copy _ _ _ _ _ Hinv Hy) as (_ & _ & _ & Hge & _).
  by exists y.
Qed.

(** The deep copy of a dict: a new dict with the entries of the
    original. *)
Lemma deepcopy_dict_returns (depth : nat) (h : list obj) (l : loc) (d : gmap string val) :
  closed_heap h -> length h < depth -> h !! l = Some (ODict d) ->
  ∃ y d' h1,
    deepcopy depth (VRef l) h = (Return (VRef y), h1)
    ∧ h `prefix_of` h1
    ∧ length h ≤ y
    ∧ h1 !! y = Some (ODict d')
    ∧ ∀ k, carried (length h) (d !! k) (d' !! k).
Proof.
  intros Hclosed Hdepth Hl.
  destruct (deepcopy_returns h Hclosed depth (VRef l)) as (v & h1 & memo & Hcopy & Hinv & Himg);
    [by eapply lookup_lt_Some | done |].
  apply image_ref_inv in Himg as (y & Hm & ->).
  destruct (in_progress_copy _ _ _ _ _ Hinv Hm) as (o & o' & Ho & Hge & Hy & Hc).
  rewrite Hl in Ho. injection Ho as <-. destruct o' as [d'|]; [|done]. cbn in Hc.
  exists y, d', h1. split; [exact Hcopy|]. split; [by destruct Hinv|].
  split; [exact Hge|]. split; [exact Hy|].
  intros k. eapply carried_image; [exact Hinv | apply Hc].
Qed.

(** X19.  On a well-formed heap, with more nested calls allowed than
    there are objects, the dict [to_ImportedDataInfo] returns has the
    other entries of the configuration: for every key but the name
    template and the table name, an absent entry stays absent, an atomic
    value is kept, and a dict or list is replaced by a new object.  Its
    list of table definitions has as many elements as the
    configuration's, and the first of them keeps, in the same sense, every
    entry of the first definition but its locations.  (If the first table
    definition is the configuration itself, the keys written to the one
    are not carried over to the other.) *)
Theorem X19_conversion_carries_other_entries
    (depth : nat) (self : t) (h : list obj)
    (l0 l1 l2 : loc) (d d2 : gmap string val) (rest : list val) :
  closed_heap h -> length h < depth ->
  imported_data_info self = VRef l0 ->
  h !! l0 = Some (ODict d) ->
  d !! "table_defs" = Some (VRef l1) ->
  h !! l1 = Some (OList (VRef l2 :: rest)) ->
  h !! l2 = Some (ODict d2) ->
  ∃ root dr tl td vs dtd,
    (to_ImportedDataInfo depth self h).1 = Return (VRef root)
    ∧ (to_ImportedDataInfo depth self h).2 !! root = Some (ODict dr)
    ∧ (∀ k, k ≠ "destination_table_id_template" -> k ≠ "destination_table_id" ->
            (l2 = l0 -> k ≠ "source_uris") ->
            carried (length h) (d !! k) (dr !! k))
    ∧ dr !! "table_defs" = Some (VRef tl)
    ∧ (to_ImportedDataInfo depth self h).2 !! tl = Some (OList (VRef td :: vs))
    ∧ length vs = length rest
    ∧ (to_ImportedDataInfo depth self h).2 !! td = Some (ODict dtd)
    ∧ (∀ k, k ≠ "source_uris" ->
            (l2 = l0 -> k ≠ "destination_table_id_template"
                        ∧ k ≠ "destination_table_id") ->
            carried (length h) (d2 !! k) (dtd !! k)).
Proof.
  intros Hclosed Hdepth Hidi Hl0 Hdefs Hl1 Hl2.
  destruct (deepcopy_returns h Hclosed depth (VRef l0)) as (v & h1 & memo & Hcopy & Hinv & Himg);
    [by eapply lookup_lt_Some | done |].
  (* the copy of the top-level dict *)
  apply image_ref_inv in Himg as (y0 & Hm0 & ->).
  destruct (in_progress_copy _ _ _ _ _ Hinv Hm0) as (o & o' & Ho & _ & Hy0 & Hc0).
  rewrite Hl0 in Ho. injection Ho as <-. destruct o' as [d'|]; [|done]. cbn in Hc0.
  (* the copy of the list of table definitions *)
  pose proof (Hc0 "table_defs") as Hk. rewrite Hdefs in Hk.
  inversion Hk as [? v1 Himg1 Heq1 Hd'|]; subst. symmetry in Hd'.
  apply image_ref_inv in Himg1 as (y1 & Hm1 & ->).
  destruct (in_progress_copy _ _ _ _ _ Hinv Hm1) as (o & o' & Ho & _ & Hy1 & Hc1).
  rewrite Hl1 in Ho. injection Ho as <-. destruct o' as [|vs']; [done|]. cbn in Hc1.
  (* the copy of the first table definition *)
  inversion Hc1 as [|? v2 ? rest' Himg2 Hrest]; subst.
  apply image_ref_inv in Himg2 as (y2 & Hm2 & ->).
  destruct (in_progress_copy _ _ _ _ _ Hinv Hm2) as (o & o' & Ho & _ & Hy2 & Hc2).
  rewrite Hl2 in Ho. injection Ho as <-. destruct o' as [d2'|]; [|done]. cbn in Hc2.
  assert (Hlen : length rest' = length rest) by (symmetry; by eapply Forall2_length).
  (* the four statements after the copy *)
  assert (Hlt0 : y0 < length h1) by (by eapply lookup_lt_Some).
  assert (Hne : y0 ≠ y1) by (intros ->; congruence).
  unfold to_ImportedDataInfo, bind. rewrite Hidi, Hcopy.
  rewrite (pop_dict _ _ _ _ Hy0).
  set (h2 := <[y0 := ODict (delete "destination_table_id_template" d')]> h1).
  assert (Hy0_2 : h2 !! y0 = Some (ODict (delete "destination_table_id_template" d')))
    by (by apply list_lookup_insert_eq).
  rewrite (setitem_dict _ _ _ _ _ Hy0_2).
  set (d3 := <["destination_table_id" := table_name self]>
               (delete "destination_table_id_template" d')).
  set (h3 := <[y0 := ODict d3]> h2).
  assert (Hlen3 : length h3 = length h1) by (subst h3 h2; by rewrite !length_insert).
  assert (Hy0_3 : h3 !! y0 = Some (ODict d3)).
  { apply list_lookup_insert_eq. subst h2. by rewrite length_insert. }
  assert (Hd3 : d3 !! "table_defs" = Some (VRef y1)).
  { subst d3. by rewrite lookup_insert_ne, lookup_delete_ne. }
  rewrite (getitem_dict _ _ _ _ _ Hy0_3 Hd3).
  assert (Hy1_3 : h3 !! y1 = Some (OList (VRef y2 :: rest'))).
  { subst h3 h2. by rewrite !list_lookup_insert_ne. }
  rewrite (getitem_0_list _ _ _ _ Hy1_3).
  assert (Hd3_k : ∀ k, k ≠ "destination_table_id_template" -> k ≠ "destination_table_id" ->
                       carried (length h) (d !! k) (d3 !! k)).
  { intros k Hk1 Hk2. subst d3. rewrite lookup_insert_ne, lookup_delete_ne by done.
    eapply carried_image; [exact Hinv | apply Hc0]. }
  destruct (decide (y2 = y0)) as [->|Hne2].
  - (* the first table definition is the configuration itself *)
    assert (Hsame : l2 = l0) by (destruct Hinv as (_ & _ & Hinj); by eapply Hinj).
    rewrite Hy0 in Hy2. injection Hy2 as <-.
    rewrite (setitem_dict _ _ _ _ _ Hy0_3). unfold ret. cbn [fst snd].
    exists y0, (<["source_uris" := uris self]> d3), y1, y0, rest',
           (<["source_uris" := uris self]> d3).
    split; [reflexivity|].
    split; [apply list_lookup_insert_eq; by rewrite Hlen3|].
    split; [intros k Hk1 Hk2 Hk3; rewrite lookup_insert_ne by (by apply not_eq_sym, Hk3);
            by apply Hd3_k|].
    split; [by rewrite lookup_insert_ne|].
    split; [by rewrite list_lookup_insert_ne|].
    split; [exact Hlen|].
    split; [apply list_lookup_insert_eq; by rewrite Hlen3|].
    intros k Hk1 Hk2. destruct (Hk2 Hsame) as [Hk3 Hk4].
    rewrite lookup_insert_ne by (by apply not_eq_sym).
    subst l2. rewrite Hl0 in Hl2. injection Hl2 as <-. by apply Hd3_k.
  - assert (Hy2_3 : h3 !! y2 = Some (ODict d2')).
    { subst h3 h2. by rewrite !list_lookup_insert_ne. }
    assert (Hne12 : y1 ≠ y2) by (intros ->; congruence).
    rewrite (setitem_dict _ _ _ _ _ Hy2_3). unfold ret. cbn [fst snd].
    exists y0, d3, y1, y2, rest', (<["source_uris" := uris self]> d2').
    split; [reflexivity|].
    split; [by rewrite list_lookup_insert_ne|].
    split; [intros k Hk1 Hk2 _; by apply Hd3_k|].
    split; [exact Hd3|].
    split; [by rewrite list_lookup_insert_ne|].
    split; [exact Hlen|].
    split; [apply list_lookup_insert_eq; rewrite Hlen3; by eapply lookup_lt_Some|].
    intros k Hk1 _. rewrite lookup_insert_ne by (by apply not_eq_sym).
    eapply carried_image; [exact Hinv | apply Hc2].
Qed.

Lemma X19_witness :
  let idi := <["destination_table_id_template" := VStr "date_greg${run_yyyymmdd}"]>
               (<["table_defs" := VRef 1]>
                  (<["write_disposition" := VStr "WRITE_TRUNCATE"]>
                     (∅ : gmap string val))) in
  let table_def := <["format" := VStr "JSON"]> (∅ : gmap string val) in
  let h := [ODict idi; OList [VRef 2]; ODict table_def;
            OList [VStr "gs://staging-bucket/date_greg.json"]] in
  let self := mk (VRef 0) (VStr "date_greg$20180101") (VRef 3) in
  (closed_heap h ∧ length h < 8)
  ∧ ∃ root dr,
      (to_ImportedDataInfo 8 self h).1 = Return (VRef root)
      ∧ (to_ImportedDataInfo 8 self h).2 !! root = Some (ODict dr)
      ∧ dr !! "write_disposition" = Some (VStr "WRITE_TRUNCATE").
Proof.
  intros idi table_def h self.
  assert (Hclosed : closed_heap h).
  { unfold closed_heap. repeat apply Forall_cons_2; try apply Forall_nil_2; cbn.
    - subst idi. apply map_Forall_insert_2; [exact I|].
      apply map_Forall_insert_2; [cbn; lia|].
      apply map_Forall_insert_2; [exact I|]. apply map_Forall_empty.
    - lia.
    - subst table_def. apply map_Forall_insert_2; [exact I|]. apply map_Forall_empty.
    - exact I. }
  assert (Hdepth : length h < 8) by (cbn; lia).
  split; [by split|].
  assert (Hdefs0 : idi !! "table_defs" = Some (VRef 1)) by (vm_compute; reflexivity).
  assert (Hwd : idi !! "write_disposition" = Some (VStr "WRITE_TRUNCATE"))
    by (vm_compute; reflexivity).
  destruct (X19_conversion_carries_other_entries 8 self h 0 1 2 idi table_def []
              Hclosed Hdepth eq_refl eq_refl Hdefs0 eq_refl eq_refl)
    as (root & dr & tl & td & vs & dtd & Hret & Hroot & Hkeep & _).
  exists root, dr. split; [exact Hret|]. split; [exact Hroot|].
  pose proof (Hkeep "write_disposition") as Hk. rewrite Hwd in Hk.
  apply Hk; [discriminate | discriminate | intros Heq; discriminate Heq].
Defined.

(** ** Table names *)

Lemma keywords_dict l d (h : list obj) :
  h !! l = Some (ODict d) -> keywords (VRef l) h = (Return d, h).
Proof. intros Hl. unfold keywords. by rewrite Hl. Qed.

(** X20.  On a well-formed heap, for a run that has a ['run_time'], a
    ['user_id'] and a dict of ['params'], [templatize_table_name] formats
    the template with these keyword arguments: ['run_time'] is the run's
    time, ['run_yyyymmmdd'] (spelled so) its date, ['user_id'] the run's
    user, each taking precedence over a parameter of the same name; every
    other keyword is a parameter of the run, and every other parameter is
    passed, atomic values as they are and dicts or lists as new copies.
    So a keyword ['run_yyyymmdd'] is passed only if the run has a
    parameter of that name.  The outcome is the outcome of the
    formatting, and no object that existed before is changed. *)
Theorem X20_table_name_keywords
    (depth : nat) (strftime : val -> result val)
    (format : val -> gmap string val -> result val)
    (table_template transfer_run : val) (h : list obj)
    (lr lp : loc) (r p : gmap string val) (run_time user_id ymd : val) :
  closed_heap h -> length h < depth ->
  transfer_run = VRef lr ->
  h !! lr = Some (ODict r) ->
  r !! "run_time" = Some run_time ->
  r !! "params" = Some (VRef lp) ->
  h !! lp = Some (ODict p) ->
  r !! "user_id" = Some user_id ->
  strftime run_time = Return ymd ->
  ∃ kwargs h1,
    templatize_table_name depth strftime format table_template transfer_run h
    = (format table_template kwargs, h1)
    ∧ h `prefix_of` h1
    ∧ kwargs !! "run_time" = Some run_time
    ∧ kwargs !! "run_yyyymmmdd" = Some ymd
    ∧ kwargs !! "user_id" = Some user_id
    ∧ (∀ k, k ≠ "run_time" -> k ≠ "run_yyyymmmdd" -> k ≠ "user_id" ->
            carried (length h) (p !! k) (kwargs !! k))
    ∧ (kwargs !! "run_yyyymmdd" = None ↔ p !! "run_yyyymmdd" = None).
Proof.
  intros Hclosed Hdepth -> Hlr Hrt Hparams Hlp Huid Hymd.
  destruct (deepcopy_dict_returns depth h lp p Hclosed Hdepth Hlp)
    as (y & d' & h1 & Hcopy & Hpre & Hge & Hy & Hcarried).
  assert (Hlr1 : h1 !! lr = Some (ODict r)) by (by eapply prefix_lookup_Some).
  assert (Hlt : y < length h1) by (by eapply lookup_lt_Some).
  assert (Hney : lr ≠ y) by (apply lookup_lt_Some in Hlr; lia).
  set (d1 := <["run_time" := run_time]> d').
  set (d2 := <["run_yyyymmmdd" := ymd]> d1).
  set (d3 := <["user_id" := user_id]> d2).
  set (h2 := <[y := ODict d1]> h1).
  set (h3 := <[y := ODict d2]> h2).
  set (h4 := <[y := ODict d3]> h3).
  assert (Hy2 : h2 !! y = Some (ODict d1)) by (by apply list_lookup_insert_eq).
  assert (Hy3 : h3 !! y = Some (ODict d2))
    by (apply list_lookup_insert_eq; subst h2; by rewrite length_insert).
  assert (Hy4 : h4 !! y = Some (ODict d3))
    by (apply list_lookup_insert_eq; subst h3 h2; by rewrite !length_insert).
  assert (Hlr3 : h3 !! lr = Some (ODict r))
    by (subst h3 h2; by rewrite !list_lookup_insert_ne by done).
  exists d3, h4. split.
  { unfold templatize_table_name.
    rewrite (bind_Return _ _ _ _ _ (getitem_dict _ _ _ _ _ Hlr Hrt)).
    rewrite (bind_Return _ _ _ _ _ (getitem_dict _ _ _ _ _ Hlr Hparams)).
    rewrite (bind_Return _ _ _ _ _ Hcopy).
    rewrite (bind_Return _ _ _ _ _ (setitem_dict _ _ _ _ _ Hy)). fold d1 h2.
    erewrite bind_Return by (rewrite Hymd; reflexivity).
    rewrite (bind_Return _ _ _ _ _ (setitem_dict _ _ _ _ _ Hy2)). fold d2 h3.
    rewrite (bind_Return _ _ _ _ _ (getitem_dict _ _ _ _ _ Hlr3 Huid)).
    rewrite (bind_Return _ _ _ _ _ (setitem_dict _ _ _ _ _ Hy3)). fold d3 h4.
    rewrite (bind_Return _ _ _ _ _ (keywords_dict _ _ _ Hy4)). reflexivity. }
  split; [subst h4 h3 h2; by repeat apply prefix_insert_fresh|].
  assert (Hother : ∀ k, k ≠ "run_time" -> k ≠ "run_yyyymmmdd" -> k ≠ "user_id" ->
                        d3 !! k = d' !! k).
  { intros k H1 H2 H3. subst d3 d2 d1. by rewrite !lookup_insert_ne by done. }
  split; [subst d3 d2 d1; rewrite !lookup_insert_ne by done; by rewrite lookup_insert_eq|].
  split; [subst d3 d2; rewrite lookup_insert_ne by done; by rewrite lookup_insert_eq|].
  split; [subst d3; by rewrite lookup_insert_eq|].
  split; [intros k H1 H2 H3; rewrite (Hother k H1 H2 H3); apply Hcarried|].
  rewrite Hother by done. specialize (Hcarried "run_yyyymmdd").
  destruct (p !! "run_yyyymmdd") as [[| | | |l]|]; cbn in Hcarried;
    try (rewrite Hcarried; done).
  destruct Hcarried as (y' & -> & _). done.
Qed.

Lemma X20_witness :
  let run := <["run_time" := VStr "2018-01-01T00:00:00Z"]>
               (<["user_id" := VInt 42]>
                  (<["params" := VRef 1]> (∅ : gmap string val))) in
  let params := <["user_id" := VStr "someone"]> (∅ : gmap string val) in
  let h := [ODict run; ODict params] in
  let strftime := fun _ : val => Return (VStr "20180101") in
  let format := fun (_ : val) (kwargs : gmap string val) =>
                  match kwargs !! "run_yyyymmdd" with
                  | Some v => Return v
                  | None => Raise (KeyError "run_yyyymmdd")
                  end in
  (closed_heap h ∧ length h < 8)
  ∧ (templatize_table_name 8 strftime format (VStr "date_greg${run_yyyymmdd}") (VRef 0) h).1
    = Raise (KeyError "run_yyyymmdd").
Proof.
  intros run params h strftime format.
  assert (Hclosed : closed_heap h).
  { unfold closed_heap. repeat apply Forall_cons_2; try apply Forall_nil_2; cbn.
    - subst run. apply map_Forall_insert_2; [exact I|].
      apply map_Forall_insert_2; [exact I|].
      apply map_Forall_insert_2; [cbn; lia|]. apply map_Forall_empty.
    - subst params. apply map_Forall_insert_2; [exact I|]. apply map_Forall_empty. }
  assert (Hdepth : length h < 8) by (cbn; lia).
  split; [by split|].
  assert (H1 : run !! "run_time" = Some (VStr "2018-01-01T00:00:00Z"))
    by (vm_compute; reflexivity).
  assert (H2 : run !! "params" = Some (VRef 1)) by (vm_compute; reflexivity).
  assert (H3 : run !! "user_id" = Some (VInt 42)) by (vm_compute; reflexivity).
  assert (H4 : params !! "run_yyyymmdd" = None) by (vm_compute; reflexivity).
  destruct (X20_table_name_keywords 8 strftime format (VStr "date_greg${run_yyyymmdd}")
              (VRef 0) h 0 1 run params _ _ (VStr "20180101")
              Hclosed Hdepth eq_refl eq_refl H1 H2 eq_refl H3 eq_refl)
    as (kwargs & h1 & Hrun & _ & _ & _ & _ & _ & Hmiss).
  rewrite Hrun. cbn [fst]. subst format. cbn beta.
  apply Hmiss in H4. rewrite H4. reflexivity.
Defined.

(** ** The decorator *)

(** X21.  A staging method wrapped by [table_stager] looks up its
    configuration entry and the entry's name template before anything
    else: if either is missing it raises [KeyError] and the wrapped method
    is not called.  When it returns, the table it returns holds the
    configuration entry itself (the same object, not a copy), found under
    the decorator's name in a configuration that had a name template when
    the call began.  Converting that table afterwards leaves the entry as
    the staging left it. *)
Theorem X21_decorator_shares_the_configuration
    (idi_config_name : string) (decorated_fxn : M (list obj) val)
    (depth : nat) (strftime : val -> result val)
    (format : val -> gmap string val -> result val)
    (_idi_config transfer_run : val) (h : list obj) :
  let out := table_stager idi_config_name decorated_fxn depth strftime format
               _idi_config transfer_run h in
  (∀ lc cfg, _idi_config = VRef lc -> h !! lc = Some (ODict cfg) ->
     (cfg !! idi_config_name = None -> out = (Raise (KeyError idi_config_name), h))
     ∧ (∀ l idi, cfg !! idi_config_name = Some (VRef l) ->
          h !! l = Some (ODict idi) ->
          idi !! "destination_table_id_template" = None ->
          out = (Raise (KeyError "destination_table_id_template"), h)))
  ∧ (∀ ctx, out.1 = Return ctx ->
       ∃ lc cfg l idi table_template,
         _idi_config = VRef lc
         ∧ h !! lc = Some (ODict cfg)
         ∧ cfg !! idi_config_name = Some (VRef l)
         ∧ imported_data_info ctx = VRef l
         ∧ h !! l = Some (ODict idi)
         ∧ idi !! "destination_table_id_template" = Some table_template
         ∧ ∀ depth' o, out.2 !! l = Some o ->
             (to_ImportedDataInfo depth' ctx out.2).2 !! l = Some o).
Proof.
  intros out. split.
  - intros lc cfg -> Hlc. split.
    + intros Hnone. subst out. unfold table_stager, bind at 1, getitem.
      by rewrite Hlc, Hnone.
    + intros l idi Hl Hidi Hnone. subst out. unfold table_stager.
      rewrite (bind_Return _ _ _ _ _ (getitem_dict _ _ _ _ _ Hlc Hl)).
      unfold bind at 1, getitem. by rewrite Hidi, Hnone.
  - intros ctx Hret. subst out. unfold table_stager in *.
    destruct (getitem _idi_config idi_config_name h) as [[current_idi|e] h0] eqn:Hg1.
    2:{ rewrite (bind_Raise _ _ _ _ _ Hg1) in Hret. discriminate Hret. }
    rewrite (bind_Return _ _ _ _ _ Hg1) in Hret |- *.
    apply getitem_inv in Hg1 as [-> Hg1].
    destruct (Hg1 _ eq_refl) as (lc & cfg & -> & Hlc & Hentry).
    destruct (getitem current_idi "destination_table_id_template" h)
      as [[table_template|e] h0] eqn:Hg2.
    2:{ rewrite (bind_Raise _ _ _ _ _ Hg2) in Hret. discriminate Hret. }
    rewrite (bind_Return _ _ _ _ _ Hg2) in Hret |- *.
    apply getitem_inv in Hg2 as [-> Hg2].
    destruct (Hg2 _ eq_refl) as (l & idi & -> & Hl & Htmpl).
    destruct (templatize_table_name depth strftime format table_template transfer_run h)
      as [[table_name|e] h1] eqn:Ht.
    2:{ rewrite (bind_Raise _ _ _ _ _ Ht) in Hret. discriminate Hret. }
    rewrite (bind_Return _ _ _ _ _ Ht) in Hret |- *.
    destruct (decorated_fxn h1) as [[uris|e] h2] eqn:Hd.
    2:{ rewrite (bind_Raise _ _ _ _ _ Hd) in Hret. discriminate Hret. }
    rewrite (bind_Return _ _ _ _ _ Hd) in Hret |- *.
    cbn in Hret. injection Hret as <-. unfold ret. cbn [fst snd].
    exists lc, cfg, l, idi, table_template. repeat split; try done.
    intros depth' o Ho.
    destruct (to_ImportedDataInfo_frame_and_result depth'
                (mk (VRef l) table_name uris) h2) as [Hframe _].
    by eapply prefix_lookup_Some.
Qed.

Lemma X21_witness :
  let idi := <["table_defs" := VRef 2]> (∅ : gmap string val) in
  let h := [ODict (<["date_greg" := VRef 1]> ∅); ODict idi; OList []] in
  table_stager "date_greg" (ret (VRef 2)) 8
    (fun _ => Return (VStr "20180101")) (fun t _ => Return t) (VRef 0) VNone h
  = (Raise (KeyError "destination_table_id_template"), h).
Proof.
  intros idi h.
  destruct (X21_decorator_shares_the_configuration "date_greg" (ret (VRef 2)) 8
              (fun _ => Return (VStr "20180101")) (fun t _ => Return t) (VRef 0) VNone h)
    as [H _].
  destruct (H 0 (<["date_greg" := VRef 1]> ∅) eq_refl eq_refl) as [_ H'].
  apply (H' 1 idi); [vm_compute; reflexivity | reflexivity | vm_compute; reflexivity].
Defined.


(* ===================================================================== *)
(** * The base class on its own, end to end *)
(* ===================================================================== *)

Local Open Scope Z_scope.

(** X22.  A connector that does not define [stage_tables_locally] cannot
    complete any run.  For a message whose run is valid, the body raises
    [NotImplementedError] as soon as staging starts, whatever the options,
    the bucket and the loaders; with a client whose calls return, scope
    exit sends the batch that ends with the error's entry, reports FAILED
    and reports the run finished, does not suppress the error, and the
    message callback raises it: the message is neither acked nor
    nacked. *)
Theorem X22_unimplemented_staging_fails_every_run
    {V : Type} (o : opts) (required : gset string)
    (normalize_transfer_run : M state (gmap string (gmap string V)))
    (location_id local_prefix gcs_run_prefix : string) (str : val -> string)
    (bucket_location : M state string) (upload : val -> M state val)
    (start_bigquery_jobs_via_dts_apis start_bigquery_jobs_via_bq_apis :
       list t -> M state unit)
    (transfer_run : gmap string (gmap string V)) (params : gmap string V)
    (s s1 s2 : state) :
  __enter__ s = (Return tt, s1) ->
  normalize_transfer_run s1 = (Return transfer_run, s2) ->
  transfer_run !! "params" = Some params ->
  required ⊆ dom params ->
  has_dts_client s2 = true ->
  calls_return 3 s2 = true ->
  let body :=
    process_transfer_run o required normalize_transfer_run
      (fun _ => stage_data_for_transfer_run location_id local_prefix gcs_run_prefix str
                  stage_tables_locally bucket_location upload)
      start_bigquery_jobs_via_dts_apis start_bigquery_jobs_via_bq_apis in
  (body s1).1 = Raise (OtherException "NotImplementedError")
  ∧ events_since s2 (body s1).2 =
      [EvLogger INFO ("[" +:+ name s2 +:+ "] [STAGING]");
       EvLogger INFO ("[" +:+ name s2 +:+ "] Staging local => " +:+ local_prefix)]
  ∧ (pubsub_callback body s).1 = Raise (OtherException "NotImplementedError")
  ∧ dts_calls (events_since s2 (pubsub_callback body s).2) =
      [transfer_run_log_messages (name s2)
         (msgs s2 ++ [error_message (clock s2) (OtherException "NotImplementedError")]);
       transfer_run_patch_state (name s2) FAILED;
       transfer_run_finish_run (name s2)]
  ∧ settlements (events_since s2 (pubsub_callback body s).2) = [].
Proof.
  intros He Hn Hp Hreq Hc Hok body.
  set (s3 := record_event
               (EvLogger INFO ("[" +:+ name s2 +:+ "] Staging local => " +:+ local_prefix))
               (record_event (EvLogger INFO ("[" +:+ name s2 +:+ "] [STAGING]")) s2)).
  assert (Hbody : body s1 = (Raise (OtherException "NotImplementedError"), s3)).
  { subst body. unfold process_transfer_run.
    rewrite (bind_Return _ _ _ _ _ Hn), Hp.
    unfold validate_transfer_run_params. rewrite bool_decide_eq_true_2 by done.
    erewrite bind_Return by reflexivity.
    erewrite bind_Return by reflexivity.
    erewrite bind_Return by reflexivity.
    apply bind_Raise. unfold stage_data_for_transfer_run.
    erewrite bind_Return by reflexivity.
    erewrite bind_Return by reflexivity.
    apply bind_Raise. destruct s2; reflexivity. }
  assert (Hc3 : has_dts_client s3 = true) by (destruct s2; exact Hc).
  assert (Hok3 : calls_return 3 s3 = true) by (destruct s2; exact Hok).
  destruct (exit_with_client_returns (Some (OtherException "NotImplementedError")) s3
              Hc3 eq_refl Hok3) as (Hret & Hev & _).
  pose proof (appends_exit (Some (OtherException "NotImplementedError")) s3) as Happ.
  rewrite pubsub_callback_unfold, (with_scope_unfold _ _ _ _ _ He Hbody), Hbody.
  cbn [exception_of fst snd].
  destruct (__exit__ (Some (OtherException "NotImplementedError")) s3) as [[b|e'] s4];
    cbn [fst snd] in *; [|discriminate Hret].
  injection Hret as ->. cbn [fst snd].
  assert (H23 : events_since s2 s3 =
                  [EvLogger INFO ("[" +:+ name s2 +:+ "] [STAGING]");
                   EvLogger INFO ("[" +:+ name s2 +:+ "] Staging local => " +:+ local_prefix)]).
  { subst s3. destruct s2. unfold events_since. cbn. norm_trace. apply drop_app_length. }
  assert (Hpre : trace s2 `prefix_of` trace s3).
  { subst s3. destruct s2. cbn. norm_trace. by apply prefix_app_r. }
  split; [reflexivity|]. split; [exact H23|]. split; [reflexivity|].
  rewrite (events_since_trans s2 s3 s4 Hpre Happ), H23, Hev.
  assert (Hname : name s3 = name s2) by (destruct s2; reflexivity).
  assert (Hbatch : exit_batch (Some (OtherException "NotImplementedError")) s3
                   = msgs s2 ++ [error_message (clock s2) (OtherException "NotImplementedError")]).
  { subst s3. destruct s2. reflexivity. }
  rewrite Hname, Hbatch. split; reflexivity.
Qed.

Lemma X22_witness :
  let s := init "runs/r1" true 60 3600 0 [] in
  let s1 := (__enter__ s).2 in
  let transfer_run : gmap string (gmap string Z) := {["params" := ∅]} in
  let body :=
    process_transfer_run (mkOpts None (Some "sub") true 60 3600) ∅ (ret transfer_run)
      (fun _ => stage_data_for_transfer_run "us" "/tmp/src/cfg" "gs://bucket/src/cfg"
                  (fun _ => "t") stage_tables_locally (ret "us") (fun v => ret v))
      (fun _ => ret tt) (fun _ => ret tt) in
  (__enter__ s = (Return tt, s1) ∧ has_dts_client s1 = true ∧ calls_return 3 s1 = true)
  ∧ (pubsub_callback body s).1 = Raise (OtherException "NotImplementedError")
  ∧ settlements (events_since s1 (pubsub_callback body s).2) = [].
Proof.
  intros s s1 transfer_run body.
  assert (He : __enter__ s = (Return tt, s1)) by (vm_compute; reflexivity).
  assert (Hc : has_dts_client s1 = true) by (vm_compute; reflexivity).
  assert (Hok : calls_return 3 s1 = true) by (vm_compute; reflexivity).
  assert (Hp : transfer_run !! "params" = Some ∅) by (vm_compute; reflexivity).
  split; [exact (conj He (conj Hc Hok))|].
  pose proof (X22_unimplemented_staging_fails_every_run
                (mkOpts None (Some "sub") true 60 3600) ∅ (ret transfer_run)
                "us" "/tmp/src/cfg" "gs://bucket/src/cfg" (fun _ => "t")
                (ret "us") (fun v => ret v) (fun _ => ret tt) (fun _ => ret tt)
                transfer_run ∅ s s1 s1 He eq_refl Hp (empty_subseteq _) Hc Hok) as H.
  cbv zeta in H. destruct H as (_ & _ & H3 & _ & H5).
  split; [exact H3 | exact H5].
Defined.
